(** * odin: a command-line chat client, and its older sibling openai

    A shallow embedding of [src/odin.py] and [src/openai.py].  Both scripts
    talk to the outside world only: the environment, the terminal, the file
    system and one HTTP endpoint.  The embedding therefore threads an explicit
    [world] through every function, in a small state-and-error monad, and the
    theorems speak about the worlds a run starts from and ends in. *)

From Stdlib Require Import Ascii String QArith.
From stdpp Require Import gmap strings list pretty.

Set Warnings "-register-all".

Local Open Scope string_scope.
Local Open Scope Z_scope.
Local Open Scope list_scope.

(** ** Python [str]

    A [str] is modelled by a Rocq [string] whose characters are the code
    points U+0000 to U+00FF.  On that range [str.lower], [str.isalpha] and
    [str.isspace] act character by character and stay inside the range; the
    tables below are those of the Unicode database restricted to it. *)

Module Str.

Definition code (c : ascii) : N := N_of_ascii c.

Definition between (lo hi n : N) : bool := ((lo <=? n) && (n <=? hi))%N.

(** [c.isspace()]: TAB..CR, FS..US, SPACE, NEL and NBSP. *)
Definition isspace (c : ascii) : bool :=
  let n := code c in
  between 9 13 n || between 28 32 n || (n =? 133)%N || (n =? 160)%N.

(** [c.isalpha()]: the letters of Basic Latin and Latin-1 Supplement. *)
Definition isalpha (c : ascii) : bool :=
  let n := code c in
  between 65 90 n || between 97 122 n
  || (n =? 170)%N || (n =? 181)%N || (n =? 186)%N
  || between 192 214 n || between 216 246 n || between 248 255 n.

(** One character of [s.lower()]. *)
Definition lower_char (c : ascii) : ascii :=
  let n := code c in
  if between 65 90 n || between 192 214 n || between 216 222 n
  then ascii_of_N (n + 32)
  else c.

Fixpoint map (f : ascii -> ascii) (s : string) : string :=
  match s with
  | EmptyString => EmptyString
  | String c s' => String (f c) (map f s')
  end.

Fixpoint filter (p : ascii -> bool) (s : string) : string :=
  match s with
  | EmptyString => EmptyString
  | String c s' => if p c then String c (filter p s') else filter p s'
  end.

Fixpoint forallb (p : ascii -> bool) (s : string) : bool :=
  match s with
  | EmptyString => true
  | String c s' => p c && forallb p s'
  end.

(** [s.lower()] *)
Definition lower (s : string) : string := map lower_char s.

Fixpoint lstrip (s : string) : string :=
  match s with
  | EmptyString => EmptyString
  | String c s' => if isspace c then lstrip s' else s
  end.

Fixpoint rstrip (s : string) : string :=
  match s with
  | EmptyString => EmptyString
  | String c s' =>
      match rstrip s' with
      | EmptyString => if isspace c then EmptyString else String c EmptyString
      | r => String c r
      end
  end.

(** [s.strip()] *)
Definition strip (s : string) : string := rstrip (lstrip s).

(** [s.replace(a, b)] for one-character [a] and [b]. *)
Definition replace (a b : ascii) (s : string) : string :=
  map (fun c => if Ascii.eqb c a then b else c) s.

(** [bool(s)]: a [str] is true when it is not empty. *)
Definition truthy (s : string) : bool :=
  match s with EmptyString => false | _ => true end.

(** [sys.stdin.readline()]: the text up to and including the first newline,
    and what remains of the stream. *)
Fixpoint readline (s : string) : string * string :=
  match s with
  | EmptyString => (EmptyString, EmptyString)
  | String c s' =>
      if Ascii.eqb c "010"%char then (String c EmptyString, s')
      else let '(l, r) := readline s' in (String c l, r)
  end.

(** [s.split(sep)] for a one-character separator. *)
Fixpoint split (sep : ascii) (s : string) : list string :=
  match s with
  | EmptyString => [EmptyString]
  | String c s' =>
      if Ascii.eqb c sep then EmptyString :: split sep s'
      else match split sep s' with
           | [] => [String c EmptyString]
           | h :: t => String c h :: t
           end
  end.

(** [sep.join(l)] *)
Fixpoint join (sep : string) (l : list string) : string :=
  match l with
  | [] => EmptyString
  | [x] => x
  | x :: l' => x +:+ sep +:+ join sep l'
  end.

Definition startswith (c : ascii) (s : string) : bool :=
  match s with String d _ => Ascii.eqb d c | EmptyString => false end.

Definition tail (s : string) : string :=
  match s with String _ s' => s' | EmptyString => EmptyString end.

End Str.

(** ** JSON values

    What [json.load] returns and [json.dump] accepts.  A Python [dict] keeps
    its keys in insertion order, so an object is an association list (without
    repeated keys). *)

Inductive json : Type :=
  | JNull
  | JBool (b : bool)
  | JInt (n : Z)
  | JFloat (q : Q)
  | JStr (s : string)
  | JArr (l : list json)
  | JObj (o : list (string * json)).

Fixpoint assoc (k : string) (o : list (string * json)) : option json :=
  match o with
  | [] => None
  | (k', v) :: o' => if String.eqb k k' then Some v else assoc k o'
  end.

(** [{'role': role, 'content': content}] *)
Definition turn (role content : string) : json :=
  JObj [("role", JStr role); ("content", JStr content)].

(** ** Paths, as [pathlib.PurePosixPath] has them *)

Record path : Type := Path { anchored : bool; parts : list string }.

Definition proper_part (s : string) : bool :=
  Str.truthy s && negb (String.eqb s ".").

(** [Path(s)]: empty and [.] components are dropped, [..] is kept. *)
Definition parse_path (s : string) : path :=
  {| anchored := Str.startswith "/"%char s;
     parts := List.filter proper_part (Str.split "/"%char s) |}.

(** [p / s]: an absolute right operand replaces the left one. *)
Definition joinpath (p : path) (s : string) : path :=
  let q := parse_path s in
  if anchored q then q
  else {| anchored := anchored p; parts := parts p ++ parts q |}.

(** [str(p)] *)
Definition path_str (p : path) : string :=
  if anchored p then "/" +:+ Str.join "/" (parts p)
  else match parts p with
       | [] => "."
       | _ => Str.join "/" (parts p)
       end.

(** What the operating system makes of a path: the components are walked from
    the root or from the working directory, [..] going one level up.
    Symbolic links are not modelled. *)
Definition walk (acc : list string) (part : string) : list string :=
  if String.eqb part ".." then removelast acc else acc ++ [part].

Definition resolve (cwd : list string) (p : path) : list string :=
  fold_left walk (parts p) (if anchored p then [] else cwd).

(** ** The world a run lives in *)

(** A node of the file tree.  A regular file is modelled by what [json.load]
    makes of it: [Some v] when its text is a JSON document for [v], [None]
    otherwise.  [json.dump] writes [Some v]. *)
Inductive node : Type :=
  | Dir
  | File (doc : option json).

(** The key file at [API_KEY_PATH], when it exists: its [st_mode], and the
    text [open('r')] and [read()] give ([None] when opening fails).  It is read
    once, before anything is written, and is kept apart from the tree. *)
Record key_file_t : Type := KeyFile { st_mode : Z; key_text : option string }.

Record request : Type := Request {
  url : string;
  headers : list (string * string);
  body : json
}.

(** The answer to [requests.post]: no answer at all, or an HTTP status with a
    body that is JSON or not. *)
Inductive reply : Type :=
  | NoReply
  | Reply (status : Z) (payload : option json).

(** What has been written to standard output. *)
Inductive out : Type :=
  | Wrote (s : string)        (* sys.stdout.write(s) *)
  | Printed (s : string)      (* print(s) *)
  | PrintedJson (v : json).   (* print(json.dumps(v, indent=2)) *)

Record world : Type := World {
  (* the surroundings, fixed during a run *)
  env_apikey : option string;             (* os.environ.get('OPENAI_APIKEY') *)
  home : list string;                     (* the user's home directory *)
  pw_home : string -> option (list string); (* home directories of other users *)
  cwd : list string;                      (* the working directory *)
  isatty : bool;                          (* sys.stdin.isatty() *)
  clock : string;                         (* datetime.now().isoformat() *)
  server : list request -> request -> reply;
  key_file : option key_file_t;
  (* what a run changes *)
  stdin : string;
  fs : gmap (list string) node;
  stdout : list out;
  sent : list request;
  (* module globals *)
  HEADERS : list (string * string);
  conversation_file : option path;
  interactive_mode : bool
}.

Definition with_stdin (s : string) (w : world) : world :=
  World (env_apikey w) (home w) (pw_home w) (cwd w) (isatty w) (clock w)
        (server w) (key_file w) s (fs w) (stdout w) (sent w)
        (HEADERS w) (conversation_file w) (interactive_mode w).

Definition with_fs (m : gmap (list string) node) (w : world) : world :=
  World (env_apikey w) (home w) (pw_home w) (cwd w) (isatty w) (clock w)
        (server w) (key_file w) (stdin w) m (stdout w) (sent w)
        (HEADERS w) (conversation_file w) (interactive_mode w).

Definition with_stdout (o : list out) (w : world) : world :=
  World (env_apikey w) (home w) (pw_home w) (cwd w) (isatty w) (clock w)
        (server w) (key_file w) (stdin w) (fs w) o (sent w)
        (HEADERS w) (conversation_file w) (interactive_mode w).

Definition with_sent (l : list request) (w : world) : world :=
  World (env_apikey w) (home w) (pw_home w) (cwd w) (isatty w) (clock w)
        (server w) (key_file w) (stdin w) (fs w) (stdout w) l
        (HEADERS w) (conversation_file w) (interactive_mode w).

Definition with_HEADERS (h : list (string * string)) (w : world) : world :=
  World (env_apikey w) (home w) (pw_home w) (cwd w) (isatty w) (clock w)
        (server w) (key_file w) (stdin w) (fs w) (stdout w) (sent w)
        h (conversation_file w) (interactive_mode w).

Definition with_conversation_file (p : option path) (w : world) : world :=
  World (env_apikey w) (home w) (pw_home w) (cwd w) (isatty w) (clock w)
        (server w) (key_file w) (stdin w) (fs w) (stdout w) (sent w)
        (HEADERS w) p (interactive_mode w).

Definition with_interactive_mode (b : bool) (w : world) : world :=
  World (env_apikey w) (home w) (pw_home w) (cwd w) (isatty w) (clock w)
        (server w) (key_file w) (stdin w) (fs w) (stdout w) (sent w)
        (HEADERS w) (conversation_file w) b.

(** ** Running a script: results, exceptions, exits *)

Inductive exn : Type :=
  | RuntimeError | OSError | FileNotFoundError | FileExistsError
  | NotADirectoryError | IsADirectoryError
  | JSONDecodeError | AttributeError | KeyError | IndexError | TypeError
  | HTTPError | ConnectionError.

(** A call returns a value, leaves through [sys.exit], dies of an exception
    nobody catches, or is still running when the fuel is spent. *)
Inductive result (A : Type) : Type :=
  | Ret (a : A)
  | Exit (code : Z)
  | Raise (e : exn)
  | OutOfFuel.

Arguments Ret {A} a.
Arguments Exit {A} code.
Arguments Raise {A} e.
Arguments OutOfFuel {A}.

Definition M (A : Type) : Type := world -> result A * world.

Definition ret {A} (a : A) : M A := fun w => (Ret a, w).

Definition bind {A B} (m : M A) (k : A -> M B) : M B :=
  fun w =>
    match m w with
    | (Ret a, w') => k a w'
    | (Exit c, w') => (Exit c, w')
    | (Raise e, w') => (Raise e, w')
    | (OutOfFuel, w') => (OutOfFuel, w')
    end.

Definition raise {A} (e : exn) : M A := fun w => (Raise e, w).
Definition sys_exit {A} (code : Z) : M A := fun w => (Exit code, w).
Definition out_of_fuel {A} : M A := fun w => (OutOfFuel, w).
Definition get : M world := fun w => (Ret w, w).
Definition modify (f : world -> world) : M unit := fun w => (Ret tt, f w).

Notation "x <- m ;; k" := (bind m (fun x => k))
  (at level 100, m at next level, right associativity).
Notation "m ;; k" := (bind m (fun _ => k))
  (at level 100, right associativity).

(** The exit status the shell sees. *)
Definition exit_status {A} (r : result A) : option Z :=
  match r with
  | Ret _ => Some 0
  | Exit c => Some c
  | Raise _ => Some 1
  | OutOfFuel => None
  end.

(** ** Library calls *)

Definition print (s : string) : M unit :=
  modify (fun w => with_stdout (stdout w ++ [Printed s]) w).

Definition print_json (v : json) : M unit :=
  modify (fun w => with_stdout (stdout w ++ [PrintedJson v]) w).

Definition stdout_write (s : string) : M unit :=
  modify (fun w => with_stdout (stdout w ++ [Wrote s]) w).

(** [sys.stdin.readline()] *)
Definition stdin_readline : M string :=
  fun w => let '(l, r) := Str.readline (stdin w) in (Ret l, with_stdin r w).

(** [sys.stdin.read()] *)
Definition stdin_read : M string :=
  fun w => (Ret (stdin w), with_stdin EmptyString w).

(** The node at a resolved path; the root is always a directory. *)
Definition node_at (m : gmap (list string) node) (q : list string) : option node :=
  match q with
  | [] => Some Dir
  | _ => m !! q
  end.

(** [p.exists()] *)
Definition path_exists (w : world) (p : path) : bool :=
  match node_at (fs w) (resolve (cwd w) p) with
  | Some _ => true
  | None => false
  end.

(** [p.expanduser()] *)
Definition expanduser (w : world) (p : path) : option path :=
  if anchored p then Some p
  else match parts p with
       | h :: t =>
           if Str.startswith "~"%char h then
             match (if Str.truthy (Str.tail h) then pw_home w (Str.tail h)
                    else Some (home w)) with
             | Some d => Some {| anchored := true; parts := d ++ t |}
             | None => None
             end
           else Some p
       | [] => Some p
       end.

(** [p.mkdir(parents=True, exist_ok=True)] on a resolved path: every missing
    directory on the way is created; a regular file in the way is an error. *)
Fixpoint mkdir_from (done todo : list string) (m : gmap (list string) node)
  : option (gmap (list string) node) :=
  match todo with
  | [] => Some m
  | d :: todo' =>
      let q := done ++ [d] in
      match m !! q with
      | Some (File _) => None
      | Some Dir => mkdir_from q todo' m
      | None => mkdir_from q todo' (<[q := Dir]> m)
      end
  end.

Definition mkdir_p (p : path) : M unit :=
  fun w =>
    match mkdir_from [] (resolve (cwd w) p) (fs w) with
    | Some m => (Ret tt, with_fs m w)
    | None => (Raise FileExistsError, w)
    end.

(** [with p.open('r') as f: json.load(f)] *)
Definition load_json (p : path) : M json :=
  fun w =>
    match node_at (fs w) (resolve (cwd w) p) with
    | None => (Raise FileNotFoundError, w)
    | Some Dir => (Raise IsADirectoryError, w)
    | Some (File None) => (Raise JSONDecodeError, w)
    | Some (File (Some v)) => (Ret v, w)
    end.

(** [with p.open('w') as f: json.dump(v, f, indent=2)]: the directory that
    is to hold the file must exist. *)
Definition dump_json (p : path) (v : json) : M unit :=
  fun w =>
    let q := resolve (cwd w) p in
    match q with
    | [] => (Raise IsADirectoryError, w)
    | _ =>
        match node_at (fs w) (removelast q) with
        | Some Dir =>
            match fs w !! q with
            | Some Dir => (Raise IsADirectoryError, w)
            | _ => (Ret tt, with_fs (<[q := File (Some v)]> (fs w)) w)
            end
        | Some (File _) => (Raise NotADirectoryError, w)
        | None => (Raise FileNotFoundError, w)
        end
    end.

(** [requests.post(url, headers=HEADERS, json=data)] *)
Definition post (u : string) (data : json) : M reply :=
  fun w =>
    let rq := {| url := u; headers := HEADERS w; body := data |} in
    (Ret (server w (sent w) rq), with_sent (sent w ++ [rq]) w).

(** [response.raise_for_status()]: statuses 400 to 599 are errors. *)
Definition is_error_status (st : Z) : bool := (400 <=? st) && (st <? 600).

(** [v[k]] for a string key. *)
Definition getitem (v : json) (k : string) : M json :=
  match v with
  | JObj o => match assoc k o with Some x => ret x | None => raise KeyError end
  | _ => raise TypeError
  end.

(** [v[0]] *)
Definition getitem0 (v : json) : M json :=
  match v with
  | JArr (x :: _) => ret x
  | JArr [] => raise IndexError
  | JStr (String c _) => ret (JStr (String c EmptyString))
  | JStr EmptyString => raise IndexError
  | JObj _ => raise KeyError
  | _ => raise TypeError
  end.

(** [v.strip()] *)
Definition strip_method (v : json) : M string :=
  match v with
  | JStr s => ret (Str.strip s)
  | _ => raise AttributeError
  end.

(** ** Constants shared by the two scripts *)

Definition API_BASE_URL : string := "https://api.openai.com/v1/chat/completions".

(** [Path('~/.openai/conversations/').expanduser()] *)
Definition CONVERSATIONS_DIR (w : world) : path :=
  {| anchored := true; parts := home w ++ [".openai"; "conversations"] |}.

(** [stat.S_IRWXG | stat.S_IRWXO] *)
Definition S_IRWXG : Z := 56.
Definition S_IRWXO : Z := 7.

(** [d[k] = v] on a [dict] *)
Fixpoint dict_set (k v : string) (d : list (string * string)) : list (string * string) :=
  match d with
  | [] => [(k, v)]
  | (k', v') :: d' =>
      if String.eqb k k' then (k, v) :: d' else (k', v') :: dict_set k v d'
  end.

(** [for key, value in HEADERS.items(): print(f'{key}: {value}')] *)
Fixpoint print_items (d : list (string * string)) : M unit :=
  match d with
  | [] => ret tt
  | (k, v) :: d' => print (k +:+ ": " +:+ v) ;; print_items d'
  end.

(** [bool(args.file)]: the option was given, and not as the empty string. *)
Definition given (o : option string) : option string :=
  match o with
  | Some f => if Str.truthy f then Some f else None
  | None => None
  end.

(** * [src/odin.py] *)

Module Odin.

Definition API_DEFAULT_MODEL : string := "gpt-3.5-turbo".

(** The command line, as [argparse] returns it. *)
Record args_t : Type := Args {
  temperature : Q;
  system : string;
  token_limit : option Z;
  file : option string;
  model : string;
  debug : bool
}.

(** The [__main__] block before [main()] is called. *)
Definition startup (w : world) : world :=
  with_interactive_mode false (with_conversation_file None (with_HEADERS [] w)).

Definition signal_handler : M unit :=
  w <- get ;;
  (match conversation_file w with
   | Some p =>
       if interactive_mode w then
         print "" ;;
         print ("Conversation stored in " +:+ path_str p)
       else ret tt
   | None => ret tt
   end) ;;
  print "" ;;
  sys_exit 0.

Definition load_api_key : M string :=
  w <- get ;;
  match given (env_apikey w) with
  | Some api_key => ret (Str.strip api_key)
  | None =>
      match key_file w with
      | None =>
          print "Error: API key not found in environment variable and file not found at the specified location." ;;
          print "Please ensure that your API key is located at ~/.openai/apikey or set in the OPENAI_APIKEY environment variable." ;;
          sys_exit 1
      | Some kf =>
          if negb (Z.land (st_mode kf) (Z.lor S_IRWXG S_IRWXO) =? 0) then
            print "Error: API key file should not be accessible (readable, writable, or executable) by anyone other than the user." ;;
            sys_exit 1
          else
            match key_text kf with
            | Some text => ret (Str.strip text)
            | None => raise OSError
            end
      end
  end.

Definition get_chat_input (prompt : string) : M string :=
  stdout_write prompt ;;
  line <- stdin_readline ;;
  ret (Str.strip line).

Definition print_request_data (a : args_t) (data : json) : M unit :=
  if debug a then
    print "Headers:" ;;
    w <- get ;;
    print_items (HEADERS w) ;;
    print (String "010"%char "Request body:") ;;
    print_json data
  else ret tt.

Definition print_response_data (a : args_t) (data : json) : M unit :=
  if debug a then
    print "Response:" ;;
    print_json data
  else ret tt.

Definition send_gpt_request (a : args_t) (conversation_history : list json)
    (max_tokens : option Z) (temperature : Q) (model : string) : M string :=
  let data :=
    [("messages", JArr conversation_history);
     ("model", JStr model);
     ("temperature", JFloat temperature)] in
  let data :=
    match max_tokens with
    | Some n => data ++ [("max_tokens", JInt n)]
    | None => data
    end in
  print_request_data a (JObj data) ;;
  response <- post API_BASE_URL (JObj data) ;;
  match response with
  | NoReply => raise ConnectionError
  | Reply st payload =>
      match payload with
      | None => raise JSONDecodeError
      | Some j =>
          print_response_data a j ;;
          if is_error_status st then raise HTTPError
          else
            choices <- getitem j "choices" ;;
            choice <- getitem0 choices ;;
            message <- getitem choice "message" ;;
            content <- getitem message "content" ;;
            strip_method content
      end
  end.

(** The post-processing in [generate_slogan], lines 73 to 75. *)
Definition keep_letters_spaces (response : string) : string :=
  Str.filter (fun c => Str.isalpha c || Str.isspace c) response.

Definition post_process (response : string) : string :=
  let response := Str.lower response in
  let response := keep_letters_spaces response in
  Str.replace " "%char "_"%char (Str.strip response).

Definition slogan_instruction : string :=
  "Summarize this text in max three words. The summary should provide the clearest possible understanding of the text in this minimal format.".

Definition generate_slogan (a : args_t) (prompt : string) : M string :=
  let conversation_history :=
    [turn "system" slogan_instruction; turn "user" prompt] in
  response <- send_gpt_request a conversation_history (Some 10) (7 # 10)%Q
                API_DEFAULT_MODEL ;;
  ret (post_process response).

Definition continue_conversation (file_path : path) (system_message : string)
  : M (list json) :=
  loaded <- load_json file_path ;;
  match loaded with
  | JArr conversation_history =>
      ret (conversation_history ++ [turn "system" system_message])
  | _ => raise AttributeError
  end.

(** Lines 136 to 142 of [main]: the first of [slogan.json], [slogan_1.json],
    [slogan_2.json], ... that does not exist in the conversation directory.
    [filename] and [counter] are the loop's variables. *)
Fixpoint pick_filename (fuel : nat) (slogan filename : string) (counter : nat)
  : M string :=
  match fuel with
  | O => out_of_fuel
  | S fuel' =>
      w <- get ;;
      if path_exists w (joinpath (CONVERSATIONS_DIR w) filename) then
        pick_filename fuel' slogan (slogan +:+ "_" +:+ pretty counter +:+ ".json")
                      (S counter)
      else ret filename
  end.

(** Lines 144 to 165 of [main]: the [while True] loop. *)
Fixpoint chat_loop (fuel : nat) (a : args_t) (conversation_history : list json)
    (message filename : string) : M unit :=
  match fuel with
  | O => out_of_fuel
  | S fuel' =>
      let conversation_history :=
        conversation_history ++ [turn "user" message] in
      response <- send_gpt_request a conversation_history (token_limit a)
                    (temperature a) (model a) ;;
      let conversation_history :=
        conversation_history ++ [turn "assistant" response] in
      print ("ChatGPT: " +:+ response) ;;
      w <- get ;;
      (if interactive_mode w then
         let target := joinpath (CONVERSATIONS_DIR w) filename in
         modify (with_conversation_file (Some target)) ;;
         dump_json target (JArr conversation_history)
       else ret tt) ;;
      if negb (interactive_mode w) then ret tt
      else
        message <- get_chat_input "You: " ;;
        chat_loop fuel' a conversation_history message filename
  end.

(** Lines 129 to 142 of [main]: the conversation to go on with and the name
    of its file, from [--file] or from a slogan. *)
Definition open_conversation (fuel : nat) (a : args_t) (message : string)
  : M (list json * string) :=
  match given (file a) with
  | Some f =>
      w <- get ;;
      match expanduser w (parse_path f) with
      | None => raise RuntimeError
      | Some file_path =>
          conversation_history <- continue_conversation file_path (system a) ;;
          ret (conversation_history, f)
      end
  | None =>
      let conversation_history := [turn "system" (system a)] in
      slogan <- generate_slogan a message ;;
      filename <- pick_filename fuel slogan (slogan +:+ ".json") 1 ;;
      ret (conversation_history, filename)
  end.

Definition main (fuel : nat) (a : args_t) : M unit :=
  api_key <- load_api_key ;;
  modify (fun w => with_HEADERS
                     (dict_set "Authorization" ("Bearer " +:+ api_key) (HEADERS w)) w) ;;
  w <- get ;;
  mkdir_p (CONVERSATIONS_DIR w) ;;
  modify (with_conversation_file None) ;;
  modify (fun w => with_interactive_mode (isatty w) w) ;;
  w <- get ;;
  message <- (if interactive_mode w then get_chat_input "You: "
              else text <- stdin_read ;; ret (Str.strip text)) ;;
  started <- open_conversation fuel a message ;;
  let '(conversation_history, filename) := started in
  chat_loop fuel a conversation_history message filename.

(** The whole script, from the shell. *)
Definition script (fuel : nat) (a : args_t) (w : world) : result unit * world :=
  main fuel a (startup w).

End Odin.

(** * [src/openai.py] *)

Module OpenAI.

Definition API_MODEL : string := "gpt-3.5-turbo".

Record args_t : Type := Args {
  temperature : Q;
  system : string;
  token_limit : option Z;
  file : option string;
  debug : bool
}.

Definition startup (w : world) : world := with_HEADERS [] w.

Definition signal_handler : M unit :=
  print "" ;;
  sys_exit 0.

Definition load_api_key : M string :=
  w <- get ;;
  match key_file w with
  | None => raise FileNotFoundError
  | Some kf =>
      match key_text kf with
      | Some text => ret (Str.strip text)
      | None => raise OSError
      end
  end.

Definition get_chat_input (prompt : string) : M string :=
  stdout_write prompt ;;
  line <- stdin_readline ;;
  ret (Str.strip line).

Definition print_request_data (a : args_t) (data : json) : M unit :=
  if debug a then
    print "Headers:" ;;
    w <- get ;;
    print_items (HEADERS w) ;;
    print (String "010"%char "Request body:") ;;
    print_json data
  else ret tt.

Definition print_response_data (a : args_t) (data : json) : M unit :=
  if debug a then
    print "Response:" ;;
    print_json data
  else ret tt.

Definition send_gpt_request (a : args_t) (conversation_history : list json)
    (max_tokens : option Z) (temperature : Q) : M string :=
  let data :=
    [("messages", JArr conversation_history);
     ("model", JStr API_MODEL);
     ("temperature", JFloat temperature)] in
  let data :=
    match max_tokens with
    | Some n => data ++ [("max_tokens", JInt n)]
    | None => data
    end in
  print_request_data a (JObj data) ;;
  response <- post API_BASE_URL (JObj data) ;;
  match response with
  | NoReply => raise ConnectionError
  | Reply st payload =>
      match payload with
      | None => raise JSONDecodeError
      | Some j =>
          print_response_data a j ;;
          if is_error_status st then raise HTTPError
          else
            choices <- getitem j "choices" ;;
            choice <- getitem0 choices ;;
            message <- getitem choice "message" ;;
            content <- getitem message "content" ;;
            strip_method content
      end
  end.

Definition keep_letters_spaces (response : string) : string :=
  Str.filter (fun c => Str.isalpha c || Str.isspace c) response.

Definition post_process (response : string) : string :=
  let response := Str.lower response in
  let response := keep_letters_spaces response in
  Str.replace " "%char "_"%char (Str.strip response).

Definition generate_slogan (a : args_t) (prompt : string) : M string :=
  let conversation_history :=
    [turn "system" "Summarize text in max three words"; turn "user" prompt] in
  response <- send_gpt_request a conversation_history (Some 10) (7 # 10)%Q ;;
  ret (post_process response).

Definition continue_conversation (file_path : path) (system_message : string)
  : M (list json) :=
  loaded <- load_json file_path ;;
  match loaded with
  | JArr conversation_history =>
      ret (conversation_history ++ [turn "system" system_message])
  | _ => raise AttributeError
  end.

(** Lines 110 to 128 of [main]: the [while True] loop. *)
Fixpoint chat_loop (fuel : nat) (a : args_t) (conversation_history : list json)
    (message filename : string) : M unit :=
  match fuel with
  | O => out_of_fuel
  | S fuel' =>
      let conversation_history :=
        conversation_history ++ [turn "user" message] in
      response <- send_gpt_request a conversation_history (token_limit a)
                    (temperature a) ;;
      let conversation_history :=
        conversation_history ++ [turn "assistant" response] in
      print ("ChatGPT: " +:+ response) ;;
      w <- get ;;
      dump_json (joinpath (CONVERSATIONS_DIR w) filename)
                (JArr conversation_history) ;;
      if negb (isatty w) then ret tt
      else
        message <- get_chat_input "You: " ;;
        chat_loop fuel' a conversation_history message filename
  end.

(** Lines 100 to 107 of [main]: the conversation to go on with and the name
    of its file, from [--file] or from the time and a slogan. *)
Definition open_conversation (timestamp : string) (a : args_t) (message : string)
  : M (list json * string) :=
  match given (file a) with
  | Some f =>
      w <- get ;;
      match expanduser w (parse_path f) with
      | None => raise RuntimeError
      | Some file_path =>
          conversation_history <- continue_conversation file_path (system a) ;;
          ret (conversation_history, f)
      end
  | None =>
      let conversation_history := [turn "system" (system a)] in
      slogan <- generate_slogan a message ;;
      let filename := timestamp +:+ "_" +:+ slogan +:+ ".json" in
      ret (conversation_history, filename)
  end.

Definition main (fuel : nat) (a : args_t) : M unit :=
  api_key <- load_api_key ;;
  modify (fun w => with_HEADERS
                     (dict_set "Authorization" ("Bearer " +:+ api_key) (HEADERS w)) w) ;;
  w <- get ;;
  let timestamp := clock w in
  mkdir_p (CONVERSATIONS_DIR w) ;;
  message <- (if isatty w then get_chat_input "You: "
              else text <- stdin_read ;; ret (Str.strip text)) ;;
  started <- open_conversation timestamp a message ;;
  let '(conversation_history, filename) := started in
  chat_loop fuel a conversation_history message filename.

Definition script (fuel : nat) (a : args_t) (w : world) : result unit * world :=
  main fuel a (startup w).

End OpenAI.

(** * Vocabulary of the statements *)

(** [choices[0].message.content] of a response body, when it is there. *)
Definition first_choice_content (j : json) : option json :=
  match j with
  | JObj o =>
      match assoc "choices" o with
      | Some (JArr (JObj choice :: _)) =>
          match assoc "message" choice with
          | Some (JObj message) => assoc "content" message
          | _ => None
          end
      | _ => None
      end
  | _ => None
  end.

(** The request body of section 6 of the specification:
    [{messages, model, temperature, max_tokens?}]. *)
Definition request_body (turns : list json) (limit : option Z) (temp : Q)
    (model_name : string) : json :=
  JObj ([("messages", JArr turns); ("model", JStr model_name);
         ("temperature", JFloat temp)]
        ++ match limit with Some n => [("max_tokens", JInt n)] | None => [] end).

Definition request_for (w : world) (data : json) : request :=
  {| url := API_BASE_URL; headers := HEADERS w; body := data |}.

(** What a call makes of the server's answer. *)
Definition reply_outcome (rp : reply) (r : result string) : Prop :=
  match rp with
  | NoReply => r = Raise ConnectionError
  | Reply st None => r = Raise JSONDecodeError
  | Reply st (Some j) =>
      if is_error_status st then r = Raise HTTPError
      else match first_choice_content j with
           | Some (JStr c) => r = Ret (Str.strip c)
           | _ => exists e, r = Raise e
           end
  end.

(** The world after one request was sent and [o] was printed. *)
Definition logged (rq : request) (o : list out) (w : world) : world :=
  with_sent (sent w ++ [rq]) (with_stdout (stdout w ++ o) w).


(** The arguments of [openai.py] read as arguments of [odin.py], with the
    model [openai.py] fixes. *)
Definition as_odin (a : OpenAI.args_t) : Odin.args_t :=
  {| Odin.temperature := OpenAI.temperature a;
     Odin.system := OpenAI.system a;
     Odin.token_limit := OpenAI.token_limit a;
     Odin.file := OpenAI.file a;
     Odin.model := OpenAI.API_MODEL;
     Odin.debug := OpenAI.debug a |}.

(** A field of a JSON object. *)
Definition field (k : string) (v : json) : option json :=
  match v with
  | JObj o => assoc k o
  | _ => None
  end.

(** The permission bits of [mode] give group or other some access: one of
    the six low bits (rwx for group, rwx for other) is set. *)
Definition grants_group_or_other (mode : Z) : Prop :=
  exists i, 0 <= i < 6 /\ Z.testbit mode i = true.

(** The slug of section 4.3 of the specification, in its words: lowercase the
    reply, drop what is neither a letter nor whitespace, trim, put underscores
    for the spaces. *)
Definition slug (raw : string) : string :=
  let lowered := Str.lower raw in
  let kept := Str.filter (fun c => Str.isalpha c || Str.isspace c) lowered in
  let trimmed := Str.strip kept in
  Str.replace " "%char "_"%char trimmed.

(** The names the disambiguation goes through: [slogan.json], [slogan_1.json],
    [slogan_2.json], ... *)
Definition candidate (slogan : string) (k : nat) : string :=
  match k with
  | O => slogan +:+ ".json"
  | S _ => slogan +:+ "_" +:+ pretty k +:+ ".json"
  end.

(** [name] exists in the conversation directory. *)
Definition taken (w : world) (name : string) : bool :=
  path_exists w (joinpath (CONVERSATIONS_DIR w) name).

(** [candidate slogan k] is the first of the sequence that does not exist. *)
Definition first_free (w : world) (slogan : string) (k : nat) : Prop :=
  taken w (candidate slogan k) = false
  /\ forall i, (i < k)%nat -> taken w (candidate slogan i) = true.

Definition no_slash (s : string) : bool :=
  Str.forallb (fun c => negb (Ascii.eqb c "/"%char)) s.

(** ** Scenarios *)

(** A well-formed completion whose first choice carries [c]. *)
Definition completion (c : string) : reply :=
  Reply 200
    (Some (JObj [("choices",
                  JArr [JObj [("message",
                               JObj [("role", JStr "assistant");
                                     ("content", JStr c)])]])])).

Definition conversations : list string := ["home"; "u"; ".openai"; "conversations"].

(** A bare machine: user [u], nothing on disk, nothing typed, a server that
    answers every request with [answer]. *)
Definition machine (tty : bool) (input : string) (answer : list request -> request -> reply)
  : world :=
  {| env_apikey := Some "sk-test";
     home := ["home"; "u"];
     pw_home := fun _ => None;
     cwd := ["home"; "u"];
     isatty := tty;
     clock := "2024-05-01T10:00:00";
     server := answer;
     key_file := None;
     stdin := input;
     fs := ∅;
     stdout := [];
     sent := [];
     HEADERS := [];
     conversation_file := None;
     interactive_mode := false |}.

Definition with_key_file (k : option key_file_t) (e : option string) (w : world) : world :=
  World e (home w) (pw_home w) (cwd w) (isatty w) (clock w)
        (server w) k (stdin w) (fs w) (stdout w) (sent w)
        (HEADERS w) (conversation_file w) (interactive_mode w).


Definition odin_defaults : Odin.args_t :=
  {| Odin.temperature := 1; Odin.system := "You are a helpful assistant";
     Odin.token_limit := None; Odin.file := None;
     Odin.model := Odin.API_DEFAULT_MODEL; Odin.debug := false |}.

Definition openai_defaults : OpenAI.args_t :=
  {| OpenAI.temperature := 1; OpenAI.system := "You are a helpful assistant";
     OpenAI.token_limit := None; OpenAI.file := None; OpenAI.debug := false |}.

Definition odin_resume (f : string) : Odin.args_t :=
  {| Odin.temperature := 1; Odin.system := "You are a helpful assistant";
     Odin.token_limit := None; Odin.file := Some f;
     Odin.model := Odin.API_DEFAULT_MODEL; Odin.debug := false |}.

Definition openai_resume (f : string) : OpenAI.args_t :=
  {| OpenAI.temperature := 1; OpenAI.system := "You are a helpful assistant";
     OpenAI.token_limit := None; OpenAI.file := Some f; OpenAI.debug := false |}.

(** The piped scenario of the specification: [What is 2+2?] on standard
    input, a server that answers [4]. *)
Definition piped_world : world :=
  machine false "What is 2+2?" (fun _ _ => completion "4").

(** The interactive scenario: the user types [hello]; the slogan request is
    answered [Warm Greeting], the chat requests [Hi!]. *)
Definition greeting_world : world :=
  machine true (String.append "hello" (String "010"%char ""))
    (fun log _ => match log with
                  | [] => completion "Warm Greeting"
                  | _ => completion "Hi!"
                  end).

(** The disambiguation scenario: [launch.json] and [launch_1.json] exist. *)
Definition launch_world : world :=
  with_fs (<[conversations ++ ["launch_1.json"] := File (Some (JArr []))]>
           (<[conversations ++ ["launch.json"] := File (Some (JArr []))]>
            (<[conversations := Dir]>
             (<[["home"; "u"; ".openai"] := Dir]> ∅))))
    (machine true (String.append "go" (String "010"%char ""))
       (fun log _ => match log with
                     | [] => completion "Launch!"
                     | _ => completion "Lift-off."
                     end)).

(** A key file that the group may read, and no environment override. *)
Definition insecure_world : world :=
  with_key_file (Some {| st_mode := 33184; key_text := Some "sk-file" |}) None
    piped_world.

(** The messages of [load_api_key] in [odin.py]. *)
Definition missing_key_output : list out :=
  [Printed "Error: API key not found in environment variable and file not found at the specified location.";
   Printed "Please ensure that your API key is located at ~/.openai/apikey or set in the OPENAI_APIKEY environment variable."].

Definition insecure_key_output : list out :=
  [Printed "Error: API key file should not be accessible (readable, writable, or executable) by anyone other than the user."].

(** What [signal_handler] of [odin.py] prints. *)
Definition interrupt_output (w : world) : list out :=
  match conversation_file w with
  | Some p =>
      if interactive_mode w
      then [Printed ""; Printed ("Conversation stored in " +:+ path_str p); Printed ""]
      else [Printed ""]
  | None => [Printed ""]
  end.

(** A world whose key file is world-readable while the environment holds
    another key. *)
Definition two_keys_world : world :=
  with_key_file (Some {| st_mode := 33188; key_text := Some "sk-file" |})
    (Some "sk-env") piped_world.

(** A world where [OPENAI_APIKEY] is set, to the empty string. *)
Definition empty_env_world : world :=
  with_key_file (Some {| st_mode := 33152; key_text := Some "sk-file" |})
    (Some "") piped_world.

(** A key file only its owner may read or write, and no environment
    override. *)
Definition private_key_world : world :=
  with_key_file (Some {| st_mode := 33152; key_text := Some "sk-file " |}) None
    piped_world.

(** ** Contracts *)

(** [l] is a strict prefix of [h]: [h] starts with the elements of [l], in
    their order, and is longer. *)
Definition strict_prefix (l h : list json) : Prop :=
  (forall i x, l !! i = Some x -> h !! i = Some x)
  /\ (List.length l < List.length h)%nat.

(** The resume step: when the file holds a JSON list, the call returns that
    list with one system turn carrying [system_message] at its end, and this
    is the only way it returns. *)
Definition resume_contract (resume : path -> string -> M (list json)) : Prop :=
  (forall file_path system_message w loaded,
     node_at (fs w) (resolve (cwd w) file_path) = Some (File (Some (JArr loaded))) ->
     exists conversation,
       resume file_path system_message w = (Ret conversation, w)
       /\ conversation = loaded ++ [turn "system" system_message]
       /\ strict_prefix loaded conversation)
  /\ (forall file_path system_message w conversation w',
        resume file_path system_message w = (Ret conversation, w') ->
        w' = w
        /\ exists loaded,
             node_at (fs w) (resolve (cwd w) file_path)
             = Some (File (Some (JArr loaded)))
             /\ conversation = loaded ++ [turn "system" system_message]).

(** One exchange: a single request is sent, whose body holds the turns, the
    model, the temperature, and [max_tokens] exactly when a limit is given.
    What the call makes of the answer is decided by [raise_for_status], for
    which the statuses from 400 to 599 are the errors: a JSON body with any
    other status, 2xx or not, gives the trimmed content of its first choice;
    a JSON body with a status from 400 to 599 gives [HTTPError]; a body that
    is no JSON gives [JSONDecodeError] whatever the status. *)
Definition exchange_contract
    (send : list json -> option Z -> Q -> M string) (model_name : string) : Prop :=
  forall turns limit temp w,
    let data := request_body turns limit temp model_name in
    let rq := request_for w data in
    field "messages" data = Some (JArr turns)
    /\ field "model" data = Some (JStr model_name)
    /\ field "temperature" data = Some (JFloat temp)
    /\ field "max_tokens" data = (JInt <$> limit)
    /\ exists r w',
         send turns limit temp w = (r, w')
         /\ sent w' = sent w ++ [rq]
         /\ fs w' = fs w
         /\ (forall st j c,
               server w (sent w) rq = Reply st (Some j) ->
               ~ (400 <= st < 600) ->
               first_choice_content j = Some (JStr c) ->
               r = Ret (Str.strip c))
         /\ (forall st j,
               server w (sent w) rq = Reply st (Some j) ->
               400 <= st < 600 ->
               r = Raise HTTPError)
         /\ (forall st,
               server w (sent w) rq = Reply st None ->
               r = Raise JSONDecodeError).

(** The slogan request: temperature 0.7, at most 10 tokens, the instruction
    and the prompt as turns; a well-formed answer gives the slug of its
    trimmed content. *)
Definition slogan_contract
    (generate : string -> M string) (instruction model_name : string) : Prop :=
  forall prompt w,
    let rq := request_for w
                (request_body [turn "system" instruction; turn "user" prompt]
                              (Some 10) (7 # 10)%Q model_name) in
    exists r w',
      generate prompt w = (r, w')
      /\ sent w' = sent w ++ [rq]
      /\ (forall st j c,
            server w (sent w) rq = Reply st (Some j) ->
            is_error_status st = false ->
            first_choice_content j = Some (JStr c) ->
            r = Ret (slug (Str.strip c))).

(** A conversation of two turns, saved where the user keeps notes. *)
Definition saved_turns : list json :=
  [turn "system" "You are a helpful assistant"; turn "user" "hi"].

Definition notes_world : world :=
  with_fs (<[["home"; "u"; "chat.json"] := File (Some (JArr saved_turns))]> ∅)
    (machine true (String.append "more" (String "010"%char ""))
       (fun _ _ => completion "Sure.")).


(** What a run cannot change. *)
Definition surroundings (w : world) :=
  (env_apikey w, home w, pw_home w, cwd w, isatty w, clock w, server w, key_file w).

(** The same regular files, with the same content. *)
Definition same_files (m m' : gmap (list string) node) : Prop :=
  forall q d, m' !! q = Some (File d) <-> m !! q = Some (File d).

(** The requests a one-shot run makes when all goes well: the chat request,
    and before it the slogan request of a new conversation. *)
Definition requests_planned (file_arg : option string) : nat :=
  match given file_arg with
  | Some _ => 1
  | None => 2
  end.

(** The last thing printed is the reply [resp], behind [ChatGPT: ]. *)
Definition prints_reply_last (w : world) (resp : string) : Prop :=
  exists before, stdout w = before ++ [Printed ("ChatGPT: " +:+ resp)].

(** Where [filename] lands: the conversation directory joined with it, as
    the operating system resolves the result. *)
Definition target (w : world) (filename : string) : list string :=
  resolve (cwd w) (joinpath (CONVERSATIONS_DIR w) filename).

(** Every regular file other than the one at [t] is as it was. *)
Definition only_writes (t : list string) (m m' : gmap (list string) node) : Prop :=
  forall q d, q <> t -> (m' !! q = Some (File d) <-> m !! q = Some (File d)).


(** Where resume mode takes the conversation from: the call returns only
    when the expanded [--file] path holds a JSON list, and then gives that
    list, the system turn behind it, and the raw argument as file name. *)
Definition resume_source
    (open : string -> M (list json * string)) (system_message f : string) : Prop :=
  forall message w conversation filename w',
    open message w = (Ret (conversation, filename), w') ->
    w' = w /\ filename = f
    /\ exists file_path loaded,
         expanduser w (parse_path f) = Some file_path
         /\ node_at (fs w) (resolve (cwd w) file_path)
            = Some (File (Some (JArr loaded)))
         /\ conversation = loaded ++ [turn "system" system_message].


(** The world after [n] more requests and some more output. *)
Definition advanced (n : nat) (w w' : world) : Prop :=
  exists rqs o,
    List.length rqs = n
    /\ w' = with_sent (sent w ++ rqs) (with_stdout (stdout w ++ o) w).


(** The interactive scenario for [openai.py], which needs the key file. *)
Definition openai_greeting_world : world :=
  with_key_file (Some {| st_mode := 33152; key_text := Some "sk-file" |}) None
    greeting_world.

(** The file [openai.py] names after the time and the slogan. *)
Definition stamped (slogan : string) : list string :=
  conversations ++ ["2024-05-01T10:00:00_" +:+ slogan +:+ ".json"].




(** The requests of a conversation that starts from [turns]: each one sends
    the turns so far and one more user message, to the same address, with the
    same headers, model, temperature and limit; the next one also holds the
    assistant's reply. *)
Inductive odin_exchanges (a : Odin.args_t) (h : list (string * string))
  : list json -> list request -> Prop :=
  | no_exchange turns : odin_exchanges a h turns []
  | next_exchange turns message resp rest :
      odin_exchanges a h
        ((turns ++ [turn "user" message]) ++ [turn "assistant" resp]) rest ->
      odin_exchanges a h turns
        ({| url := API_BASE_URL; headers := h;
            body := request_body (turns ++ [turn "user" message])
                      (Odin.token_limit a) (Odin.temperature a) (Odin.model a) |}
         :: rest).

(** The turns a request sends. *)
Definition messages_of (rq : request) : list json :=
  match field "messages" (body rq) with
  | Some (JArr turns) => turns
  | _ => []
  end.

(** What [print_request_data] and [print_response_data] print for one
    exchange. *)
Definition debug_trace (on : bool) (h : list (string * string)) (data : json)
    (rp : reply) : list out :=
  if on then
    [Printed "Headers:"]
    ++ List.map (fun kv => Printed (fst kv +:+ ": " +:+ snd kv)) h
    ++ [Printed (String "010"%char "Request body:"); PrintedJson data]
    ++ match rp with
       | Reply _ (Some j) => [Printed "Response:"; PrintedJson j]
       | _ => []
       end
  else [].

(** ** Failures *)

(** An answer with status [st] whose first choice carries [c]. *)
Definition answer_with (st : Z) (c : string) : reply :=
  Reply st
    (Some (JObj [("choices",
                  JArr [JObj [("message",
                               JObj [("role", JStr "assistant");
                                     ("content", JStr c)])]])])).

(** The server refuses [rq], sent after the requests of [log]: it answers
    with a status from 400 to 599. *)
Definition refused (w : world) (log : list request) (rq : request) : Prop :=
  exists st payload, server w log rq = Reply st payload /\ 400 <= st < 600.

(** A computation that sends nothing and leaves the surroundings alone. *)
Definition silent {A} (m : M A) : Prop :=
  forall w, surroundings (snd (m w)) = surroundings w /\ sent (snd (m w)) = sent w.

(** A computation fails fast: a request the server refuses is the last one
    it sends, and it ends with an exception nobody caught.  There is no
    second attempt. *)
Definition fails_fast {A} (m : M A) : Prop :=
  forall w r w',
    m w = (r, w') ->
    surroundings w' = surroundings w
    /\ exists rqs,
         sent w' = sent w ++ rqs
         /\ forall pre rq post,
              rqs = pre ++ rq :: post ->
              refused w (sent w ++ pre) rq ->
              post = [] /\ exists e, r = Raise e.

(** A server that answers the slogan request with [Warm Greeting] and
    every later request with [304 Not Modified] and a well-formed body. *)
Definition not_modified_world : world :=
  machine false "hello"
    (fun log _ => match log with
                  | [] => completion "Warm Greeting"
                  | _ => answer_with 304 "ok"
                  end).

(** A server that refuses everything with [500] and an error document. *)
Definition broken_server_world : world :=
  machine false "hello"
    (fun _ _ => Reply 500 (Some (JObj [("error", JStr "overloaded")]))).

(** ** One-shot runs *)

(** The request a script sends for the body [data] once it has loaded the
    key [key]: to the completion address, with the key as its only header. *)
Definition authorized (key : string) (data : json) : request :=
  {| url := API_BASE_URL;
     headers := [("Authorization", "Bearer " +:+ key)];
     body := data |}.

(** The server answers [rq], sent after the requests of [log], with a JSON
    document, a status that is no error, and [c] as the content of its first
    choice. *)
Definition answers (w : world) (log : list request) (rq : request) (c : string)
  : Prop :=
  exists st j,
    server w log rq = Reply st (Some j)
    /\ is_error_status st = false
    /\ first_choice_content j = Some (JStr c).

(** The expanded [--file] path holds the JSON list [loaded]. *)
Definition loads (w : world) (f : string) (loaded : list json) : Prop :=
  exists file_path,
    expanduser w (parse_path f) = Some file_path
    /\ fs w !! resolve (cwd w) file_path = Some (File (Some (JArr loaded))).

(** A run from [w] to [w'] that sent the requests of [first], then [chat],
    and nothing else; [resp] is the server's reply to [chat], trimmed, and
    the last thing printed is [resp] behind [ChatGPT: ]. *)
Definition one_shot (w w' : world) (first : list request) (chat : request)
    (resp : string) : Prop :=
  sent w' = sent w ++ first ++ [chat]
  /\ (exists c, answers w (sent w ++ first) chat c /\ resp = Str.strip c)
  /\ prints_reply_last w' resp.

(** The run wrote one file, the one its file name lands on, and [turns] is
    what that file holds now. *)
Definition saved (w w' : world) (filename : string) (turns : list json) : Prop :=
  only_writes (target w filename) (fs w) (fs w')
  /\ fs w' !! target w filename = Some (File (Some (JArr turns))).

(** A piped run of [odin.py] that ended normally, from [w] to [w']: in
    resume mode one request, with the loaded turns, the system turn and the
    trimmed input; in a new conversation the slogan request and then the chat
    request. *)
Definition odin_one_shot (a : Odin.args_t) (w w' : world) : Prop :=
  exists key resp,
    fst (Odin.load_api_key w) = Ret key
    /\ let message := Str.strip (stdin w) in
       let chat turns :=
         authorized key
           (request_body turns (Odin.token_limit a) (Odin.temperature a)
              (Odin.model a)) in
       match given (Odin.file a) with
       | Some f =>
           exists loaded,
             loads w f loaded
             /\ one_shot w w' []
                  (chat (loaded ++ [turn "system" (Odin.system a);
                                    turn "user" message]))
                  resp
       | None =>
           let slogan :=
             authorized key
               (request_body [turn "system" Odin.slogan_instruction;
                              turn "user" message]
                  (Some 10) (7 # 10)%Q Odin.API_DEFAULT_MODEL) in
           (exists raw, answers w (sent w) slogan raw)
           /\ one_shot w w' [slogan]
                (chat [turn "system" (Odin.system a); turn "user" message])
                resp
       end.

(** The same for [openai.py], which also saves the conversation: under the
    raw [--file] argument in resume mode, under the time and the slug of the
    slogan in a new conversation. *)
Definition openai_one_shot (a : OpenAI.args_t) (w w' : world) : Prop :=
  exists key resp,
    fst (OpenAI.load_api_key w) = Ret key
    /\ let message := Str.strip (stdin w) in
       let chat turns :=
         authorized key
           (request_body turns (OpenAI.token_limit a) (OpenAI.temperature a)
              OpenAI.API_MODEL) in
       match given (OpenAI.file a) with
       | Some f =>
           exists loaded,
             let turns := loaded ++ [turn "system" (OpenAI.system a);
                                     turn "user" message] in
             loads w f loaded
             /\ one_shot w w' [] (chat turns) resp
             /\ saved w w' f (turns ++ [turn "assistant" resp])
       | None =>
           let slogan :=
             authorized key
               (request_body [turn "system" "Summarize text in max three words";
                              turn "user" message]
                  (Some 10) (7 # 10)%Q OpenAI.API_MODEL) in
           let turns := [turn "system" (OpenAI.system a); turn "user" message] in
           exists raw,
             answers w (sent w) slogan raw
             /\ one_shot w w' [slogan] (chat turns) resp
             /\ saved w w'
                  (clock w +:+ "_" +:+ slug (Str.strip raw) +:+ ".json")
                  (turns ++ [turn "assistant" resp])
       end.

(** A conversation kept under an absolute path, piped into [openai.py]. *)
Definition absolute_world : world :=
  with_key_file (Some {| st_mode := 33152; key_text := Some "k" |}) None
    (with_fs (<[["tmp"; "x.json"] := File (Some (JArr saved_turns))]>
              (<[["tmp"] := Dir]> ∅))
       (machine false "more" (fun _ _ => completion "Sure."))).

(** ** Resumed conversations on disk *)




(** ** Lines *)

Definition newline : string := String "010"%char "".

(** [s] holds no newline. *)
Definition no_newline (s : string) : bool :=
  Str.forallb (fun c => negb (Ascii.eqb c "010"%char)) s.

(** Two lines typed ahead at the terminal. *)
Definition typed_ahead_world : world :=
  with_stdin (" hello " +:+ newline +:+ "world") greeting_world.
(** * Properties *)

(** ** Strings *)

Lemma filter_idempotent p s : Str.filter p (Str.filter p s) = Str.filter p s.
Proof.
  induction s as [|c s IH]; simpl; [reflexivity|].
  destruct (p c) eqn:Hc; simpl; [rewrite Hc, IH|]; done.
Qed.

Lemma forallb_filter p s : Str.forallb p (Str.filter p s) = true.
Proof.
  induction s as [|c s IH]; simpl; [reflexivity|].
  destruct (p c) eqn:Hc; simpl; [rewrite Hc|]; done.
Qed.

Lemma forallb_map p q f s :
  (forall c, p c = true -> q (f c) = true) ->
  Str.forallb p s = true -> Str.forallb q (Str.map f s) = true.
Proof.
  intros Hf. induction s as [|c s IH]; simpl; [reflexivity|].
  intros [Hc Hs]%andb_true_iff. rewrite (Hf _ Hc). simpl. auto.
Qed.






(** Stripping only removes characters. *)
Lemma forallb_lstrip p s : Str.forallb p s = true -> Str.forallb p (Str.lstrip s) = true.
Proof.
  induction s as [|c s IH]; simpl; [done|].
  intros H. destruct (Str.isspace c); [|exact H].
  apply andb_true_iff in H as [_ H]. auto.
Qed.

Lemma forallb_rstrip p s : Str.forallb p s = true -> Str.forallb p (Str.rstrip s) = true.
Proof.
  induction s as [|c s IH]; simpl; [done|].
  intros [Hc Hs]%andb_true_iff. specialize (IH Hs).
  destruct (Str.rstrip s) eqn:E.
  - destruct (Str.isspace c); simpl; [done|]. by rewrite Hc.
  - simpl in *. by rewrite Hc, IH.
Qed.

Lemma forallb_strip p s : Str.forallb p s = true -> Str.forallb p (Str.strip s) = true.
Proof. intros H. apply forallb_rstrip, forallb_lstrip, H. Qed.

(** C7.  The letter-and-whitespace filter of the slug derivation is
    idempotent. *)
Theorem keep_letters_spaces_idempotent (s : string) :
  Odin.keep_letters_spaces (Odin.keep_letters_spaces s) = Odin.keep_letters_spaces s.
Proof. apply filter_idempotent. Qed.

(** ** One exchange *)

Lemma with_stdout_nil w : with_stdout (stdout w ++ []) w = w.
Proof. rewrite app_nil_r. by destruct w. Qed.

Lemma print_items_run d w :
  print_items d w = (Ret tt, with_stdout (stdout w ++ List.map (fun kv => Printed (fst kv +:+ ": " +:+ snd kv)) d) w).
Proof.
  revert w. induction d as [|[k v] d IH]; intros w; simpl.
  - by rewrite with_stdout_nil.
  - unfold bind, print, modify. rewrite IH. simpl.
    unfold with_stdout; simpl. by rewrite <- app_assoc.
Qed.

Lemma extract_content j w :
  exists r,
    (choices <- getitem j "choices" ;;
     choice <- getitem0 choices ;;
     message <- getitem choice "message" ;;
     content <- getitem message "content" ;;
     strip_method content) w = (r, w)
    /\ match first_choice_content j with
       | Some (JStr c) => r = Ret (Str.strip c)
       | _ => exists e, r = Raise e
       end.
Proof.
  unfold first_choice_content, bind, getitem, getitem0, strip_method, ret, raise.
  repeat (case_match; simplify_eq/=; eauto).
Qed.

Lemma odin_send_gpt_request_run a turns limit temp model_name w :
  let rq := request_for w (request_body turns limit temp model_name) in
  exists r o,
    Odin.send_gpt_request a turns limit temp model_name w = (r, logged rq o w)
    /\ reply_outcome (server w (sent w) rq) r
    /\ (Odin.debug a = false -> o = []).
Proof.
  intros rq. unfold Odin.send_gpt_request.
  set (data := match limit with Some n => _ | None => _ end).
  assert (Hd : JObj data = request_body turns limit temp model_name)
    by (unfold data, request_body; destruct limit; reflexivity).
  rewrite Hd. clearbody data. clear Hd data.
  unfold bind at 1.
  assert (Hp : exists o1, Odin.print_request_data a (request_body turns limit temp model_name) w
                 = (Ret tt, with_stdout (stdout w ++ o1) w)
               /\ (Odin.debug a = false -> o1 = [])).
  { unfold Odin.print_request_data. destruct (Odin.debug a).
    - unfold bind, print, print_json, modify, get. simpl.
      rewrite print_items_run. simpl.
      eexists. split; [|discriminate].
      unfold with_stdout; simpl. rewrite <- !app_assoc. reflexivity.
    - exists []. split; [|done]. by rewrite with_stdout_nil. }
  destruct Hp as (o1 & -> & Ho1).
  unfold bind at 1, post. simpl.
  fold rq. unfold request_for in rq.
  replace {| url := API_BASE_URL; headers := HEADERS w; body := request_body turns limit temp model_name |} with rq by reflexivity.
  destruct (server w (sent w) rq) as [|st [j|]] eqn:Hs; simpl.
  - exists (Raise ConnectionError), o1. done.
  - unfold bind at 1.
    assert (Hq : exists o2, forall w0, Odin.print_response_data a j w0
                 = (Ret tt, with_stdout (stdout w0 ++ o2) w0)
               /\ (Odin.debug a = false -> o2 = [])).
    { unfold Odin.print_response_data. destruct (Odin.debug a).
      - eexists. intros w0. unfold bind, print, print_json, modify. simpl.
        split; [|discriminate]. unfold with_stdout; simpl.
        rewrite <- !app_assoc. reflexivity.
      - exists []. intros w0. split; [|done]. by rewrite with_stdout_nil. }
    destruct Hq as (o2 & Hq). destruct (Hq (with_sent (sent w ++ [rq]) (with_stdout (stdout w ++ o1) w))) as [-> Ho2].
    simpl.
    destruct (is_error_status st) eqn:Hst.
    + exists (Raise HTTPError), (o1 ++ o2). unfold logged, with_sent, with_stdout, raise; simpl.
      rewrite <- app_assoc. split; [done|]. split; [done|].
      intros H. by rewrite Ho1, Ho2.
    + match goal with |- context [ ?m (with_stdout ?s ?x) ] =>
        destruct (extract_content j (with_stdout s x)) as (r & Hr & Hc) end.
      exists r, (o1 ++ o2). rewrite Hr. unfold logged, with_sent, with_stdout; simpl.
      rewrite <- app_assoc. split; [done|]. split; [done|].
      intros H. by rewrite Ho1, Ho2.
  - exists (Raise JSONDecodeError), o1. done.
Qed.

Lemma openai_send_as_odin a turns limit temp :
  OpenAI.send_gpt_request a turns limit temp
  = Odin.send_gpt_request (as_odin a) turns limit temp OpenAI.API_MODEL.
Proof. reflexivity. Qed.

Lemma openai_send_gpt_request_run a turns limit temp w :
  let rq := request_for w (request_body turns limit temp OpenAI.API_MODEL) in
  exists r o,
    OpenAI.send_gpt_request a turns limit temp w = (r, logged rq o w)
    /\ reply_outcome (server w (sent w) rq) r
    /\ (OpenAI.debug a = false -> o = []).
Proof.
  rewrite openai_send_as_odin.
  apply (odin_send_gpt_request_run (as_odin a)).
Qed.

Lemma is_error_status_true st : is_error_status st = true <-> 400 <= st < 600.
Proof. unfold is_error_status. lia. Qed.

Lemma is_error_status_false st : is_error_status st = false <-> ~ (400 <= st < 600).
Proof. unfold is_error_status. lia. Qed.

Lemma reply_outcome_success st j c r :
  reply_outcome (Reply st (Some j)) r ->
  is_error_status st = false -> first_choice_content j = Some (JStr c) ->
  r = Ret (Str.strip c).
Proof. simpl. intros H Hst Hc. by rewrite Hst, Hc in H. Qed.

Lemma reply_outcome_error st payload r :
  reply_outcome (Reply st payload) r -> is_error_status st = true ->
  exists e, r = Raise e.
Proof. simpl. intros H Hst. destruct payload; [rewrite Hst in H|]; eauto. Qed.

Lemma reply_outcome_http_error st j r :
  reply_outcome (Reply st (Some j)) r -> is_error_status st = true ->
  r = Raise HTTPError.
Proof. simpl. intros H Hst. by rewrite Hst in H. Qed.

Lemma exchange_contract_of_run send model_name :
  (forall turns limit temp w,
     exists r o,
       send turns limit temp w
       = (r, logged (request_for w (request_body turns limit temp model_name)) o w)
       /\ reply_outcome
            (server w (sent w)
               (request_for w (request_body turns limit temp model_name))) r) ->
  exchange_contract send model_name.
Proof.
  intros Hrun turns limit temp w data rq.
  repeat split; try reflexivity.
  - destruct limit; reflexivity.
  - destruct (Hrun turns limit temp w) as (r & o & Hr & Ho).
    fold data in Ho. fold rq in Ho.
    exists r, (logged rq o w). split; [exact Hr|]. split; [reflexivity|].
    split; [reflexivity|]. split; [|split].
    + intros st j c Hs Hst Hc. rewrite Hs in Ho.
      eapply reply_outcome_success; [exact Ho| |exact Hc].
      by apply is_error_status_false.
    + intros st j Hs Hst. rewrite Hs in Ho.
      eapply reply_outcome_http_error; [exact Ho|].
      by apply is_error_status_true.
    + intros st Hs. by rewrite Hs in Ho.
Qed.

(** ** The slogan *)

Lemma post_process_slug s : Odin.post_process s = slug s.
Proof. reflexivity. Qed.

Lemma openai_post_process_slug s : OpenAI.post_process s = slug s.
Proof. reflexivity. Qed.

Lemma odin_generate_slogan_run a prompt w :
  let rq := request_for w
              (request_body [turn "system" Odin.slogan_instruction; turn "user" prompt]
                            (Some 10) (7 # 10)%Q Odin.API_DEFAULT_MODEL) in
  exists r o,
    Odin.generate_slogan a prompt w = (r, logged rq o w)
    /\ (Odin.debug a = false -> o = [])
    /\ match server w (sent w) rq with
       | Reply st (Some j) =>
           if is_error_status st then r = Raise HTTPError
           else match first_choice_content j with
                | Some (JStr c) => r = Ret (slug (Str.strip c))
                | _ => exists e, r = Raise e
                end
       | _ => exists e, r = Raise e
       end.
Proof.
  intros rq. unfold Odin.generate_slogan, bind.
  destruct (odin_send_gpt_request_run a
              [turn "system" Odin.slogan_instruction; turn "user" prompt]
              (Some 10) (7 # 10)%Q Odin.API_DEFAULT_MODEL w) as (r & o & Hr & Ho & Hd).
  fold rq in Hr, Ho. rewrite Hr.
  destruct (server w (sent w) rq) as [|st [j|]]; simpl in Ho.
  - subst r. exists (Raise ConnectionError), o. eauto.
  - destruct (is_error_status st).
    + subst r. exists (Raise HTTPError), o. eauto.
    + destruct (first_choice_content j) as [[]|];
        first [ subst r; eexists _, o; split; [reflexivity|]; by eauto
              | destruct Ho as [e ->]; exists (Raise e), o; by eauto ].
  - subst r. exists (Raise JSONDecodeError), o. eauto.
Qed.

Lemma openai_generate_slogan_as_odin a prompt w :
  let rq := request_for w
              (request_body [turn "system" "Summarize text in max three words";
                             turn "user" prompt]
                            (Some 10) (7 # 10)%Q OpenAI.API_MODEL) in
  exists r o,
    OpenAI.generate_slogan a prompt w = (r, logged rq o w)
    /\ (OpenAI.debug a = false -> o = [])
    /\ match server w (sent w) rq with
       | Reply st (Some j) =>
           if is_error_status st then r = Raise HTTPError
           else match first_choice_content j with
                | Some (JStr c) => r = Ret (slug (Str.strip c))
                | _ => exists e, r = Raise e
                end
       | _ => exists e, r = Raise e
       end.
Proof.
  intros rq. unfold OpenAI.generate_slogan, bind.
  destruct (openai_send_gpt_request_run a
              [turn "system" "Summarize text in max three words"; turn "user" prompt]
              (Some 10) (7 # 10)%Q w) as (r & o & Hr & Ho & Hd).
  fold rq in Hr, Ho. rewrite Hr.
  destruct (server w (sent w) rq) as [|st [j|]]; simpl in Ho.
  - subst r. exists (Raise ConnectionError), o. eauto.
  - destruct (is_error_status st).
    + subst r. exists (Raise HTTPError), o. eauto.
    + destruct (first_choice_content j) as [[]|];
        first [ subst r; eexists _, o; split; [reflexivity|]; by eauto
              | destruct Ho as [e ->]; exists (Raise e), o; by eauto ].
  - subst r. exists (Raise JSONDecodeError), o. eauto.
Qed.

(** C6.  The slogan request is sent with temperature 0.7 and [max_tokens]
    10; the reply is lowercased, stripped of what is neither letter nor
    whitespace, trimmed, and its spaces become underscores, so that
    [Warm Greeting] gives [warm_greeting]. *)
Theorem generate_slogan_contract :
  (forall a, slogan_contract (Odin.generate_slogan a)
               Odin.slogan_instruction Odin.API_DEFAULT_MODEL)
  /\ (forall a, slogan_contract (OpenAI.generate_slogan a)
                  "Summarize text in max three words" OpenAI.API_MODEL)
  /\ slug "Warm Greeting" = "warm_greeting".
Proof.
  split; [|split; [|reflexivity]]; intros a prompt w rq.
  - destruct (odin_generate_slogan_run a prompt w) as (r & o & Hr & _ & Ho).
    fold rq in Hr, Ho. exists r, (logged rq o w). repeat split; try done.
    intros st j c Hs Hst Hc. by rewrite Hs, Hst, Hc in Ho.
  - destruct (openai_generate_slogan_as_odin a prompt w) as (r & o & Hr & _ & Ho).
    fold rq in Hr, Ho. exists r, (logged rq o w). repeat split; try done.
    intros st j c Hs Hst Hc. by rewrite Hs, Hst, Hc in Ho.
Qed.

Lemma generate_slogan_witness :
  fst (Odin.generate_slogan odin_defaults "hello" greeting_world) = Ret "warm_greeting"
  /\ fst (OpenAI.generate_slogan openai_defaults "hello" greeting_world)
     = Ret "warm_greeting".
Proof.
  destruct generate_slogan_contract as (Hodin & Hopenai & _). split.
  - destruct (Hodin odin_defaults "hello" greeting_world) as (r & w' & Hr & _ & Hok).
    rewrite Hr. exact (Hok 200 _ "Warm Greeting" eq_refl eq_refl eq_refl).
  - destruct (Hopenai openai_defaults "hello" greeting_world) as (r & w' & Hr & _ & Hok).
    rewrite Hr. exact (Hok 200 _ "Warm Greeting" eq_refl eq_refl eq_refl).
Defined.
(** ** The credential loader *)

Lemma grants_iff_land (mode : Z) :
  grants_group_or_other mode <-> Z.land mode (Z.lor S_IRWXG S_IRWXO) <> 0.
Proof.
  change (Z.lor S_IRWXG S_IRWXO) with 63. split.
  - intros (i & Hi & Hb) H0.
    assert (Ht : Z.testbit (Z.land mode 63) i = true).
    { rewrite Z.land_spec, Hb.
      assert (i = 0 \/ i = 1 \/ i = 2 \/ i = 3 \/ i = 4 \/ i = 5) as Hc by lia.
      destruct Hc as [->|[->|[->|[->|[->| ->]]]]]; reflexivity. }
    rewrite H0, Z.bits_0 in Ht. discriminate.
  - intros Hne.
    destruct (Z.testbit mode 0) eqn:B0; [exists 0; split; [lia|done]|].
    destruct (Z.testbit mode 1) eqn:B1; [exists 1; split; [lia|done]|].
    destruct (Z.testbit mode 2) eqn:B2; [exists 2; split; [lia|done]|].
    destruct (Z.testbit mode 3) eqn:B3; [exists 3; split; [lia|done]|].
    destruct (Z.testbit mode 4) eqn:B4; [exists 4; split; [lia|done]|].
    destruct (Z.testbit mode 5) eqn:B5; [exists 5; split; [lia|done]|].
    exfalso. apply Hne. apply Z.bits_inj'. intros n Hn.
    rewrite Z.land_spec, Z.bits_0.
    destruct (Z_lt_le_dec n 6) as [Hlt|Hge].
    + assert (n = 0 \/ n = 1 \/ n = 2 \/ n = 3 \/ n = 4 \/ n = 5) as Hc by lia.
      destruct Hc as [->|[->|[->|[->|[->| ->]]]]];
        rewrite ?B0, ?B1, ?B2, ?B3, ?B4, ?B5; reflexivity.
    + rewrite (Z.bits_above_log2 63 n); [apply andb_false_r|lia|].
      change (Z.log2 63) with 5. lia.
Qed.

Lemma odin_load_api_key_env w k :
  given (env_apikey w) = Some k -> Odin.load_api_key w = (Ret (Str.strip k), w).
Proof. intros H. unfold Odin.load_api_key, bind, get. by rewrite H. Qed.

Lemma odin_load_api_key_missing w :
  given (env_apikey w) = None -> key_file w = None ->
  Odin.load_api_key w = (Exit 1, with_stdout (stdout w ++ missing_key_output) w).
Proof.
  intros He Hk. unfold Odin.load_api_key, bind, get. rewrite He, Hk.
  unfold print, modify, sys_exit, with_stdout, missing_key_output; simpl.
  by rewrite <- app_assoc.
Qed.

Lemma odin_load_api_key_insecure w kf :
  given (env_apikey w) = None -> key_file w = Some kf ->
  grants_group_or_other (st_mode kf) ->
  Odin.load_api_key w = (Exit 1, with_stdout (stdout w ++ insecure_key_output) w).
Proof.
  intros He Hk Hg%grants_iff_land. unfold Odin.load_api_key, bind, get.
  rewrite He, Hk. apply Z.eqb_neq in Hg. rewrite Hg. reflexivity.
Qed.

Lemma odin_load_api_key_file w kf text :
  given (env_apikey w) = None -> key_file w = Some kf ->
  ~ grants_group_or_other (st_mode kf) -> key_text kf = Some text ->
  Odin.load_api_key w = (Ret (Str.strip text), w).
Proof.
  intros He Hk Hg Ht. unfold Odin.load_api_key, bind, get. rewrite He, Hk.
  destruct (Z.eqb_spec (Z.land (st_mode kf) (Z.lor S_IRWXG S_IRWXO)) 0) as [_|Hne].
  - simpl. by rewrite Ht.
  - by apply grants_iff_land in Hne.
Qed.

(** C3, amended.  [odin.py]: the key of the environment is returned when
    [OPENAI_APIKEY] is set and not empty; otherwise the key file is read, and
    the loader exits with status 1 and a message when the file is absent or
    when its permission bits give group or other any access, in which case
    the script ends there, with no request sent and no file touched.
    [openai.py]: the key file is read whatever the environment and the
    permission bits are, and a missing file is an uncaught exception. *)
Theorem credential_loader_contract :
  (forall w k, given (env_apikey w) = Some k ->
     Odin.load_api_key w = (Ret (Str.strip k), w))
  /\ (forall w, given (env_apikey w) = None -> key_file w = None ->
        Odin.load_api_key w
        = (Exit 1, with_stdout (stdout w ++ missing_key_output) w))
  /\ (forall w kf, given (env_apikey w) = None -> key_file w = Some kf ->
        grants_group_or_other (st_mode kf) ->
        Odin.load_api_key w
        = (Exit 1, with_stdout (stdout w ++ insecure_key_output) w)
        /\ forall fuel a,
             exists w', Odin.script fuel a w = (Exit 1, w')
                        /\ stdout w' = stdout w ++ insecure_key_output
                        /\ sent w' = sent w /\ fs w' = fs w)
  /\ (forall w kf text, given (env_apikey w) = None -> key_file w = Some kf ->
        ~ grants_group_or_other (st_mode kf) -> key_text kf = Some text ->
        Odin.load_api_key w = (Ret (Str.strip text), w))
  /\ (forall w kf text, key_file w = Some kf -> key_text kf = Some text ->
        OpenAI.load_api_key w = (Ret (Str.strip text), w))
  /\ (forall w, key_file w = None ->
        OpenAI.load_api_key w = (Raise FileNotFoundError, w)).
Proof.
  split; [apply odin_load_api_key_env|].
  split; [apply odin_load_api_key_missing|].
  split.
  { intros w kf He Hk Hg. split; [by apply (odin_load_api_key_insecure w kf)|].
    intros fuel a. unfold Odin.script, Odin.main. unfold bind at 1.
    rewrite (odin_load_api_key_insecure (Odin.startup w) kf) by done.
    eexists. split; [reflexivity|]. done. }
  split; [apply odin_load_api_key_file|].
  split.
  - intros w kf text Hk Ht. unfold OpenAI.load_api_key, bind, get. by rewrite Hk, Ht.
  - intros w Hk. unfold OpenAI.load_api_key, bind, get. by rewrite Hk.
Qed.

Lemma credential_loader_witness :
  Odin.load_api_key piped_world = (Ret "sk-test", piped_world)
  /\ fst (Odin.load_api_key (with_key_file None None piped_world)) = Exit 1
  /\ (exists w', Odin.script 1 odin_defaults insecure_world = (Exit 1, w')
                 /\ stdout w' = insecure_key_output /\ sent w' = [] /\ fs w' = ∅)
  /\ Odin.load_api_key private_key_world = (Ret "sk-file", private_key_world)
  /\ fst (OpenAI.load_api_key two_keys_world) = Ret "sk-file"
  /\ fst (OpenAI.load_api_key piped_world) = Raise FileNotFoundError.
Proof.
  destruct credential_loader_contract as (H1 & H2 & H3 & H4 & H5 & H6).
  split; [exact (H1 piped_world "sk-test" eq_refl)|].
  split; [rewrite (H2 (with_key_file None None piped_world) eq_refl eq_refl); reflexivity|].
  split.
  { assert (Hg : grants_group_or_other 33184)
      by (exists 5; split; [lia|reflexivity]).
    destruct (H3 insecure_world _ eq_refl eq_refl Hg) as [_ Hs].
    exact (Hs 1%nat odin_defaults). }
  split.
  { apply (H4 private_key_world
               {| st_mode := 33152; key_text := Some "sk-file " |} "sk-file "
               eq_refl eq_refl); [|reflexivity].
    intros Hg%grants_iff_land. apply Hg. reflexivity. }
  split; [rewrite (H5 two_keys_world _ "sk-file" eq_refl eq_refl); reflexivity|].
  rewrite (H6 piped_world eq_refl). reflexivity.
Defined.

(** [openai.py] takes the key from a world-readable file although the
    environment holds a key, and goes on to send its requests; [odin.py]
    reads the file when the variable is set to the empty string. *)
Lemma credential_loader_counterexample :
  env_apikey two_keys_world = Some "sk-env"
  /\ (exists kf, key_file two_keys_world = Some kf
                 /\ grants_group_or_other (st_mode kf))
  /\ fst (OpenAI.load_api_key two_keys_world) = Ret "sk-file"
  /\ List.length (sent (snd (OpenAI.script 1 openai_defaults two_keys_world))) = 2%nat
  /\ env_apikey empty_env_world = Some ""
  /\ fst (Odin.load_api_key empty_env_world) = Ret "sk-file".
Proof.
  split; [reflexivity|]. split.
  { eexists. split; [reflexivity|]. exists 2. split; [lia|reflexivity]. }
  split; [reflexivity|]. split; [vm_compute; reflexivity|].
  split; reflexivity.
Qed.

(** ** The interrupt handler *)

(** C8, amended.  Both handlers end the process with status 0.  [odin.py]
    prints the path of the conversation file first when it runs in
    interactive mode and the file has been set; [openai.py] never prints a
    path. *)
Theorem interrupt_contract :
  (forall w, exists w',
      Odin.signal_handler w = (Exit 0, w')
      /\ stdout w' = stdout w ++ interrupt_output w
      /\ fs w' = fs w /\ sent w' = sent w)
  /\ (forall w p, interactive_mode w = true -> conversation_file w = Some p ->
        In (Printed ("Conversation stored in " +:+ path_str p))
           (stdout (snd (Odin.signal_handler w))))
  /\ (forall w,
        OpenAI.signal_handler w = (Exit 0, with_stdout (stdout w ++ [Printed ""]) w)).
Proof.
  split; [|split].
  - intros w. unfold Odin.signal_handler, interrupt_output, bind, get.
    destruct (conversation_file w) as [p|]; [destruct (interactive_mode w)|];
      (eexists; split; [reflexivity|]; simpl; rewrite <- ?app_assoc; done).
  - intros w p Hi Hc. unfold Odin.signal_handler, bind, get. rewrite Hc, Hi. simpl.
    rewrite !in_app_iff. simpl. tauto.
  - intros w. reflexivity.
Qed.

Lemma interrupt_witness :
  let w := snd (Odin.script 1 odin_defaults greeting_world) in
  In (Printed "Conversation stored in /home/u/.openai/conversations/warm_greeting.json")
     (stdout (snd (Odin.signal_handler w)))
  /\ fst (Odin.signal_handler w) = Exit 0.
Proof.
  destruct interrupt_contract as (Hexit & Hpath & _). split.
  - apply (Hpath (snd (Odin.script 1 odin_defaults greeting_world))
             {| anchored := true; parts := conversations ++ ["warm_greeting.json"] |});
      vm_compute; reflexivity.
  - destruct (Hexit (snd (Odin.script 1 odin_defaults greeting_world)))
      as (w' & Hw & _). by rewrite Hw.
Defined.

(** After a first turn in interactive mode [openai.py] has written its
    conversation file; interrupted then, it prints an empty line and no
    path. *)
Lemma interrupt_counterexample :
  let w := snd (OpenAI.script 1 openai_defaults openai_greeting_world) in
  isatty w = true
  /\ (exists turns, fs w !! stamped "warm_greeting" = Some (File (Some (JArr turns))))
  /\ fst (OpenAI.signal_handler w) = Exit 0
  /\ stdout (snd (OpenAI.signal_handler w)) = stdout w ++ [Printed ""]
  /\ stdout w = [Wrote "You: "; Printed "ChatGPT: Hi!"; Wrote "You: "].
Proof.
  split; [reflexivity|]. split; [eexists; vm_compute; reflexivity|].
  split; [reflexivity|]. split; [reflexivity|]. vm_compute. reflexivity.
Qed.
(** ** Resuming a conversation *)

Lemma strict_prefix_snoc (l : list json) (x : json) : strict_prefix l (l ++ [x]).
Proof.
  split.
  - intros i y Hi. by apply lookup_app_l_Some.
  - rewrite length_app. simpl. lia.
Qed.

Lemma odin_resume_contract : resume_contract Odin.continue_conversation.
Proof.
  split.
  - intros p msg w l Hn. eexists. split; [|split; [reflexivity|apply strict_prefix_snoc]].
    unfold Odin.continue_conversation, bind, load_json. by rewrite Hn.
  - intros p msg w h w'. unfold Odin.continue_conversation, bind, load_json.
    destruct (node_at (fs w) (resolve (cwd w) p)) as [[|[[]|]]|];
      unfold ret, raise; simpl; intros Heq; simplify_eq.
    split; [reflexivity|]. eexists. split; reflexivity.
Qed.

Lemma openai_resume_contract : resume_contract OpenAI.continue_conversation.
Proof. exact odin_resume_contract. Qed.

(** C4.  Resuming from a file gives the turns loaded from it followed by
    exactly one system turn with the configured message: the loaded list is a
    strict prefix of the conversation, nothing dropped, edited or
    reordered. *)
Theorem resume_keeps_loaded_turns :
  resume_contract Odin.continue_conversation
  /\ resume_contract OpenAI.continue_conversation.
Proof. split; [exact odin_resume_contract|exact openai_resume_contract]. Qed.

Lemma resume_keeps_loaded_turns_witness :
  Odin.continue_conversation (parse_path "chat.json") "Be brief" notes_world
  = (Ret (saved_turns ++ [turn "system" "Be brief"]), notes_world)
  /\ OpenAI.continue_conversation (parse_path "chat.json") "Be brief" notes_world
     = (Ret (saved_turns ++ [turn "system" "Be brief"]), notes_world).
Proof.
  destruct resume_keeps_loaded_turns as [[Hodin _] [Hopenai _]]. split.
  - destruct (Hodin (parse_path "chat.json") "Be brief" notes_world saved_turns)
      as (h & Hr & -> & _); [vm_compute; reflexivity|exact Hr].
  - destruct (Hopenai (parse_path "chat.json") "Be brief" notes_world saved_turns)
      as (h & Hr & -> & _); [vm_compute; reflexivity|exact Hr].
Defined.
(** ** File names *)

Lemma length_append (s t : string) :
  String.length (s +:+ t) = (String.length s + String.length t)%nat.
Proof. induction s as [|c s IH]; simpl; [reflexivity|]. by rewrite IH. Qed.

Lemma append_inv_tail (s1 s2 t : string) : s1 +:+ t = s2 +:+ t -> s1 = s2.
Proof.
  revert s2. induction s1 as [|c s1 IH]; intros [|d s2] H.
  - reflexivity.
  - apply (f_equal String.length) in H.
    rewrite !length_append in H. simpl in H. lia.
  - apply (f_equal String.length) in H.
    rewrite !length_append in H. simpl in H. lia.
  - injection H as -> H. f_equal. by apply IH.
Qed.

Lemma forallb_append p (s t : string) :
  Str.forallb p (s +:+ t) = Str.forallb p s && Str.forallb p t.
Proof.
  induction s as [|c s IH]; simpl; [reflexivity|]. by rewrite IH, andb_assoc.
Qed.

(** The decimal digits of a number hold no slash. *)
Lemma pretty_N_go_no_slash (x : N) (s : string) :
  no_slash s = true -> no_slash (pretty_N_go x s) = true.
Proof.
  revert s. induction (N.lt_wf_0 x) as [x _ IH]; intros s Hs.
  assert (x = 0 \/ 0 < x)%N as [->|Hx] by lia.
  - by rewrite pretty_N_go_0.
  - rewrite pretty_N_go_step by done. apply IH.
    + by apply N.div_lt.
    + unfold no_slash in *. simpl. rewrite Hs.
      unfold pretty_N_char. by repeat case_match.
Qed.

Lemma pretty_nat_no_slash (k : nat) : no_slash (pretty k) = true.
Proof.
  unfold pretty, pretty_nat, pretty, pretty_N.
  case_decide; [reflexivity|]. by apply pretty_N_go_no_slash.
Qed.

Lemma candidate_no_slash slogan k :
  no_slash slogan = true -> no_slash (candidate slogan k) = true.
Proof.
  intros Hs. unfold no_slash in *. destruct k as [|k]; simpl;
    rewrite !forallb_append, Hs; simpl; [reflexivity|].
  fold (no_slash (pretty (S k))). by rewrite pretty_nat_no_slash.
Qed.

Lemma candidate_length slogan k : (5 <= String.length (candidate slogan k))%nat.
Proof.
  destruct k; simpl; rewrite !length_append; simpl; lia.
Qed.

Lemma candidate_inj slogan i j : candidate slogan i = candidate slogan j -> i = j.
Proof.
  destruct i as [|i], j as [|j]; simpl; intros H;
    apply (inj (String.append slogan)) in H.
  - reflexivity.
  - discriminate.
  - discriminate.
  - apply (inj (String.append "_")), append_inv_tail, (inj pretty) in H.
    by injection H.
Qed.

Lemma split_no_slash s : no_slash s = true -> Str.split "/"%char s = [s].
Proof.
  unfold no_slash. induction s as [|c s IH]; simpl; [reflexivity|].
  intros [Hc Hs]%andb_true_iff. apply negb_true_iff in Hc. rewrite Hc.
  by rewrite (IH Hs).
Qed.

Lemma parse_single s :
  no_slash s = true -> (2 < String.length s)%nat ->
  parse_path s = {| anchored := false; parts := [s] |}.
Proof.
  intros Hs Hl. unfold parse_path. rewrite (split_no_slash _ Hs). simpl.
  destruct s as [|c [|d [|e s]]]; simpl in Hl; try lia.
  unfold no_slash in Hs. simpl in Hs. apply andb_true_iff in Hs as [Hc _].
  apply negb_true_iff in Hc. unfold Str.startswith. rewrite Hc. f_equal.
  unfold proper_part. simpl. by destruct (Ascii.eqb c "."%char).
Qed.

Lemma walk_plain acc ps :
  Forall (fun p => p <> "..") ps -> fold_left walk ps acc = acc ++ ps.
Proof.
  intros H. revert acc. induction H as [|p ps Hp _ IH]; intros acc; simpl.
  - by rewrite app_nil_r.
  - rewrite IH. unfold walk. apply String.eqb_neq in Hp. rewrite Hp.
    by rewrite <- app_assoc.
Qed.

(** Joining a relative path without [..] components puts it below. *)
Lemma resolve_join_plain c (d : path) (f : string) :
  anchored (parse_path f) = false ->
  Forall (fun p => p <> "..") (parts (parse_path f)) ->
  resolve c (joinpath d f) = resolve c d ++ parts (parse_path f).
Proof.
  intros Ha Hp. unfold joinpath. rewrite Ha. unfold resolve. simpl.
  rewrite fold_left_app. by apply walk_plain.
Qed.

Lemma resolve_candidate w slogan k :
  no_slash slogan = true ->
  resolve (cwd w) (joinpath (CONVERSATIONS_DIR w) (candidate slogan k))
  = resolve (cwd w) (CONVERSATIONS_DIR w) ++ [candidate slogan k].
Proof.
  intros Hs. pose proof (candidate_length slogan k) as Hl.
  assert (Hp : parse_path (candidate slogan k)
               = {| anchored := false; parts := [candidate slogan k] |}).
  { apply parse_single; [by apply candidate_no_slash|lia]. }
  rewrite resolve_join_plain; rewrite Hp; simpl; [reflexivity..|].
  constructor; [|constructor]. intros Heq. rewrite Heq in Hl. simpl in Hl. lia.
Qed.

Lemma taken_candidate w slogan k :
  no_slash slogan = true ->
  taken w (candidate slogan k) = true ->
  resolve (cwd w) (CONVERSATIONS_DIR w) ++ [candidate slogan k] ∈ dom (fs w).
Proof.
  intros Hs. unfold taken, path_exists. rewrite (resolve_candidate _ _ _ Hs).
  unfold node_at.
  destruct (resolve (cwd w) (CONVERSATIONS_DIR w) ++ [candidate slogan k]) eqn:E.
  { by destruct (resolve (cwd w) (CONVERSATIONS_DIR w)). }
  intros H. apply elem_of_dom. by destruct (fs w !! _).
Qed.

(** The least index where a boolean sequence is false, if there is one. *)
Lemma least_false (P : nat -> bool) (n : nat) :
  P n = false ->
  exists k, P k = false /\ forall i, (i < k)%nat -> P i = true.
Proof.
  induction (lt_wf n) as [n _ IH]. intros Hn.
  destruct (forallb P (seq 0 n)) eqn:Hall.
  - exists n. split; [done|]. intros i Hi.
    rewrite forallb_forall in Hall. apply Hall. apply in_seq. lia.
  - assert (exists m, (m < n)%nat /\ P m = false) as (m & Hm & HPm).
    { clear -Hall. induction n as [|n IHn]; [discriminate|].
      rewrite seq_S, forallb_app in Hall. simpl in Hall.
      destruct (forallb P (seq 0 n)); simpl in Hall.
      - exists n. split; [lia|]. by destruct (P n).
      - destruct IHn as (m & ? & ?); [done|]. exists m. split; [lia|done]. }
    by apply (IH m).
Qed.

(** A finite directory cannot hold every name of the sequence. *)
Lemma some_candidate_free w slogan :
  no_slash slogan = true ->
  exists n, taken w (candidate slogan n) = false.
Proof.
  intros Hs.
  set (name := fun i : nat =>
         resolve (cwd w) (CONVERSATIONS_DIR w) ++ [candidate slogan i]).
  destruct (forallb (fun i => taken w (candidate slogan i)) (seq 0 (S (size (fs w)))))
    eqn:Hall.
  - exfalso. rewrite forallb_forall in Hall.
    assert (Hnd : NoDup (name <$> seq 0 (S (size (fs w))))).
    { apply NoDup_fmap_2_strong; [|apply NoDup_seq].
      intros i j _ _ Heq. unfold name in Heq.
      apply app_inv_head in Heq. injection Heq as Heq.
      by apply candidate_inj in Heq. }
    assert (Hsub : name <$> seq 0 (S (size (fs w))) ⊆+ elements (dom (fs w))).
    { apply NoDup_submseteq; [done|]. intros q Hq.
      apply list_elem_of_fmap in Hq as (i & -> & Hi).
      apply elem_of_elements. apply taken_candidate; [done|].
      apply Hall. by apply list_elem_of_In. }
    apply submseteq_length in Hsub.
    rewrite length_fmap, length_seq in Hsub.
    change (length (elements (dom (fs w)))) with (size (dom (fs w))) in Hsub.
    rewrite size_dom in Hsub. lia.
  - assert (exists m, taken w (candidate slogan m) = false) as [m Hm]; [|eauto].
    revert Hall. generalize (S (size (fs w))). intros n.
    induction n as [|n IHn]; [discriminate|].
    rewrite seq_S, forallb_app. simpl.
    destruct (forallb _ (seq 0 n)); simpl; [|by auto].
    destruct (taken w (candidate slogan n)) eqn:E; [discriminate|eauto].
Qed.

Lemma first_free_exists w slogan :
  no_slash slogan = true -> exists k, first_free w slogan k.
Proof.
  intros Hs. destruct (some_candidate_free w slogan Hs) as [n Hn].
  apply (least_false (fun i => taken w (candidate slogan i))) in Hn. exact Hn.
Qed.

(** The loop stops at the first free name. *)
Lemma pick_filename_from slogan w fuel :
  forall j k,
    (j <= k)%nat ->
    (forall i, (j <= i < k)%nat -> taken w (candidate slogan i) = true) ->
    taken w (candidate slogan k) = false ->
    (k - j < fuel)%nat ->
    Odin.pick_filename fuel slogan (candidate slogan j) (S j) w
    = (Ret (candidate slogan k), w).
Proof.
  induction fuel as [|fuel IH]; intros j k Hjk Hbelow Hk Hfuel; [lia|].
  simpl. unfold bind, get. fold (taken w (candidate slogan j)).
  destruct (decide (j = k)) as [->|Hne].
  - by rewrite Hk.
  - rewrite Hbelow by lia.
    change (slogan +:+ "_" +:+ pretty (S j) +:+ ".json") with (candidate slogan (S j)).
    apply IH; [lia| |done|lia]. intros i Hi. apply Hbelow. lia.
Qed.

Lemma pick_filename_first_free slogan w k fuel :
  first_free w slogan k -> (k < fuel)%nat ->
  Odin.pick_filename fuel slogan (slogan +:+ ".json") 1 w
  = (Ret (candidate slogan k), w).
Proof.
  intros [Hk Hbelow] Hfuel.
  apply (pick_filename_from slogan w fuel 0 k); [lia| |done|lia].
  intros i Hi. apply Hbelow. lia.
Qed.

(** The loop leaves the world as it is, whatever the fuel. *)
Lemma pick_filename_world slogan w fuel :
  forall filename counter,
    snd (Odin.pick_filename fuel slogan filename counter w) = w.
Proof.
  induction fuel as [|fuel IH]; intros filename counter; [reflexivity|].
  simpl. unfold bind, get.
  destruct (path_exists w _); [apply IH|reflexivity].
Qed.

(** Slugs hold letters, whitespace and underscores: no slash. *)
Lemma slug_no_slash s : no_slash (slug s) = true.
Proof.
  unfold slug, Str.replace, no_slash.
  apply forallb_map with (p := fun c => Str.isalpha c || Str.isspace c).
  - intros c. destruct c as [[] [] [] [] [] [] [] []]; vm_compute; congruence.
  - apply forallb_strip, forallb_filter.
Qed.



(** The scenario of the specification, run from the shell: the conversation
    ends up in [launch_2.json]. *)
Example launch_scenario :
  let w' := snd (Odin.script 3 odin_defaults launch_world) in
  conversation_file w'
  = Some {| anchored := true; parts := conversations ++ ["launch_2.json"] |}
  /\ fs launch_world !! (conversations ++ ["launch_2.json"]) = None
  /\ exists later,
       fs w' !! (conversations ++ ["launch_2.json"])
       = Some (File (Some (JArr ([turn "system" "You are a helpful assistant";
                                  turn "user" "go";
                                  turn "assistant" "Lift-off."] ++ later)))).
Proof.
  split; [vm_compute; reflexivity|]. split; [vm_compute; reflexivity|].
  eexists. vm_compute. reflexivity.
Qed.


(** ** Whole runs *)

Lemma same_files_refl m : same_files m m.
Proof. by intros q d. Qed.

Lemma same_files_trans m1 m2 m3 :
  same_files m1 m2 -> same_files m2 m3 -> same_files m1 m3.
Proof. intros H12 H23 q d. etrans; [apply H23|apply H12]. Qed.

(** [mkdir] adds directories and nothing else. *)
Lemma mkdir_from_keeps done todo m m' :
  mkdir_from done todo m = Some m' ->
  forall q n, m !! q = Some n -> m' !! q = Some n.
Proof.
  revert done m. induction todo as [|d todo IH]; intros done m; simpl.
  - by intros [= ->].
  - destruct (m !! (done ++ [d])) as [[|doc]|] eqn:E; [apply IH|done|].
    intros H q n Hq. apply (IH _ _ H).
    rewrite lookup_insert_ne; [done|]. intros <-. congruence.
Qed.

Lemma mkdir_from_files done todo m m' :
  mkdir_from done todo m = Some m' -> same_files m m'.
Proof.
  revert done m. induction todo as [|d todo IH]; intros done m; simpl.
  - intros [= ->]. apply same_files_refl.
  - destruct (m !! (done ++ [d])) as [[|doc]|] eqn:E; [apply IH|done|].
    intros H. eapply same_files_trans; [|by eapply IH].
    intros q f. destruct (decide (done ++ [d] = q)) as [<-|Hne].
    + rewrite lookup_insert_eq, E. split; discriminate.
    + by rewrite lookup_insert_ne.
Qed.

Lemma reply_outcome_cases rp r :
  reply_outcome rp r -> (exists s, r = Ret s) \/ (exists e, r = Raise e).
Proof.
  destruct rp as [|st [j|]]; simpl; eauto.
  destruct (is_error_status st); eauto.
  destruct (first_choice_content j) as [[]|]; eauto.
Qed.

Lemma logged_print rq o w s :
  with_stdout (stdout (logged rq o w) ++ [Printed s]) (logged rq o w)
  = logged rq (o ++ [Printed s]) w.
Proof. unfold logged, with_sent, with_stdout. simpl. by rewrite <- app_assoc. Qed.

(** In piped mode the loop of [odin.py] makes one exchange, prints the reply
    and returns; it writes nothing. *)
Lemma odin_chat_loop_piped fuel a turns message filename w :
  interactive_mode w = false ->
  let rq := request_for w
              (request_body (turns ++ [turn "user" message])
                 (Odin.token_limit a) (Odin.temperature a) (Odin.model a)) in
  exists r o,
    Odin.chat_loop (S fuel) a turns message filename w = (r, logged rq o w)
    /\ ((exists e, r = Raise e)
        \/ (r = Ret tt
            /\ exists before resp,
                 o = before ++ [Printed ("ChatGPT: " +:+ resp)]
                 /\ reply_outcome (server w (sent w) rq) (Ret resp))).
Proof.
  intros Hmode rq. simpl. unfold bind at 1.
  destruct (odin_send_gpt_request_run a (turns ++ [turn "user" message])
              (Odin.token_limit a) (Odin.temperature a) (Odin.model a) w)
    as (r0 & o & Hr & Ho & _).
  fold rq in Hr, Ho. rewrite Hr.
  destruct (reply_outcome_cases _ _ Ho) as [[resp ->]|[e ->]].
  - unfold bind, print, modify, get. simpl. rewrite Hmode. simpl.
    exists (Ret tt), (o ++ [Printed ("ChatGPT: " +:+ resp)]).
    rewrite <- logged_print. split; [reflexivity|]. right. eauto.
  - exists (Raise e), o. eauto.
Qed.

Lemma odin_load_api_key_cases w :
  exists r o,
    Odin.load_api_key w = (r, with_stdout (stdout w ++ o) w)
    /\ ((exists key, r = Ret key) \/ r = Exit 1 \/ exists e, r = Raise e).
Proof.
  unfold Odin.load_api_key, bind, get.
  destruct (given (env_apikey w)) as [k|].
  { exists (Ret (Str.strip k)), []. rewrite with_stdout_nil. eauto. }
  destruct (key_file w) as [kf|].
  - destruct (negb _).
    + exists (Exit 1). eexists. split; [reflexivity|eauto].
    + destruct (key_text kf); [eexists (Ret _), []|eexists (Raise _), []];
        rewrite with_stdout_nil; eauto.
  - exists (Exit 1), missing_key_output. split; [|eauto].
    unfold print, modify, sys_exit, with_stdout, missing_key_output; simpl.
    by rewrite <- app_assoc.
Qed.

Lemma openai_load_api_key_cases w :
  exists r,
    OpenAI.load_api_key w = (r, w)
    /\ ((exists key, r = Ret key) \/ exists e, r = Raise e).
Proof.
  unfold OpenAI.load_api_key, bind, get.
  destruct (key_file w) as [kf|]; [destruct (key_text kf)|]; eauto.
Qed.

Lemma get_chat_input_run prompt w :
  Odin.get_chat_input prompt w
  = (Ret (Str.strip (fst (Str.readline (stdin w)))),
     with_stdin (snd (Str.readline (stdin w)))
       (with_stdout (stdout w ++ [Wrote prompt]) w)).
Proof.
  unfold Odin.get_chat_input, bind, stdout_write, modify, stdin_readline, ret.
  simpl. by destruct (Str.readline (stdin w)).
Qed.

Lemma openai_get_chat_input_run prompt w :
  OpenAI.get_chat_input prompt w
  = (Ret (Str.strip (fst (Str.readline (stdin w)))),
     with_stdin (snd (Str.readline (stdin w)))
       (with_stdout (stdout w ++ [Wrote prompt]) w)).
Proof. apply get_chat_input_run. Qed.

(** Steps of the monad, as equations to rewrite with. *)
Lemma bind_ret_step {A B} (m : M A) (k : A -> M B) w a w' :
  m w = (Ret a, w') -> bind m k w = k a w'.
Proof. intros H. unfold bind. by rewrite H. Qed.

Lemma bind_exit_step {A B} (m : M A) (k : A -> M B) w c w' :
  m w = (Exit c, w') -> bind m k w = (Exit c, w').
Proof. intros H. unfold bind. by rewrite H. Qed.

Lemma bind_raise_step {A B} (m : M A) (k : A -> M B) w e w' :
  m w = (Raise e, w') -> bind m k w = (Raise e, w').
Proof. intros H. unfold bind. by rewrite H. Qed.

Lemma bind_modify {B} (f : world -> world) (k : unit -> M B) w :
  bind (modify f) k w = k tt (f w).
Proof. reflexivity. Qed.

Lemma bind_get {B} (k : world -> M B) w : bind get k w = k w w.
Proof. reflexivity. Qed.

Lemma mkdir_p_run p w m :
  mkdir_from [] (resolve (cwd w) p) (fs w) = Some m ->
  mkdir_p p w = (Ret tt, with_fs m w).
Proof. intros H. unfold mkdir_p. by rewrite H. Qed.

Lemma mkdir_p_fail p w :
  mkdir_from [] (resolve (cwd w) p) (fs w) = None ->
  mkdir_p p w = (Raise FileExistsError, w).
Proof. intros H. unfold mkdir_p. by rewrite H. Qed.

Lemma stdin_read_strip_run w :
  (text <- stdin_read ;; ret (Str.strip text)) w
  = (Ret (Str.strip (stdin w)), with_stdin EmptyString w).
Proof. reflexivity. Qed.

(** How a run of [odin.py] starts, whatever the fuel: it ends early, on the
    key or on the directory, having written and sent nothing; or it reads the
    first message and goes on with the conversation in a world [w1] whose
    tree is the initial one with the conversation directory made. *)
Lemma odin_script_start a w :
  (exists r w',
     (forall fuel, Odin.script fuel a w = (r, w'))
     /\ (r = Exit 1 \/ exists e, r = Raise e)
     /\ fs w' = fs w /\ sent w' = sent w /\ surroundings w' = surroundings w)
  \/ (exists m message w1,
        (forall fuel,
           Odin.script fuel a w
           = (started <- Odin.open_conversation fuel a message ;;
              let '(conversation_history, filename) := started in
              Odin.chat_loop fuel a conversation_history message filename) w1)
        /\ mkdir_from [] (resolve (cwd w) (CONVERSATIONS_DIR w)) (fs w) = Some m
        /\ fs w1 = m /\ sent w1 = sent w /\ surroundings w1 = surroundings w
        /\ interactive_mode w1 = isatty w /\ conversation_file w1 = None
        /\ (isatty w = false -> message = Str.strip (stdin w))).
Proof.
  destruct (odin_load_api_key_cases (Odin.startup w)) as (r0 & o0 & Hload & Hr0).
  destruct Hr0 as [[key ->]|[->|[e ->]]].
  2:{ left. exists (Exit 1). eexists. split.
      - intros fuel. unfold Odin.script, Odin.main.
        apply (bind_exit_step _ _ _ _ _ Hload).
      - split; [eauto|done]. }
  2:{ left. exists (Raise e). eexists. split.
      - intros fuel. unfold Odin.script, Odin.main.
        apply (bind_raise_step _ _ _ _ _ Hload).
      - split; [eauto|done]. }
  destruct (mkdir_from [] (resolve (cwd w) (CONVERSATIONS_DIR w)) (fs w))
    as [m|] eqn:Hm.
  - right. destruct (isatty w) eqn:Htty.
    + exists m, (Str.strip (fst (Str.readline (stdin w)))). eexists. split.
      * intros fuel. unfold Odin.script, Odin.main.
        rewrite (bind_ret_step _ _ _ _ _ Hload).
        rewrite bind_modify, bind_get.
        erewrite bind_ret_step by (apply mkdir_p_run; exact Hm).
        rewrite !bind_modify, bind_get.
        cbn [interactive_mode isatty with_interactive_mode with_conversation_file
             with_fs with_HEADERS with_stdout Odin.startup].
        rewrite Htty.
        erewrite bind_ret_step by apply get_chat_input_run.
        reflexivity.
      * done.
    + exists m, (Str.strip (stdin w)). eexists. split.
      * intros fuel. unfold Odin.script, Odin.main.
        rewrite (bind_ret_step _ _ _ _ _ Hload).
        rewrite bind_modify, bind_get.
        erewrite bind_ret_step by (apply mkdir_p_run; exact Hm).
        rewrite !bind_modify, bind_get.
        cbn [interactive_mode isatty with_interactive_mode with_conversation_file
             with_fs with_HEADERS with_stdout Odin.startup].
        rewrite Htty.
        erewrite bind_ret_step by apply stdin_read_strip_run.
        reflexivity.
      * done.
  - left. exists (Raise FileExistsError). eexists. split.
    + intros fuel. unfold Odin.script, Odin.main.
      rewrite (bind_ret_step _ _ _ _ _ Hload).
      rewrite bind_modify, bind_get.
      apply bind_raise_step. apply mkdir_p_fail. exact Hm.
    + split; [eauto|done].
Qed.

Lemma openai_script_start a w :
  (exists r w',
     (forall fuel, OpenAI.script fuel a w = (r, w'))
     /\ (exists e, r = Raise e)
     /\ fs w' = fs w /\ sent w' = sent w /\ surroundings w' = surroundings w)
  \/ (exists m message w1,
        (forall fuel,
           OpenAI.script fuel a w
           = (started <- OpenAI.open_conversation (clock w) a message ;;
              let '(conversation_history, filename) := started in
              OpenAI.chat_loop fuel a conversation_history message filename) w1)
        /\ mkdir_from [] (resolve (cwd w) (CONVERSATIONS_DIR w)) (fs w) = Some m
        /\ fs w1 = m /\ sent w1 = sent w /\ surroundings w1 = surroundings w
        /\ (isatty w = false -> message = Str.strip (stdin w))).
Proof.
  destruct (openai_load_api_key_cases (OpenAI.startup w)) as (r0 & Hload & Hr0).
  destruct Hr0 as [[key ->]|[e ->]].
  2:{ left. exists (Raise e). eexists. split.
      - intros fuel. unfold OpenAI.script, OpenAI.main.
        apply (bind_raise_step _ _ _ _ _ Hload).
      - split; [eauto|done]. }
  destruct (mkdir_from [] (resolve (cwd w) (CONVERSATIONS_DIR w)) (fs w))
    as [m|] eqn:Hm.
  - right. destruct (isatty w) eqn:Htty.
    + exists m, (Str.strip (fst (Str.readline (stdin w)))). eexists. split.
      * intros fuel. unfold OpenAI.script, OpenAI.main.
        rewrite (bind_ret_step _ _ _ _ _ Hload).
        rewrite bind_modify, bind_get.
        erewrite bind_ret_step by (apply mkdir_p_run; exact Hm).
        cbn [isatty clock with_fs with_HEADERS OpenAI.startup].
        rewrite Htty.
        erewrite bind_ret_step by apply openai_get_chat_input_run.
        reflexivity.
      * done.
    + exists m, (Str.strip (stdin w)). eexists. split.
      * intros fuel. unfold OpenAI.script, OpenAI.main.
        rewrite (bind_ret_step _ _ _ _ _ Hload).
        rewrite bind_modify, bind_get.
        erewrite bind_ret_step by (apply mkdir_p_run; exact Hm).
        cbn [isatty clock with_fs with_HEADERS OpenAI.startup].
        rewrite Htty.
        erewrite bind_ret_step by apply stdin_read_strip_run.
        reflexivity.
      * done.
  - left. exists (Raise FileExistsError). eexists. split.
    + intros fuel. unfold OpenAI.script, OpenAI.main.
      rewrite (bind_ret_step _ _ _ _ _ Hload).
      rewrite bind_modify, bind_get.
      apply bind_raise_step. apply mkdir_p_fail. exact Hm.
    + split; [eauto|done].
Qed.

Lemma target_surroundings w w' filename :
  surroundings w' = surroundings w -> target w' filename = target w filename.
Proof.
  unfold surroundings, target, CONVERSATIONS_DIR. intros [= _ Hh _ Hc _ _ _ _].
  by rewrite Hh, Hc.
Qed.

Lemma dump_json_cases p v w :
  dump_json p v w
  = (Ret tt, with_fs (<[resolve (cwd w) p := File (Some v)]> (fs w)) w)
  \/ exists e, dump_json p v w = (Raise e, w).
Proof.
  unfold dump_json. destruct (resolve (cwd w) p) as [|c q] eqn:E; [eauto|].
  destruct (node_at (fs w) (removelast (c :: q))) as [[|doc]|]; eauto.
  destruct (fs w !! (c :: q)) as [[|doc]|]; eauto.
Qed.


(** Whatever the fuel, the loop of [odin.py] touches no node but the one its
    file name lands on, and nothing of the surroundings. *)
Lemma odin_chat_loop_frame fuel :
  forall a turns message filename w r w',
    Odin.chat_loop fuel a turns message filename w = (r, w') ->
    surroundings w' = surroundings w
    /\ forall q, q <> target w filename -> fs w' !! q = fs w !! q.
Proof.
  induction fuel as [|fuel IH]; intros a turns message filename w r w';
    [by intros [= <- <-]|].
  simpl. unfold bind at 1.
  destruct (odin_send_gpt_request_run a (turns ++ [turn "user" message])
              (Odin.token_limit a) (Odin.temperature a) (Odin.model a) w)
    as (r0 & o & -> & Ho & _).
  destruct (reply_outcome_cases _ _ Ho) as [[resp ->]|[e ->]];
    [|by intros [= <- <-]].
  unfold bind at 1, print at 1, modify at 1.
  unfold bind at 1, get at 1. simpl.
  destruct (interactive_mode w) eqn:Hmode; simpl.
  - unfold bind at 1. unfold bind at 1, modify at 1.
    match goal with |- context [dump_json ?p ?v ?w0] =>
      destruct (dump_json_cases p v w0) as [-> | [e ->]] end;
      [|by intros [= <- <-]].
    unfold bind at 1. rewrite get_chat_input_run.
    intros Hrec. apply IH in Hrec as [Hs Hf].
    split; [exact Hs|]. intros q Hq.
    rewrite (Hf q) by exact Hq. simpl.
    apply lookup_insert_ne. intros Heq. apply Hq. rewrite <- Heq. reflexivity.
  - by intros [= <- <-].
Qed.


(** ** Resume mode: where it reads and where it writes *)

Lemma odin_open_resume fuel a f : 
  given (Odin.file a) = Some f ->
  resume_source (Odin.open_conversation fuel a) (Odin.system a) f.
Proof.
  intros Hf message w conversation filename w'.
  unfold Odin.open_conversation. rewrite Hf. unfold bind at 1, get at 1.
  destruct (expanduser w (parse_path f)) as [file_path|] eqn:He; [|done].
  unfold bind at 1.
  destruct (Odin.continue_conversation file_path (Odin.system a) w)
    as [[conv| | |] w1] eqn:Hc; try done.
  intros [= <- <- <-].
  apply (proj2 odin_resume_contract) in Hc as [-> (loaded & Hn & ->)].
  split; [done|]. split; [done|]. eauto.
Qed.

Lemma openai_open_resume timestamp a f : 
  given (OpenAI.file a) = Some f ->
  resume_source (OpenAI.open_conversation timestamp a) (OpenAI.system a) f.
Proof.
  intros Hf message w conversation filename w'.
  unfold OpenAI.open_conversation. rewrite Hf. unfold bind at 1, get at 1.
  destruct (expanduser w (parse_path f)) as [file_path|] eqn:He; [|done].
  unfold bind at 1.
  destruct (OpenAI.continue_conversation file_path (OpenAI.system a) w)
    as [[conv| | |] w1] eqn:Hc; try done.
  intros [= <- <- <-].
  apply (proj2 openai_resume_contract) in Hc as [-> (loaded & Hn & ->)].
  split; [done|]. split; [done|]. eauto.
Qed.







(** ** Piped mode: one shot *)

Lemma odin_generate_slogan_cases a prompt w :
  exists r rq o,
    Odin.generate_slogan a prompt w = (r, logged rq o w)
    /\ ((exists raw, r = Ret (slug raw)) \/ exists e, r = Raise e).
Proof.
  destruct (odin_generate_slogan_run a prompt w) as (r & o & Hr & _ & Ho).
  exists r. eexists _, o. split; [exact Hr|].
  destruct (server w (sent w) _) as [|st [j|]]; [by right| |by right].
  destruct (is_error_status st); [right; eauto|].
  destruct (first_choice_content j) as [[]|]; eauto.
Qed.

Lemma openai_generate_slogan_cases a prompt w :
  exists r rq o,
    OpenAI.generate_slogan a prompt w = (r, logged rq o w)
    /\ ((exists raw, r = Ret (slug raw)) \/ exists e, r = Raise e).
Proof.
  destruct (openai_generate_slogan_as_odin a prompt w) as (r & o & Hr & _ & Ho).
  exists r. eexists _, o. split; [exact Hr|].
  destruct (server w (sent w) _) as [|st [j|]]; [by right| |by right].
  destruct (is_error_status st); [right; eauto|].
  destruct (first_choice_content j) as [[]|]; eauto.
Qed.


Lemma advanced_refl w : advanced 0 w w.
Proof.
  exists [], []. split; [done|]. rewrite !app_nil_r. by destruct w.
Qed.

Lemma advanced_logged rq o w : advanced 1 w (logged rq o w).
Proof. by exists [rq], o. Qed.

Lemma advanced_trans n1 n2 w1 w2 w3 :
  advanced n1 w1 w2 -> advanced n2 w2 w3 -> advanced (n1 + n2) w1 w3.
Proof.
  intros (r1 & o1 & <- & ->) (r2 & o2 & <- & ->).
  exists (r1 ++ r2), (o1 ++ o2). split; [by rewrite length_app|].
  unfold with_sent, with_stdout. simpl. by rewrite <- !app_assoc.
Qed.

Lemma advanced_facts n w w' :
  advanced n w w' ->
  fs w' = fs w /\ surroundings w' = surroundings w
  /\ interactive_mode w' = interactive_mode w
  /\ List.length (sent w') = (List.length (sent w) + n)%nat.
Proof.
  intros (rqs & o & <- & ->). simpl. by rewrite length_app.
Qed.

(** Starting a conversation in [odin.py]: no request in resume mode, the
    slogan request otherwise; nothing else changes. *)
Lemma odin_open_conversation_advances fuel a message w r w' :
  Odin.open_conversation fuel a message w = (r, w') ->
  advanced (requests_planned (Odin.file a) - 1) w w'.
Proof.
  unfold requests_planned, Odin.open_conversation.
  destruct (given (Odin.file a)) as [f|] eqn:Hf.
  - unfold bind at 1, get at 1.
    destruct (expanduser w (parse_path f)) as [file_path|];
      [|intros [= <- <-]; apply advanced_refl].
    unfold bind at 1, Odin.continue_conversation, bind, load_json.
    destruct (node_at (fs w) (resolve (cwd w) file_path)) as [[|[[]|]]|];
      unfold ret, raise; intros [= <- <-]; apply advanced_refl.
  - unfold bind at 1.
    destruct (odin_generate_slogan_cases a message w) as (r0 & rq & o & -> & Hr0).
    destruct Hr0 as [[raw ->]|[e ->]];
      [|intros [= <- <-]; apply advanced_logged].
    unfold bind at 1.
    pose proof (pick_filename_world (slug raw) (logged rq o w) fuel
                  (slug raw +:+ ".json") 1%nat) as Hw.
    destruct (Odin.pick_filename fuel (slug raw) (slug raw +:+ ".json") 1
                (logged rq o w)) as [[name| | |] w2]; simpl in Hw; subst w2;
      intros [= <- <-]; apply advanced_logged.
Qed.

Lemma openai_open_conversation_advances timestamp a message w r w' :
  OpenAI.open_conversation timestamp a message w = (r, w') ->
  advanced (requests_planned (OpenAI.file a) - 1) w w'
  /\ r <> OutOfFuel.
Proof.
  unfold requests_planned, OpenAI.open_conversation.
  destruct (given (OpenAI.file a)) as [f|] eqn:Hf.
  - unfold bind at 1, get at 1.
    destruct (expanduser w (parse_path f)) as [file_path|];
      [|intros [= <- <-]; split; [apply advanced_refl|done]].
    unfold bind at 1, OpenAI.continue_conversation, bind, load_json.
    destruct (node_at (fs w) (resolve (cwd w) file_path)) as [[|[[]|]]|];
      unfold ret, raise; intros [= <- <-]; (split; [apply advanced_refl|done]).
  - unfold bind at 1.
    destruct (openai_generate_slogan_cases a message w) as (r0 & rq & o & -> & Hr0).
    destruct Hr0 as [[raw ->]|[e ->]]; intros [= <- <-];
      (split; [apply advanced_logged|done]).
Qed.

(** In piped mode the loop of [openai.py] makes one exchange, prints the
    reply, writes the file and returns. *)
Lemma openai_chat_loop_piped fuel a turns message filename w :
  isatty w = false ->
  exists r w',
    OpenAI.chat_loop (S fuel) a turns message filename w = (r, w')
    /\ List.length (sent w') = S (List.length (sent w))
    /\ ((exists e, r = Raise e /\ fs w' = fs w)
        \/ (r = Ret tt
            /\ exists resp,
                 prints_reply_last w' resp
                 /\ fs w'
                    = <[target w filename :=
                          File (Some (JArr ((turns ++ [turn "user" message])
                                            ++ [turn "assistant" resp])))]> (fs w))).
Proof.
  intros Htty. simpl. unfold bind at 1.
  destruct (openai_send_gpt_request_run a (turns ++ [turn "user" message])
              (OpenAI.token_limit a) (OpenAI.temperature a) w)
    as (r0 & o & -> & Ho & _).
  destruct (reply_outcome_cases _ _ Ho) as [[resp ->]|[e ->]].
  2:{ eexists _, _. split; [reflexivity|]. simpl. rewrite length_app. simpl.
      split; [lia|]. left. eauto. }
  unfold bind at 1, print at 1, modify at 1.
  unfold bind at 1, get at 1.
  unfold bind at 1.
  match goal with |- context [dump_json ?p ?v ?w0] =>
    destruct (dump_json_cases p v w0) as [-> | [e ->]] end.
  - simpl. rewrite Htty. simpl. eexists _, _. split; [reflexivity|]. simpl.
    rewrite length_app. simpl. split; [lia|]. right. split; [done|].
    exists resp. split; [|reflexivity]. by eexists.
  - eexists _, _. split; [reflexivity|]. simpl. rewrite length_app. simpl.
    split; [lia|]. left. eauto.
Qed.

Lemma odin_piped_run fuel a w r w' :
  isatty w = false ->
  Odin.script fuel a w = (r, w') ->
  same_files (fs w) (fs w')
  /\ (List.length (sent w') <= List.length (sent w) + requests_planned (Odin.file a))%nat
  /\ (r = Ret tt ->
      List.length (sent w') = (List.length (sent w) + requests_planned (Odin.file a))%nat
      /\ exists resp, prints_reply_last w' resp).
Proof.
  intros Htty.
  destruct (odin_script_start a w)
    as [(r1 & w1 & Hrun & Hr1 & Hfs & Hsent & _)
       |(m & message & w1 & Hrun & Hm & Hfs & Hsent & Hsur & Hmode & _)];
    rewrite (Hrun fuel).
  { intros [= <- <-]. rewrite Hfs, Hsent. split; [apply same_files_refl|].
    split; [lia|]. by destruct Hr1 as [->|[e ->]]. }
  apply mkdir_from_files in Hm. rewrite Htty in Hmode.
  unfold bind at 1.
  destruct (Odin.open_conversation fuel a message w1) as [r0 w2] eqn:Hopen.
  apply odin_open_conversation_advances in Hopen.
  destruct (advanced_facts _ _ _ Hopen) as (Hfs2 & _ & Hmode2 & Hsent2).
  assert (Hplan : (1 <= requests_planned (Odin.file a))%nat)
    by (unfold requests_planned; destruct (given _); lia).
  destruct r0 as [[conversation filename]| | |];
    try (intros [= <- <-]; rewrite Hfs2, Hfs, Hsent2, Hsent;
         split; [exact Hm|]; split; [lia|done]).
  destruct fuel as [|fuel].
  { intros [= <- <-]. rewrite Hfs2, Hfs, Hsent2, Hsent.
    split; [exact Hm|]. split; [lia|done]. }
  destruct (odin_chat_loop_piped fuel a conversation message filename w2)
    as (r3 & o & -> & Hr3); [by rewrite Hmode2|].
  intros [= <- <-]. simpl. rewrite length_app, Hfs2, Hfs, Hsent2, Hsent. simpl.
  split; [exact Hm|]. split; [lia|]. intros ->. split; [lia|].
  destruct Hr3 as [[e [=]]|[_ (before & resp & -> & _)]].
  exists resp, (stdout w2 ++ before). simpl. by rewrite <- app_assoc.
Qed.

Lemma odin_piped_terminates a w :
  isatty w = false ->
  exists n, forall fuel, (n <= fuel)%nat -> fst (Odin.script fuel a w) <> OutOfFuel.
Proof.
  intros Htty.
  destruct (odin_script_start a w)
    as [(r1 & w1 & Hrun & Hr1 & _)
       |(m & message & w1 & Hrun & _ & _ & _ & _ & Hmode & _)].
  { exists 0%nat. intros fuel _. rewrite (Hrun fuel). simpl.
    by destruct Hr1 as [->|[e ->]]. }
  rewrite Htty in Hmode.
  assert (Hloop : forall fuel conversation filename w2,
            interactive_mode w2 = false ->
            fst (Odin.chat_loop (S fuel) a conversation message filename w2)
            <> OutOfFuel).
  { intros fuel conversation filename w2 Hw2.
    destruct (odin_chat_loop_piped fuel a conversation message filename w2 Hw2)
      as (r3 & o & -> & [[e ->]|[-> _]]); done. }
  destruct (given (Odin.file a)) as [f|] eqn:Hf.
  - exists 1%nat. intros [|fuel] Hfuel; [lia|]. rewrite (Hrun (S fuel)).
    unfold bind at 1.
    destruct (Odin.open_conversation (S fuel) a message w1) as [r0 w2] eqn:Hopen.
    pose proof Hopen as Hadv. apply odin_open_conversation_advances in Hadv.
    destruct (advanced_facts _ _ _ Hadv) as (_ & _ & Hmode2 & _).
    revert Hopen. unfold Odin.open_conversation. rewrite Hf.
    unfold bind at 1, get at 1.
    destruct (expanduser w1 (parse_path f)) as [file_path|];
      [|by intros [= <- <-]].
    unfold bind at 1, Odin.continue_conversation, bind, load_json.
    destruct (node_at (fs w1) (resolve (cwd w1) file_path)) as [[|[[]|]]|];
      unfold ret, raise; intros [= <- <-]; try done.
    apply Hloop. by rewrite <- Hmode.
  - destruct (odin_generate_slogan_cases a message w1) as (r0 & rq & o & Hgen & Hr0).
    destruct Hr0 as [[raw ->]|[e ->]].
    + destruct (first_free_exists (logged rq o w1) (slug raw) (slug_no_slash raw))
        as [k Hk].
      exists (S k). intros [|fuel] Hfuel; [lia|]. rewrite (Hrun (S fuel)).
      unfold bind at 1, Odin.open_conversation. rewrite Hf.
      unfold bind at 1. rewrite Hgen. unfold bind at 1.
      rewrite (pick_filename_first_free _ _ k) by (done || lia).
      unfold ret. apply Hloop. done.
    + exists 0%nat. intros fuel _. rewrite (Hrun fuel).
      unfold bind at 1, Odin.open_conversation. rewrite Hf.
      unfold bind at 1. by rewrite Hgen.
Qed.

Lemma openai_piped_run fuel a w r w' :
  isatty w = false ->
  OpenAI.script fuel a w = (r, w') ->
  (List.length (sent w') <= List.length (sent w) + requests_planned (OpenAI.file a))%nat
  /\ (r = Ret tt ->
      List.length (sent w') = (List.length (sent w) + requests_planned (OpenAI.file a))%nat
      /\ (exists resp, prints_reply_last w' resp)
      /\ exists filename,
           only_writes (target w filename) (fs w) (fs w')
           /\ exists turns,
                fs w' !! target w filename = Some (File (Some (JArr turns)))).
Proof.
  intros Htty.
  destruct (openai_script_start a w)
    as [(r1 & w1 & Hrun & Hr1 & Hfs & Hsent & _)
       |(m & message & w1 & Hrun & Hm & Hfs & Hsent & Hsur & _)];
    rewrite (Hrun fuel).
  { intros [= <- <-]. rewrite Hsent. split; [lia|]. by destruct Hr1 as [e ->]. }
  apply mkdir_from_files in Hm.
  unfold bind at 1.
  destruct (OpenAI.open_conversation (clock w) a message w1) as [r0 w2] eqn:Hopen.
  apply openai_open_conversation_advances in Hopen as [Hopen _].
  destruct (advanced_facts _ _ _ Hopen) as (Hfs2 & Hsur2 & _ & Hsent2).
  assert (Hplan : (1 <= requests_planned (OpenAI.file a))%nat)
    by (unfold requests_planned; destruct (given _); lia).
  assert (Htty2 : isatty w2 = false).
  { rewrite Hsur in Hsur2. unfold surroundings in Hsur2.
    injection Hsur2 as _ _ _ _ Hi _ _ _. by rewrite Hi. }
  destruct r0 as [[conversation filename]| | |];
    try (intros [= <- <-]; rewrite Hsent2, Hsent; split; [lia|done]).
  destruct fuel as [|fuel].
  { intros [= <- <-]. rewrite Hsent2, Hsent. split; [lia|done]. }
  destruct (openai_chat_loop_piped fuel a conversation message filename w2 Htty2)
    as (r3 & w3 & -> & Hsent3 & Hr3).
  intros [= <- <-]. rewrite Hsent3, Hsent2, Hsent.
  split; [lia|]. intros ->. split; [lia|].
  destruct Hr3 as [(e & [=] & _)|[_ (resp & Hprint & Hfs3)]].
  split; [by exists resp|]. exists filename.
  assert (Ht : target w2 filename = target w filename).
  { apply target_surroundings. by rewrite Hsur2. }
  rewrite Ht in Hfs3. rewrite Hfs3. split.
  - intros q d Hq. rewrite lookup_insert_ne by done. rewrite Hfs2, Hfs. apply Hm.
  - eexists. apply lookup_insert_eq.
Qed.

Lemma openai_piped_terminates a w fuel :
  isatty w = false -> (1 <= fuel)%nat ->
  fst (OpenAI.script fuel a w) <> OutOfFuel.
Proof.
  intros Htty Hfuel.
  destruct (openai_script_start a w)
    as [(r1 & w1 & Hrun & [e ->] & _)
       |(m & message & w1 & Hrun & _ & _ & _ & Hsur & _)];
    rewrite (Hrun fuel); [done|].
  unfold bind at 1.
  destruct (OpenAI.open_conversation (clock w) a message w1) as [r0 w2] eqn:Hopen.
  apply openai_open_conversation_advances in Hopen as [Hopen Hr0].
  destruct (advanced_facts _ _ _ Hopen) as (_ & Hsur2 & _ & _).
  assert (Htty2 : isatty w2 = false).
  { rewrite Hsur in Hsur2. unfold surroundings in Hsur2.
    injection Hsur2 as _ _ _ _ Hi _ _ _. by rewrite Hi. }
  destruct r0 as [[conversation filename]| | |]; try done.
  destruct fuel as [|fuel]; [lia|].
  destruct (openai_chat_loop_piped fuel a conversation message filename w2 Htty2)
    as (r3 & w3 & -> & _ & [(e & -> & _)|[-> _]]); done.
Qed.
(** * Further properties of the code *)

(** ** New conversations and the files that exist *)

(** The name of a new conversation is one path component: its file lies
    directly in the conversation directory. *)
Theorem new_conversation_file_in_directory (w : world) (raw : string) (k : nat) :
  target w (candidate (Odin.post_process raw) k)
  = resolve (cwd w) (CONVERSATIONS_DIR w) ++ [candidate (Odin.post_process raw) k].
Proof. apply resolve_candidate, slug_no_slash. Qed.

(** The loop of lines 139 to 142 only ever returns a name of the sequence
    that does not exist. *)
Lemma pick_filename_sound slogan w fuel :
  forall j name w',
    Odin.pick_filename fuel slogan (candidate slogan j) (S j) w = (Ret name, w') ->
    w' = w /\ taken w name = false /\ exists k, name = candidate slogan k.
Proof.
  induction fuel as [|fuel IH]; intros j name w'; [done|].
  simpl. unfold bind, get. fold (taken w (candidate slogan j)).
  destruct (taken w (candidate slogan j)) eqn:Ht.
  - change (slogan +:+ "_" +:+ pretty (S j) +:+ ".json")
      with (candidate slogan (S j)).
    apply IH.
  - intros [= <- <-]. eauto.
Qed.

Lemma taken_false_lookup w slogan k :
  no_slash slogan = true ->
  taken w (candidate slogan k) = false ->
  fs w !! target w (candidate slogan k) = None.
Proof.
  intros Hs. unfold taken, path_exists, target.
  rewrite (resolve_candidate _ _ _ Hs). unfold node_at.
  destruct (resolve (cwd w) (CONVERSATIONS_DIR w) ++ [candidate slogan k]) eqn:E.
  { by destruct (resolve (cwd w) (CONVERSATIONS_DIR w)). }
  by destruct (fs w !! _).
Qed.

(** Starting a new conversation with [odin.py] never changes a regular file
    that exists: the name picked is free, and nothing else is written. *)
Theorem odin_new_conversation_keeps_files fuel a w r w' :
  given (Odin.file a) = None ->
  Odin.script fuel a w = (r, w') ->
  forall q d, fs w !! q = Some (File d) -> fs w' !! q = Some (File d).
Proof.
  intros Hf.
  destruct (odin_script_start a w)
    as [(r1 & w1 & Hrun & _ & Hfs & _)
       |(m & message & w1 & Hrun & Hm & Hfs & _ & Hsur & _)];
    rewrite (Hrun fuel).
  { intros [= <- <-] q d. by rewrite Hfs. }
  apply mkdir_from_files in Hm.
  unfold bind at 1, Odin.open_conversation. rewrite Hf. unfold bind at 1.
  destruct (odin_generate_slogan_cases a message w1) as (r0 & rq & o & -> & Hr0).
  destruct Hr0 as [[raw ->]|[e ->]];
    [|intros [= <- <-] q d Hq; simpl; rewrite Hfs; by apply Hm].
  unfold bind at 1.
  destruct (Odin.pick_filename fuel (slug raw) (slug raw +:+ ".json") 1
              (logged rq o w1)) as [r2 w2] eqn:Hpick.
  pose proof (pick_filename_world (slug raw) (logged rq o w1) fuel
                (slug raw +:+ ".json") 1%nat) as Hw2.
  rewrite Hpick in Hw2. simpl in Hw2. subst w2.
  destruct r2 as [name| | |];
    try (intros [= <- <-] q d Hq; simpl; rewrite Hfs; by apply Hm).
  apply (pick_filename_sound (slug raw) _ fuel 0) in Hpick
    as (_ & Hfree & k & ->).
  apply taken_false_lookup in Hfree; [|apply slug_no_slash].
  unfold ret.
  destruct (Odin.chat_loop fuel a [turn "system" (Odin.system a)] message
              (candidate (slug raw) k) (logged rq o w1)) as [r3 w3] eqn:Hloop.
  apply odin_chat_loop_frame in Hloop as [_ Hframe].
  intros [= <- <-] q d Hq. apply Hm in Hq. rewrite <- Hfs in Hq.
  rewrite Hframe; [exact Hq|].
  intros ->. simpl in Hfree. rewrite Hfree in Hq. discriminate.
Qed.

Lemma odin_new_conversation_keeps_files_witness :
  fs (snd (Odin.script 3 odin_defaults launch_world))
    !! (conversations ++ ["launch.json"])
  = Some (File (Some (JArr []))).
Proof.
  apply (odin_new_conversation_keeps_files 3 odin_defaults launch_world
           (fst (Odin.script 3 odin_defaults launch_world))
           (snd (Odin.script 3 odin_defaults launch_world)) eq_refl
           (surjective_pairing _)).
  reflexivity.
Defined.
(** ** The chat loop in interactive mode *)

(** The body of the loop of [odin.py], for one more unit of fuel. *)
Lemma odin_chat_loop_unfold fuel a turns message filename :
  Odin.chat_loop (S fuel) a turns message filename
  = (response <- Odin.send_gpt_request a (turns ++ [turn "user" message])
                   (Odin.token_limit a) (Odin.temperature a) (Odin.model a) ;;
     print ("ChatGPT: " +:+ response) ;;
     w <- get ;;
     (if interactive_mode w then
        modify (with_conversation_file
                  (Some (joinpath (CONVERSATIONS_DIR w) filename))) ;;
        dump_json (joinpath (CONVERSATIONS_DIR w) filename)
          (JArr ((turns ++ [turn "user" message]) ++ [turn "assistant" response]))
      else ret tt) ;;
     if negb (interactive_mode w) then ret tt
     else
       message' <- Odin.get_chat_input "You: " ;;
       Odin.chat_loop fuel a
         ((turns ++ [turn "user" message]) ++ [turn "assistant" response])
         message' filename).
Proof. reflexivity. Qed.

(** One turn of the loop of [odin.py] in interactive mode: the exchange
    fails, or the file cannot be written, or the conversation is saved and
    the loop goes on with the next line of input. *)
Lemma odin_chat_loop_turn fuel a turns message filename w :
  interactive_mode w = true ->
  let rq := request_for w
              (request_body (turns ++ [turn "user" message])
                 (Odin.token_limit a) (Odin.temperature a) (Odin.model a)) in
  let path := joinpath (CONVERSATIONS_DIR w) filename in
  exists r0 o,
    reply_outcome (server w (sent w) rq) r0
    /\ match r0 with
       | Ret resp =>
           let said := logged rq (o ++ [Printed ("ChatGPT: " +:+ resp)]) w in
           let saved := (turns ++ [turn "user" message]) ++ [turn "assistant" resp] in
           match dump_json path (JArr saved) (with_conversation_file (Some path) said) with
           | (Ret _, w2) =>
               Odin.chat_loop (S fuel) a turns message filename w
               = Odin.chat_loop fuel a saved
                   (Str.strip (fst (Str.readline (stdin w)))) filename
                   (with_stdin (snd (Str.readline (stdin w)))
                      (with_stdout (stdout w2 ++ [Wrote "You: "]) w2))
           | (Raise e, w2) =>
               Odin.chat_loop (S fuel) a turns message filename w = (Raise e, w2)
           | _ => False
           end
       | Raise e =>
           Odin.chat_loop (S fuel) a turns message filename w = (Raise e, logged rq o w)
       | _ => False
       end.
Proof.
  intros Hmode rq path.
  destruct (odin_send_gpt_request_run a (turns ++ [turn "user" message])
              (Odin.token_limit a) (Odin.temperature a) (Odin.model a) w)
    as (r0 & o & Hsend & Ho & _).
  fold rq in Hsend, Ho. exists r0, o. split; [exact Ho|].
  destruct (reply_outcome_cases _ _ Ho) as [[resp ->]|[e ->]].
  2:{ rewrite odin_chat_loop_unfold. apply (bind_raise_step _ _ _ _ _ Hsend). }
  cbv zeta.
  match goal with |- context [dump_json ?p ?v ?w0] =>
    destruct (dump_json_cases p v w0) as [Hd | [e Hd]]; rewrite Hd end.
  - rewrite odin_chat_loop_unfold.
    rewrite (bind_ret_step _ _ _ _ _ Hsend).
    unfold print at 1. rewrite bind_modify, bind_get.
    rewrite logged_print.
    cbn [interactive_mode logged with_sent with_stdout]. rewrite Hmode.
    cbn [negb].
    erewrite (bind_ret_step (bind _ _)).
    2:{ rewrite bind_modify. exact Hd. }
    erewrite bind_ret_step by apply get_chat_input_run.
    reflexivity.
  - rewrite odin_chat_loop_unfold.
    rewrite (bind_ret_step _ _ _ _ _ Hsend).
    unfold print at 1. rewrite bind_modify, bind_get.
    rewrite logged_print.
    cbn [interactive_mode logged with_sent with_stdout]. rewrite Hmode.
    apply bind_raise_step. rewrite bind_modify. exact Hd.
Qed.





(** In interactive mode the loop of [odin.py] never returns: it is still
    running when the fuel is spent, or it has died of an exception. *)
Lemma odin_interactive_loop_never_returns fuel :
  forall a turns message filename w,
    interactive_mode w = true ->
    fst (Odin.chat_loop fuel a turns message filename w) <> Ret tt.
Proof.
  induction fuel as [|fuel IH]; intros a turns message filename w Hmode; [done|].
  destruct (odin_chat_loop_turn fuel a turns message filename w Hmode)
    as (r0 & o & _ & Hturn).
  destruct r0 as [resp| |e|]; try done; [|by rewrite Hturn].
  cbv zeta in Hturn.
  match type of Hturn with context [dump_json ?p ?v ?w0] =>
    destruct (dump_json_cases p v w0) as [Hd | [e Hd]]; rewrite Hd in Hturn end;
    rewrite Hturn; [|done].
  apply IH. exact Hmode.
Qed.

(** An interactive run of [odin.py] never ends normally: also at the end of
    the input, where every further message is the empty string. *)
Theorem odin_interactive_never_returns fuel a w :
  isatty w = true -> fst (Odin.script fuel a w) <> Ret tt.
Proof.
  intros Htty.
  destruct (odin_script_start a w)
    as [(r1 & w1 & Hrun & Hr1 & _)
       |(m & message & w1 & Hrun & _ & _ & _ & _ & Hmode & _)];
    rewrite (Hrun fuel).
  { by destruct Hr1 as [->|[e ->]]. }
  rewrite Htty in Hmode. unfold bind at 1.
  destruct (Odin.open_conversation fuel a message w1) as [r0 w2] eqn:Hopen.
  apply odin_open_conversation_advances in Hopen.
  destruct (advanced_facts _ _ _ Hopen) as (_ & _ & Hmode2 & _).
  destruct r0 as [[conversation filename]| | |]; try done.
  apply odin_interactive_loop_never_returns. by rewrite Hmode2.
Qed.

Lemma odin_interactive_never_returns_witness :
  fst (Odin.script 4 odin_defaults greeting_world) <> Ret tt.
Proof. apply odin_interactive_never_returns. reflexivity. Defined.





(** While the interactive loop of [odin.py] runs on, the file holds the
    whole conversation: from a world where it holds [turns], after [fuel]
    more turns it holds [turns] and [2 * fuel] turns behind them. *)
Lemma odin_interactive_loop_keeps_file fuel :
  forall a turns message filename w w',
    interactive_mode w = true ->
    conversation_file w = Some (joinpath (CONVERSATIONS_DIR w) filename) ->
    fs w !! target w filename = Some (File (Some (JArr turns))) ->
    Odin.chat_loop fuel a turns message filename w = (OutOfFuel, w') ->
    exists conversation,
      conversation_file w' = Some (joinpath (CONVERSATIONS_DIR w) filename)
      /\ fs w' !! target w filename = Some (File (Some (JArr conversation)))
      /\ turns `prefix_of` conversation
      /\ List.length conversation = (List.length turns + 2 * fuel)%nat.
Proof.
  induction fuel as [|fuel IH]; intros a turns message filename w w' Hmode Hcf Hfile.
  { intros [= <-]. exists turns. split; [done|]. split; [done|].
    split; [done|lia]. }
  destruct (odin_chat_loop_turn fuel a turns message filename w Hmode)
    as (r0 & o & _ & Hturn).
  destruct r0 as [resp| |e|]; try done; [|by rewrite Hturn].
  cbv zeta in Hturn.
  match type of Hturn with context [dump_json ?p ?v ?w0] =>
    destruct (dump_json_cases p v w0) as [Hd | [e Hd]]; rewrite Hd in Hturn end;
    rewrite Hturn; [|done].
  intros Hrec. apply IH in Hrec as (conversation & Hcf' & Hfile' & Hpre & Hlen).
  - exists conversation. split; [exact Hcf'|]. split; [exact Hfile'|]. split.
    + etrans; [|exact Hpre]. rewrite <- app_assoc. by apply prefix_app_r.
    + rewrite Hlen, !length_app. simpl. lia.
  - exact Hmode.
  - reflexivity.
  - apply lookup_insert_eq.
Qed.

(** An interactive session of [odin.py] that is still running after its
    first turns has its conversation file: the global names it, and the file
    holds the turns the session started from and two more for every turn
    made, so that an interrupt prints the path of a file that is there. *)
Theorem odin_interactive_file_holds_conversation fuel a turns message filename w w' :
  interactive_mode w = true ->
  Odin.chat_loop (S fuel) a turns message filename w = (OutOfFuel, w') ->
  exists conversation,
    conversation_file w' = Some (joinpath (CONVERSATIONS_DIR w) filename)
    /\ fs w' !! target w filename = Some (File (Some (JArr conversation)))
    /\ turns `prefix_of` conversation
    /\ List.length conversation = (List.length turns + 2 * S fuel)%nat.
Proof.
  intros Hmode.
  destruct (odin_chat_loop_turn fuel a turns message filename w Hmode)
    as (r0 & o & _ & Hturn).
  destruct r0 as [resp| |e|]; try done; [|by rewrite Hturn].
  cbv zeta in Hturn.
  match type of Hturn with context [dump_json ?p ?v ?w0] =>
    destruct (dump_json_cases p v w0) as [Hd | [e Hd]]; rewrite Hd in Hturn end;
    rewrite Hturn; [|done].
  intros Hrec.
  apply odin_interactive_loop_keeps_file in Hrec
    as (conversation & Hcf' & Hfile' & Hpre & Hlen).
  - exists conversation. split; [exact Hcf'|]. split; [exact Hfile'|]. split.
    + etrans; [|exact Hpre]. rewrite <- app_assoc. by apply prefix_app_r.
    + rewrite Hlen, !length_app. simpl. lia.
  - exact Hmode.
  - reflexivity.
  - apply lookup_insert_eq.
Qed.

Lemma odin_interactive_file_holds_conversation_witness :
  exists conversation,
    fs (snd (Odin.chat_loop 2 odin_defaults [turn "system" "Be brief"] "hello"
               "warm_greeting.json"
               (with_interactive_mode true
                  (with_fs (<[conversations := Dir]> ∅) greeting_world))))
      !! (conversations ++ ["warm_greeting.json"])
    = Some (File (Some (JArr conversation)))
    /\ List.length conversation = 5%nat.
Proof.
  destruct (odin_interactive_file_holds_conversation 1 odin_defaults
              [turn "system" "Be brief"] "hello" "warm_greeting.json"
              (with_interactive_mode true
                 (with_fs (<[conversations := Dir]> ∅) greeting_world))
              (snd (Odin.chat_loop 2 odin_defaults [turn "system" "Be brief"] "hello"
                      "warm_greeting.json"
                      (with_interactive_mode true
                         (with_fs (<[conversations := Dir]> ∅) greeting_world))))
              eq_refl)
    as (conversation & _ & Hfile & _ & Hlen).
  - vm_compute. reflexivity.
  - exists conversation. split; [exact Hfile|exact Hlen].
Defined.
(** ** Debug output *)

Lemma extract_content_pure j :
  exists r, forall w,
    (choices <- getitem j "choices" ;;
     choice <- getitem0 choices ;;
     message <- getitem choice "message" ;;
     content <- getitem message "content" ;;
     strip_method content) w = (r, w).
Proof.
  unfold bind, getitem, getitem0, strip_method, ret, raise.
  repeat (case_match; simplify_eq/=; eauto).
Qed.

Lemma print_request_data_run a data w :
  Odin.print_request_data a data w
  = (Ret tt,
     with_stdout
       (stdout w ++ debug_trace (Odin.debug a) (HEADERS w) data NoReply) w).
Proof.
  unfold Odin.print_request_data, debug_trace. destruct (Odin.debug a).
  - unfold bind, print, print_json, modify, get. simpl.
    rewrite print_items_run. simpl. unfold with_stdout; simpl.
    rewrite <- !app_assoc. reflexivity.
  - by rewrite with_stdout_nil.
Qed.

Lemma print_response_data_run a j w :
  Odin.print_response_data a j w
  = (Ret tt,
     with_stdout
       (stdout w ++ (if Odin.debug a then [Printed "Response:"; PrintedJson j]
                     else [])) w).
Proof.
  unfold Odin.print_response_data. destruct (Odin.debug a).
  - unfold bind, print, print_json, modify. simpl. unfold with_stdout; simpl.
    rewrite <- !app_assoc. reflexivity.
  - by rewrite with_stdout_nil.
Qed.

Lemma debug_trace_split on h data st j :
  debug_trace on h data NoReply
  ++ (if on then [Printed "Response:"; PrintedJson j] else [])
  = debug_trace on h data (Reply st (Some j)).
Proof.
  unfold debug_trace. destruct on; [|reflexivity].
  rewrite app_nil_r, <- !app_assoc. reflexivity.
Qed.

(** What one call returns and prints, for any arguments. *)
Lemma odin_send_gpt_request_trace turns limit temp model_name w :
  let data := request_body turns limit temp model_name in
  let rq := request_for w data in
  exists r, forall a,
    Odin.send_gpt_request a turns limit temp model_name w
    = (r, logged rq
            (debug_trace (Odin.debug a) (HEADERS w) data (server w (sent w) rq)) w).
Proof.
  intros data rq.
  assert (Hunfold : forall a,
            Odin.send_gpt_request a turns limit temp model_name
            = (Odin.print_request_data a data ;;
               response <- post API_BASE_URL data ;;
               match response with
               | NoReply => raise ConnectionError
               | Reply st payload =>
                   match payload with
                   | None => raise JSONDecodeError
                   | Some j =>
                       Odin.print_response_data a j ;;
                       if is_error_status st then raise HTTPError
                       else
                         choices <- getitem j "choices" ;;
                         choice <- getitem0 choices ;;
                         message <- getitem choice "message" ;;
                         content <- getitem message "content" ;;
                         strip_method content
                   end
               end)).
  { intros a. unfold Odin.send_gpt_request, data, request_body.
    destruct limit; reflexivity. }
  destruct (server w (sent w) rq) as [|st [j|]] eqn:Hs.
  - exists (Raise ConnectionError). intros a. rewrite Hunfold.
    rewrite (bind_ret_step _ _ _ _ _ (print_request_data_run a data w)).
    unfold bind, post. simpl.
    match goal with |- context [server w (sent w) ?x] => change x with rq end.
    rewrite Hs.
    unfold logged, with_sent, with_stdout. reflexivity.
  - destruct (extract_content_pure j) as [rc Hrc].
    exists (if is_error_status st then Raise HTTPError else rc).
    intros a. rewrite Hunfold.
    rewrite (bind_ret_step _ _ _ _ _ (print_request_data_run a data w)).
    unfold bind at 1, post. simpl.
    match goal with |- context [server w (sent w) ?x] => change x with rq end.
    rewrite Hs.
    rewrite (bind_ret_step _ _ _ _ _ (print_response_data_run a j _)).
    rewrite <- (debug_trace_split (Odin.debug a) (HEADERS w) data st j).
    destruct (is_error_status st).
    + unfold raise, logged, with_sent, with_stdout. simpl.
      by rewrite <- app_assoc.
    + rewrite Hrc. unfold logged, with_sent, with_stdout. simpl.
      by rewrite <- app_assoc.
  - exists (Raise JSONDecodeError). intros a. rewrite Hunfold.
    rewrite (bind_ret_step _ _ _ _ _ (print_request_data_run a data w)).
    unfold bind, post. simpl.
    match goal with |- context [server w (sent w) ?x] => change x with rq end.
    rewrite Hs.
    unfold logged, with_sent, with_stdout. reflexivity.
Qed.

(** The debug flag of [odin.py] only adds output: the value a call returns,
    the request it sends and everything but standard output are the same
    with the flag on and off; and what is printed with the flag on is the
    headers, bearer key included, the request body, and the response body
    when it is JSON. *)
Theorem odin_debug_only_prints turns limit temp model_name w :
  let data := request_body turns limit temp model_name in
  let rq := request_for w data in
  exists r, forall a,
    Odin.send_gpt_request a turns limit temp model_name w
    = (r, logged rq
            (debug_trace (Odin.debug a) (HEADERS w) data (server w (sent w) rq)) w).
Proof. apply odin_send_gpt_request_trace. Qed.

(** With the debug flag on, every call prints each header, so the bearer key
    ends up on standard output. *)
Theorem odin_debug_prints_headers a turns limit temp model_name w k v :
  Odin.debug a = true ->
  In (k, v) (HEADERS w) ->
  In (Printed (k +:+ ": " +:+ v))
     (stdout (snd (Odin.send_gpt_request a turns limit temp model_name w))).
Proof.
  intros Hdebug Hin.
  destruct (odin_send_gpt_request_trace turns limit temp model_name w) as [r Hr].
  rewrite (Hr a), Hdebug. simpl.
  apply in_app_iff. right. right. apply in_app_iff. left.
  apply (in_map (fun kv => Printed (fst kv +:+ ": " +:+ snd kv)) _ (k, v)), Hin.
Qed.

Lemma odin_debug_prints_headers_witness :
  let a := {| Odin.temperature := 1; Odin.system := "You are a helpful assistant";
              Odin.token_limit := None; Odin.file := None;
              Odin.model := Odin.API_DEFAULT_MODEL; Odin.debug := true |} in
  In (Printed "Authorization: Bearer sk-test")
     (stdout (snd (Odin.send_gpt_request a [turn "user" "hi"] None 1
                     Odin.API_DEFAULT_MODEL
                     (with_HEADERS [("Authorization", "Bearer sk-test")] piped_world)))).
Proof.
  intros a.
  apply (odin_debug_prints_headers a [turn "user" "hi"] None 1%Q
           Odin.API_DEFAULT_MODEL
           (with_HEADERS [("Authorization", "Bearer sk-test")] piped_world)
           "Authorization" "Bearer sk-test" eq_refl).
  left. reflexivity.
Defined.

(** ** The requests of a conversation *)

Lemma odin_exchanges_one a h turns message :
  odin_exchanges a h turns
    [{| url := API_BASE_URL; headers := h;
        body := request_body (turns ++ [turn "user" message])
                  (Odin.token_limit a) (Odin.temperature a) (Odin.model a) |}].
Proof. apply (next_exchange a h turns message ""). constructor. Qed.

(** The requests the loop of [odin.py] sends: at most one for each unit of
    fuel, and each the turns so far with one more user message. *)
Lemma odin_chat_loop_exchanges fuel :
  forall a turns message filename w r w',
    Odin.chat_loop fuel a turns message filename w = (r, w') ->
    exists rqs,
      sent w' = sent w ++ rqs
      /\ (List.length rqs <= fuel)%nat
      /\ odin_exchanges a (HEADERS w) turns rqs.
Proof.
  induction fuel as [|fuel IH]; intros a turns message filename w r w'.
  { intros [= <- <-]. exists []. rewrite app_nil_r. split; [done|].
    split; [done|constructor]. }
  destruct (interactive_mode w) eqn:Hmode.
  - destruct (odin_chat_loop_turn fuel a turns message filename w Hmode)
      as (r0 & o & _ & Hturn).
    destruct r0 as [resp| |e|]; try done.
    + cbv zeta in Hturn.
      match type of Hturn with context [dump_json ?p ?v ?w0] =>
        destruct (dump_json_cases p v w0) as [Hd | [e Hd]]; rewrite Hd in Hturn end;
        rewrite Hturn.
      * intros Hrec. apply IH in Hrec as (rqs & Hsent & Hlen & Hex).
        eexists (_ :: rqs). split; [|split; [simpl; lia|]].
        -- rewrite Hsent. simpl. rewrite <- app_assoc. reflexivity.
        -- apply (next_exchange a (HEADERS w) turns message resp). exact Hex.
      * intros [= <- <-]. eexists [_]. split; [reflexivity|].
        split; [simpl; lia|]. apply odin_exchanges_one.
    + rewrite Hturn. intros [= <- <-]. eexists [_]. split; [reflexivity|].
      split; [simpl; lia|]. apply odin_exchanges_one.
  - destruct (odin_chat_loop_piped fuel a turns message filename w Hmode)
      as (r3 & o & -> & _).
    intros [= <- <-]. eexists [_]. split; [reflexivity|].
    split; [simpl; lia|]. apply odin_exchanges_one.
Qed.

Lemma messages_of_request h turns limit temp model_name :
  messages_of {| url := API_BASE_URL; headers := h;
                 body := request_body turns limit temp model_name |} = turns.
Proof. reflexivity. Qed.

(** Along the requests of a conversation the turns only grow: what an
    earlier request sent starts what a later one sends. *)
Lemma odin_exchanges_grow a h turns rqs :
  odin_exchanges a h turns rqs ->
  forall i j ri rj,
    (i <= j)%nat -> rqs !! i = Some ri -> rqs !! j = Some rj ->
    turns `prefix_of` messages_of ri
    /\ messages_of ri `prefix_of` messages_of rj.
Proof.
  induction 1 as [turns|turns message resp rest Hrest IH]; intros i j ri rj Hij Hi Hj.
  { by rewrite lookup_nil in Hi. }
  destruct i as [|i], j as [|j]; simpl in Hi, Hj; try lia.
  - injection Hi as <-. injection Hj as <-.
    rewrite messages_of_request. split; [by apply prefix_app_r|done].
  - injection Hi as <-. rewrite messages_of_request.
    split; [by apply prefix_app_r|].
    destruct (IH j j rj rj) as [Hp _]; [lia|done|done|].
    etrans; [|exact Hp]. by apply prefix_app_r.
  - destruct (IH i j ri rj) as [Hp Hq]; [lia|done|done|].
    split; [|exact Hq]. etrans; [|exact Hp].
    rewrite <- app_assoc. by apply prefix_app_r.
Qed.

Lemma odin_exchanges_shape a h turns rqs :
  odin_exchanges a h turns rqs ->
  forall rq, In rq rqs ->
    rq = {| url := API_BASE_URL; headers := h;
            body := request_body (messages_of rq) (Odin.token_limit a)
                      (Odin.temperature a) (Odin.model a) |}.
Proof.
  induction 1 as [turns|turns message resp rest Hrest IH]; intros rq Hin; [done|].
  destruct Hin as [<-|Hin]; [reflexivity|by apply IH].
Qed.

(** No request of a run of the chat loop drops or edits a turn: each one
    goes to the completion address with the headers, model, temperature and
    limit of the run, and the turns it sends extend those of every earlier
    request. *)
Theorem odin_conversation_only_grows fuel a turns message filename w r w' :
  Odin.chat_loop fuel a turns message filename w = (r, w') ->
  exists rqs,
    sent w' = sent w ++ rqs
    /\ (List.length rqs <= fuel)%nat
    /\ (forall rq, In rq rqs ->
          rq = {| url := API_BASE_URL; headers := HEADERS w;
                  body := request_body (messages_of rq) (Odin.token_limit a)
                            (Odin.temperature a) (Odin.model a) |})
    /\ (forall i j ri rj,
          (i <= j)%nat -> rqs !! i = Some ri -> rqs !! j = Some rj ->
          turns `prefix_of` messages_of ri
          /\ messages_of ri `prefix_of` messages_of rj).
Proof.
  intros Hrun. apply odin_chat_loop_exchanges in Hrun as (rqs & Hsent & Hlen & Hex).
  exists rqs. split; [done|]. split; [done|]. split.
  - exact (odin_exchanges_shape _ _ _ _ Hex).
  - exact (odin_exchanges_grow _ _ _ _ Hex).
Qed.

Lemma odin_conversation_only_grows_witness :
  exists rqs,
    sent (snd (Odin.chat_loop 3 odin_defaults [turn "system" "Be brief"] "hello"
                 "warm_greeting.json"
                 (with_interactive_mode true
                    (with_fs (<[conversations := Dir]> ∅) greeting_world))))
    = rqs
    /\ (List.length rqs <= 3)%nat
    /\ (forall i j ri rj,
          (i <= j)%nat -> rqs !! i = Some ri -> rqs !! j = Some rj ->
          messages_of ri `prefix_of` messages_of rj).
Proof.
  destruct (odin_conversation_only_grows 3 odin_defaults [turn "system" "Be brief"]
              "hello" "warm_greeting.json"
              (with_interactive_mode true
                 (with_fs (<[conversations := Dir]> ∅) greeting_world))
              _ _ (surjective_pairing _))
    as (rqs & Hsent & Hlen & _ & Hgrow).
  exists rqs. split; [exact Hsent|]. split; [exact Hlen|].
  intros i j ri rj Hij Hi Hj. exact (proj2 (Hgrow i j ri rj Hij Hi Hj)).
Defined.
(** ** The key that is sent *)

Lemma lstrip_head s c t : Str.lstrip s = String c t -> Str.isspace c = false.
Proof.
  induction s as [|d s IH]; simpl; [done|].
  destruct (Str.isspace d) eqn:Hd; [exact IH|]. by intros [= <- _].
Qed.

Lemma rstrip_cons c t :
  Str.isspace c = false -> Str.rstrip (String c t) = String c (Str.rstrip t).
Proof. intros Hc. simpl. rewrite Hc. by destruct (Str.rstrip t). Qed.

Lemma rstrip_idempotent s : Str.rstrip (Str.rstrip s) = Str.rstrip s.
Proof.
  induction s as [|c s IH]; simpl; [done|].
  destruct (Str.rstrip s) as [|d r] eqn:Hr.
  - destruct (Str.isspace c) eqn:Hc; simpl; [done|]. by rewrite Hc.
  - change (Str.rstrip (String c (String d r)))
      with (match Str.rstrip (String d r) with
            | EmptyString => if Str.isspace c then EmptyString
                             else String c EmptyString
            | r' => String c r'
            end).
    by rewrite IH.
Qed.

Lemma strip_idempotent s : Str.strip (Str.strip s) = Str.strip s.
Proof.
  unfold Str.strip. destruct (Str.lstrip s) as [|c t] eqn:Hl; [done|].
  pose proof (lstrip_head _ _ _ Hl) as Hc.
  rewrite (rstrip_cons _ _ Hc). simpl Str.lstrip. rewrite Hc.
  rewrite <- (rstrip_cons _ _ Hc). apply rstrip_idempotent.
Qed.

(** The key either loader returns is trimmed: a key file that ends in a
    newline, or a padded variable, gives a key without the padding. *)
Theorem api_key_is_trimmed w key w' :
  Odin.load_api_key w = (Ret key, w') \/ OpenAI.load_api_key w = (Ret key, w') ->
  Str.strip key = key /\ w' = w.
Proof.
  intros [H|H]; revert H.
  - unfold Odin.load_api_key, bind, get.
    destruct (given (env_apikey w)) as [k|].
    { intros [= <- <-]. split; [apply strip_idempotent|done]. }
    destruct (key_file w) as [kf|]; [|done].
    destruct (negb _); [done|].
    destruct (key_text kf) as [text|]; [|done].
    intros [= <- <-]. split; [apply strip_idempotent|done].
  - unfold OpenAI.load_api_key, bind, get.
    destruct (key_file w) as [kf|]; [|done].
    destruct (key_text kf) as [text|]; [|done].
    intros [= <- <-]. split; [apply strip_idempotent|done].
Qed.

Lemma api_key_is_trimmed_witness :
  key_file private_key_world
  = Some {| st_mode := 33152; key_text := Some "sk-file " |}
  /\ Odin.load_api_key private_key_world = (Ret "sk-file", private_key_world)
  /\ Str.strip "sk-file" = "sk-file".
Proof.
  split; [reflexivity|]. split; [reflexivity|].
  apply (api_key_is_trimmed private_key_world "sk-file" private_key_world).
  left. reflexivity.
Defined.

(** ** Exit statuses *)




(** ** What [openai.py] saves in piped mode *)

(** A piped run of [openai.py] that ends normally has saved the conversation
    it started from, the message and the reply, at the place its file name
    lands on. *)
Lemma openai_piped_saves fuel a w w' :
  isatty w = false ->
  OpenAI.script fuel a w = (Ret tt, w') ->
  exists m w1 conversation filename resp,
    mkdir_from [] (resolve (cwd w) (CONVERSATIONS_DIR w)) (fs w) = Some m
    /\ fs w1 = m /\ surroundings w1 = surroundings w
    /\ fst (OpenAI.open_conversation (clock w) a (Str.strip (stdin w)) w1)
       = Ret (conversation, filename)
    /\ fs w'
       = <[target w filename :=
             File (Some (JArr ((conversation
                                ++ [turn "user" (Str.strip (stdin w))])
                               ++ [turn "assistant" resp])))]> m.
Proof.
  intros Htty.
  destruct (openai_script_start a w)
    as [(r1 & w1 & Hrun & [e ->] & _)
       |(m & message & w1 & Hrun & Hm & Hfs & _ & Hsur & Hmsg)];
    rewrite (Hrun fuel); [done|].
  rewrite (Hmsg Htty). unfold bind at 1.
  destruct (OpenAI.open_conversation (clock w) a (Str.strip (stdin w)) w1)
    as [r0 w2] eqn:Hopen.
  pose proof Hopen as Hadv.
  apply openai_open_conversation_advances in Hadv as [Hadv _].
  destruct (advanced_facts _ _ _ Hadv) as (Hfs2 & Hsur2 & _ & _).
  assert (Htty2 : isatty w2 = false).
  { rewrite Hsur in Hsur2. unfold surroundings in Hsur2.
    injection Hsur2 as _ _ _ _ Hi _ _ _. by rewrite Hi. }
  destruct r0 as [[conversation filename]| | |]; try done.
  destruct fuel as [|fuel]; [done|].
  destruct (openai_chat_loop_piped fuel a conversation (Str.strip (stdin w))
              filename w2 Htty2)
    as (r3 & w3 & -> & _ & [(e & -> & _)|[-> (resp & _ & Hfs3)]]); [done|].
  intros [= <-]. exists m, w1, conversation, filename, resp.
  split; [done|]. split; [done|]. split; [done|]. split; [by rewrite Hopen|].
  rewrite Hfs3, Hfs2, Hfs. f_equal. apply target_surroundings. by rewrite Hsur2.
Qed.

(** Resumed in piped mode from an absolute path, [openai.py] rewrites the
    file it loaded, in place: the turns it held, a system turn, the message
    and the reply. *)
Theorem openai_resume_absolute_in_place fuel a w w' f :
  given (OpenAI.file a) = Some f ->
  anchored (parse_path f) = true ->
  isatty w = false ->
  OpenAI.script fuel a w = (Ret tt, w') ->
  exists loaded resp,
    fs w !! resolve (cwd w) (parse_path f) = Some (File (Some (JArr loaded)))
    /\ fs w' !! resolve (cwd w) (parse_path f)
       = Some (File (Some (JArr (loaded
                                 ++ [turn "system" (OpenAI.system a);
                                     turn "user" (Str.strip (stdin w));
                                     turn "assistant" resp])))).
Proof.
  intros Hf Ha Htty Hrun.
  destruct (openai_piped_saves fuel a w w' Htty Hrun)
    as (m & w1 & conversation & filename & resp & Hm & Hfs & Hsur & Hopen & Hfs').
  destruct (OpenAI.open_conversation (clock w) a (Str.strip (stdin w)) w1)
    as [r0 w2] eqn:Ho. simpl in Hopen. subst r0.
  apply (openai_open_resume (clock w) a f Hf) in Ho
    as (-> & -> & file_path & loaded & He & Hn & ->).
  assert (Hcwd : cwd w1 = cwd w).
  { unfold surroundings in Hsur. by injection Hsur as _ _ _ -> _ _ _ _. }
  assert (file_path = parse_path f) as ->.
  { unfold expanduser in He. rewrite Ha in He. by injection He. }
  assert (Ht : target w f = resolve (cwd w) (parse_path f)).
  { unfold target, joinpath. by rewrite Ha. }
  rewrite Hcwd, Hfs in Hn. exists loaded, resp. split.
  - unfold node_at in Hn.
    destruct (resolve (cwd w) (parse_path f)) as [|c q] eqn:E; [done|].
    by apply (mkdir_from_files _ _ _ _ Hm).
  - rewrite Hfs', Ht, lookup_insert_eq. by rewrite <- !app_assoc.
Qed.

Lemma openai_resume_absolute_in_place_witness :
  let w := with_key_file (Some {| st_mode := 33152; key_text := Some "k" |}) None
             (with_fs (fs notes_world)
                (machine false "more" (fun _ _ => completion "Sure."))) in
  exists resp,
    fs (snd (OpenAI.script 1 (openai_resume "/home/u/chat.json") w))
      !! ["home"; "u"; "chat.json"]
    = Some (File (Some (JArr (saved_turns
                              ++ [turn "system" "You are a helpful assistant";
                                  turn "user" "more";
                                  turn "assistant" resp])))).
Proof.
  intros w.
  destruct (openai_resume_absolute_in_place 1 (openai_resume "/home/u/chat.json") w
              (snd (OpenAI.script 1 (openai_resume "/home/u/chat.json") w))
              "/home/u/chat.json" eq_refl eq_refl eq_refl)
    as (loaded & resp & Hbefore & Hafter).
  - vm_compute. reflexivity.
  - exists resp.
    assert (loaded = saved_turns) as <-; [|exact Hafter].
    vm_compute in Hbefore. by injection Hbefore.
Defined.
(** ** The terminal *)

Lemma readline_splits s : fst (Str.readline s) +:+ snd (Str.readline s) = s.
Proof.
  induction s as [|c s IH]; simpl; [reflexivity|].
  destruct (Ascii.eqb c "010"%char); [reflexivity|].
  destruct (Str.readline s) as [l r]. cbn in *. rewrite <- IH. reflexivity.
Qed.

(** ** Interactive runs of [openai.py] *)

Lemma openai_interactive_loop_never_returns fuel :
  forall a turns message filename w r w',
    isatty w = true ->
    OpenAI.chat_loop fuel a turns message filename w = (r, w') ->
    r <> Ret tt.
Proof.
  induction fuel as [|fuel IH]; intros a turns message filename w r w' Htty;
    [by intros [= <- <-]|].
  simpl. unfold bind at 1.
  destruct (openai_send_gpt_request_run a (turns ++ [turn "user" message])
              (OpenAI.token_limit a) (OpenAI.temperature a) w)
    as (r0 & o & -> & Ho & _).
  destruct (reply_outcome_cases _ _ Ho) as [[resp ->]|[e ->]];
    [|by intros [= <- <-]].
  unfold bind at 1, print at 1, modify at 1.
  unfold bind at 1, get at 1.
  unfold bind at 1.
  match goal with |- context [dump_json ?p ?v ?w0] =>
    destruct (dump_json_cases p v w0) as [-> | [e ->]] end;
    [|by intros [= <- <-]].
  cbn [isatty logged with_sent with_stdout with_fs]. rewrite Htty. cbn [negb].
  unfold bind at 1. rewrite openai_get_chat_input_run.
  intros Hrec. apply IH in Hrec; [exact Hrec|exact Htty].
Qed.

(** An interactive run of [openai.py] never ends normally either. *)
Theorem openai_interactive_never_returns fuel a w :
  isatty w = true -> fst (OpenAI.script fuel a w) <> Ret tt.
Proof.
  intros Htty.
  destruct (openai_script_start a w)
    as [(r1 & w1 & Hrun & [e ->] & _)
       |(m & message & w1 & Hrun & _ & _ & _ & Hsur & _)];
    rewrite (Hrun fuel); [done|].
  unfold bind at 1.
  destruct (OpenAI.open_conversation (clock w) a message w1) as [r0 w2] eqn:Hopen.
  apply openai_open_conversation_advances in Hopen as [Hopen _].
  destruct (advanced_facts _ _ _ Hopen) as (_ & Hsur2 & _ & _).
  assert (Htty2 : isatty w2 = true).
  { rewrite Hsur in Hsur2. unfold surroundings in Hsur2.
    injection Hsur2 as _ _ _ _ Hi _ _ _. by rewrite Hi. }
  destruct r0 as [[conversation filename]| | |]; try done.
  destruct (OpenAI.chat_loop fuel a conversation message filename w2)
    as [r3 w3] eqn:Hloop.
  by apply openai_interactive_loop_never_returns in Hloop.
Qed.

Lemma openai_interactive_never_returns_witness :
  fst (OpenAI.script 3 openai_defaults openai_greeting_world) <> Ret tt.
Proof. apply openai_interactive_never_returns. reflexivity. Defined.

(** ** Resuming in piped mode *)

(** Resumed in piped mode, [odin.py] sends the loaded turns, the system
    turn and the message in one request, and saves nothing: the exchange is
    printed and lost. *)
Theorem odin_piped_resume_is_not_saved fuel a w r w' f :
  given (Odin.file a) = Some f ->
  isatty w = false ->
  Odin.script (S fuel) a w = (r, w') ->
  same_files (fs w) (fs w')
  /\ forall u, r = Ret u ->
       exists file_path loaded rq,
         expanduser w (parse_path f) = Some file_path
         /\ fs w !! resolve (cwd w) file_path = Some (File (Some (JArr loaded)))
         /\ sent w' = sent w ++ [rq]
         /\ messages_of rq
            = loaded ++ [turn "system" (Odin.system a);
                         turn "user" (Str.strip (stdin w))].
Proof.
  intros Hf Htty Hrun.
  split; [exact (proj1 (odin_piped_run _ _ _ _ _ Htty Hrun))|].
  revert Hrun.
  destruct (odin_script_start a w)
    as [(r1 & w1 & Hrun & Hr1 & _)
       |(m & message & w1 & Hrun & Hm & Hfs & Hsent & Hsur & Hmode & _ & Hmsg)];
    rewrite (Hrun (S fuel)).
  { intros [= <- <-] u ->. by destruct Hr1 as [|[e ?]]. }
  rewrite (Hmsg Htty). rewrite Htty in Hmode. unfold bind at 1.
  destruct (Odin.open_conversation (S fuel) a (Str.strip (stdin w)) w1)
    as [r0 w2] eqn:Hopen.
  destruct r0 as [[conversation filename]| | |];
    try (intros [= <- <-] u [=]).
  apply (odin_open_resume (S fuel) a f Hf) in Hopen
    as (-> & -> & file_path & loaded & He & Hn & ->).
  destruct (odin_chat_loop_piped fuel a (loaded ++ [turn "system" (Odin.system a)])
              (Str.strip (stdin w)) f w1 Hmode)
    as (r3 & o & -> & _).
  intros [= <- <-] u _.
  assert (Hcwd : cwd w1 = cwd w /\ home w1 = home w /\ pw_home w1 = pw_home w).
  { unfold surroundings in Hsur. by injection Hsur as _ -> -> -> _ _ _ _. }
  destruct Hcwd as (Hcwd & Hhome & Hpw).
  exists file_path, loaded. eexists. split; [|split; [|split]].
  - revert He. unfold expanduser. by rewrite Hhome, Hpw.
  - rewrite Hcwd, Hfs in Hn. unfold node_at in Hn.
    destruct (resolve (cwd w) file_path) as [|c q] eqn:E; [done|].
    by apply (mkdir_from_files _ _ _ _ Hm).
  - simpl. rewrite Hsent. reflexivity.
  - unfold request_for. rewrite messages_of_request. by rewrite <- app_assoc.
Qed.

Lemma odin_piped_resume_is_not_saved_witness :
  let w := with_fs (fs notes_world)
             (machine false "more" (fun _ _ => completion "Sure.")) in
  same_files (fs w) (fs (snd (Odin.script 1 (odin_resume "chat.json") w)))
  /\ exists rq,
       sent (snd (Odin.script 1 (odin_resume "chat.json") w)) = [rq]
       /\ messages_of rq
          = saved_turns ++ [turn "system" "You are a helpful assistant";
                            turn "user" "more"].
Proof.
  intros w.
  destruct (odin_piped_resume_is_not_saved 0 (odin_resume "chat.json") w
              (fst (Odin.script 1 (odin_resume "chat.json") w))
              (snd (Odin.script 1 (odin_resume "chat.json") w))
              "chat.json" eq_refl eq_refl (surjective_pairing _))
    as [Hfiles Hsent].
  split; [exact Hfiles|].
  destruct (Hsent tt) as (file_path & loaded & rq & He & Hn & Hs & Hm);
    [vm_compute; reflexivity|].
  injection He as <-. vm_compute in Hn. injection Hn as <-.
  exists rq. split; [exact Hs|exact Hm].
Defined.

(** ** The key on every request *)

Lemma odin_load_api_key_startup w :
  fst (Odin.load_api_key (Odin.startup w)) = fst (Odin.load_api_key w).
Proof.
  unfold Odin.load_api_key, bind, get. simpl.
  destruct (given (env_apikey w)); [done|].
  destruct (key_file w) as [kf|]; [|done].
  destruct (negb _); [done|]. by destruct (key_text kf).
Qed.

(** A run of [odin.py] that gets to its first message has the key it
    loaded, behind [Bearer ], as its only header. *)
Lemma odin_script_start_headers a w :
  (exists r w',
     (forall fuel, Odin.script fuel a w = (r, w')) /\ sent w' = sent w)
  \/ (exists key message w1,
        (forall fuel,
           Odin.script fuel a w
           = (started <- Odin.open_conversation fuel a message ;;
              let '(conversation_history, filename) := started in
              Odin.chat_loop fuel a conversation_history message filename) w1)
        /\ fst (Odin.load_api_key w) = Ret key
        /\ HEADERS w1 = [("Authorization", "Bearer " +:+ key)]
        /\ sent w1 = sent w).
Proof.
  destruct (odin_load_api_key_cases (Odin.startup w)) as (r0 & o0 & Hload & Hr0).
  destruct Hr0 as [[key ->]|[->|[e ->]]].
  2:{ left. exists (Exit 1). eexists. split.
      - intros fuel. unfold Odin.script, Odin.main.
        apply (bind_exit_step _ _ _ _ _ Hload).
      - done. }
  2:{ left. exists (Raise e). eexists. split.
      - intros fuel. unfold Odin.script, Odin.main.
        apply (bind_raise_step _ _ _ _ _ Hload).
      - done. }
  assert (Hkey : fst (Odin.load_api_key w) = Ret key)
    by (by rewrite <- odin_load_api_key_startup, Hload).
  destruct (mkdir_from [] (resolve (cwd w) (CONVERSATIONS_DIR w)) (fs w))
    as [m|] eqn:Hm.
  - right. destruct (isatty w) eqn:Htty.
    + exists key, (Str.strip (fst (Str.readline (stdin w)))). eexists. split.
      * intros fuel. unfold Odin.script, Odin.main.
        rewrite (bind_ret_step _ _ _ _ _ Hload).
        rewrite bind_modify, bind_get.
        erewrite bind_ret_step by (apply mkdir_p_run; exact Hm).
        rewrite !bind_modify, bind_get.
        cbn [interactive_mode isatty with_interactive_mode with_conversation_file
             with_fs with_HEADERS with_stdout Odin.startup].
        rewrite Htty.
        erewrite bind_ret_step by apply get_chat_input_run.
        reflexivity.
      * done.
    + exists key, (Str.strip (stdin w)). eexists. split.
      * intros fuel. unfold Odin.script, Odin.main.
        rewrite (bind_ret_step _ _ _ _ _ Hload).
        rewrite bind_modify, bind_get.
        erewrite bind_ret_step by (apply mkdir_p_run; exact Hm).
        rewrite !bind_modify, bind_get.
        cbn [interactive_mode isatty with_interactive_mode with_conversation_file
             with_fs with_HEADERS with_stdout Odin.startup].
        rewrite Htty.
        erewrite bind_ret_step by apply stdin_read_strip_run.
        reflexivity.
      * done.
  - left. exists (Raise FileExistsError). eexists. split.
    + intros fuel. unfold Odin.script, Odin.main.
      rewrite (bind_ret_step _ _ _ _ _ Hload).
      rewrite bind_modify, bind_get.
      apply bind_raise_step. apply mkdir_p_fail. exact Hm.
    + done.
Qed.

Lemma odin_open_conversation_requests fuel a message w r w' :
  Odin.open_conversation fuel a message w = (r, w') ->
  HEADERS w' = HEADERS w
  /\ exists rqs,
       sent w' = sent w ++ rqs
       /\ Forall (fun rq => url rq = API_BASE_URL /\ headers rq = HEADERS w) rqs.
Proof.
  unfold Odin.open_conversation.
  destruct (given (Odin.file a)) as [f|] eqn:Hf.
  - intros Hopen.
    assert (w' = w) as ->.
    { revert Hopen. unfold bind at 1, get at 1.
      destruct (expanduser w (parse_path f)) as [file_path|];
        [|by intros [= <- <-]].
      unfold bind at 1, Odin.continue_conversation, bind, load_json.
      destruct (node_at (fs w) (resolve (cwd w) file_path)) as [[|[[]|]]|];
        unfold ret, raise; by intros [= <- <-]. }
    split; [done|]. exists []. by rewrite app_nil_r.
  - unfold bind at 1.
    destruct (odin_generate_slogan_run a message w) as (r0 & o & -> & _ & _).
    assert (Hdone : forall x : world,
              x = logged
                    (request_for w
                       (request_body
                          [turn "system" Odin.slogan_instruction; turn "user" message]
                          (Some 10) (7 # 10)%Q Odin.API_DEFAULT_MODEL)) o w ->
              HEADERS x = HEADERS w
              /\ exists rqs,
                   sent x = sent w ++ rqs
                   /\ Forall (fun rq => url rq = API_BASE_URL
                                        /\ headers rq = HEADERS w) rqs).
    { intros x ->. split; [done|]. eexists [_]. split; [reflexivity|].
      by repeat constructor. }
    destruct r0 as [slogan| | |]; try (intros [= <- <-]; by apply Hdone).
    unfold bind at 1.
    match goal with |- context [Odin.pick_filename fuel ?s ?n ?c ?x] =>
      pose proof (pick_filename_world s x fuel n c) as Hw;
      destruct (Odin.pick_filename fuel s n c x) as [[name| | |] w2]
    end; simpl in Hw; subst w2; intros [= <- <-]; by apply Hdone.
Qed.

(** Every request of a run of [odin.py] goes to the completion address and
    carries one header: the key the loader returned, behind [Bearer ]. *)
Theorem odin_requests_carry_key fuel a w r w' :
  Odin.script fuel a w = (r, w') ->
  exists rqs,
    sent w' = sent w ++ rqs
    /\ forall rq, In rq rqs ->
         url rq = API_BASE_URL
         /\ exists key,
              fst (Odin.load_api_key w) = Ret key
              /\ headers rq = [("Authorization", "Bearer " +:+ key)].
Proof.
  destruct (odin_script_start_headers a w)
    as [(r1 & w1 & Hrun & Hsent)
       |(key & message & w1 & Hrun & Hkey & Hh & Hsent)];
    rewrite (Hrun fuel).
  { intros [= <- <-]. exists []. rewrite app_nil_r. by split. }
  unfold bind at 1.
  destruct (Odin.open_conversation fuel a message w1) as [r0 w2] eqn:Hopen.
  apply odin_open_conversation_requests in Hopen
    as (Hh2 & rqs1 & Hsent2 & Hall1).
  rewrite Hh in Hh2, Hall1.
  assert (Hfirst : forall rq, In rq rqs1 ->
            url rq = API_BASE_URL
            /\ exists key0,
                 fst (Odin.load_api_key w) = Ret key0
                 /\ headers rq = [("Authorization", "Bearer " +:+ key0)]).
  { intros rq Hin. rewrite Forall_forall in Hall1.
    destruct (Hall1 rq) as [Hu Hhd]; [by apply list_elem_of_In|]. eauto. }
  destruct r0 as [[conversation filename]| | |];
    try (intros [= <- <-]; exists rqs1; split;
         [by rewrite Hsent2, Hsent|exact Hfirst]).
  intros Hloop. apply odin_chat_loop_exchanges in Hloop
    as (rqs2 & Hsent3 & _ & Hex).
  exists (rqs1 ++ rqs2). split.
  - by rewrite Hsent3, Hsent2, Hsent, app_assoc.
  - intros rq [Hin|Hin]%in_app_iff; [by apply Hfirst|].
    apply (odin_exchanges_shape _ _ _ _ Hex) in Hin. rewrite Hin, Hh2. simpl. eauto.
Qed.

Lemma odin_requests_carry_key_witness :
  exists rqs,
    sent (snd (Odin.script 1 odin_defaults piped_world)) = rqs
    /\ forall rq, In rq rqs -> headers rq = [("Authorization", "Bearer sk-test")].
Proof.
  destruct (odin_requests_carry_key 1 odin_defaults piped_world _ _
              (surjective_pairing _)) as (rqs & Hsent & Hall).
  exists rqs. split; [exact Hsent|].
  intros rq Hin. destruct (Hall rq Hin) as (_ & key & Hkey & Hh).
  rewrite Hh. vm_compute in Hkey. by injection Hkey as <-.
Defined.
(** ** Refused requests *)

(** Nothing in either script catches an exception, and nothing sends a
    request twice.  This is shown once for the monad and then function by
    function, following the code. *)

Lemma fails_fast_silent {A} (m : M A) : silent m -> fails_fast m.
Proof.
  intros Hm w r w' Hrun. destruct (Hm w) as [Hs Hsent]. rewrite Hrun in Hs, Hsent.
  split; [exact Hs|]. exists []. split; [by rewrite app_nil_r|].
  intros pre rq post Heq. by destruct pre.
Qed.

Lemma refused_later w w1 rqs pre rq :
  surroundings w1 = surroundings w -> sent w1 = sent w ++ rqs ->
  refused w (sent w ++ rqs ++ pre) rq -> refused w1 (sent w1 ++ pre) rq.
Proof.
  unfold refused, surroundings. intros [= _ _ _ _ _ _ Hserver _] Hsent.
  by rewrite Hserver, Hsent, <- app_assoc.
Qed.

Lemma fails_fast_bind {A B} (m : M A) (k : A -> M B) :
  fails_fast m -> (forall a, fails_fast (k a)) -> fails_fast (bind m k).
Proof.
  intros Hm Hk w r w'. unfold bind.
  destruct (m w) as [r1 w1] eqn:E.
  apply Hm in E as (Hs1 & rqs1 & Hsent1 & Hp1).
  assert (Hstop : forall r0 : result B,
            (forall e, r1 = Raise e -> r0 = Raise e) ->
            (forall a, r1 <> Ret a) ->
            (r0, w1) = (r, w') ->
            surroundings w' = surroundings w
            /\ exists rqs,
                 sent w' = sent w ++ rqs
                 /\ forall pre rq post,
                      rqs = pre ++ rq :: post ->
                      refused w (sent w ++ pre) rq ->
                      post = [] /\ exists e, r = Raise e).
  { intros r0 Hr0 Hnot [= <- <-]. split; [exact Hs1|]. exists rqs1.
    split; [exact Hsent1|]. intros pre rq post Heq Href.
    destruct (Hp1 pre rq post Heq Href) as [Hpost [e He]]. eauto. }
  destruct r1 as [a|c|e|];
    [|apply (Hstop (Exit c)); [intros e0 [=]|intros a [=]]
     |apply (Hstop (Raise e)); [by intros e0 [= ->]|intros a [=]]
     |apply (Hstop OutOfFuel); [intros e0 [=]|intros a [=]]].
  intros Hka. apply Hk in Hka as (Hs2 & rqs2 & Hsent2 & Hp2).
  split; [by rewrite Hs2|]. exists (rqs1 ++ rqs2).
  split; [by rewrite Hsent2, Hsent1, app_assoc|].
  intros pre rq post Heq Href.
  apply app_eq_inv in Heq as [(mid & Hl & Hr)|(mid & Hl & Hr)].
  - destruct mid as [|rq' mid]; simpl in Hr.
    + rewrite app_nil_r in Hl. subst pre. apply (Hp2 [] rq post); [by rewrite Hr|].
      apply (refused_later w w1 rqs1); [done..|]. by rewrite app_nil_r.
    + injection Hr as <- ->.
      destruct (Hp1 pre rq mid Hl Href) as [_ [e He]]. discriminate He.
  - subst pre. apply (Hp2 mid rq post Hr).
    by apply (refused_later w w1 rqs1).
Qed.

Lemma silent_ret {A} (a : A) : silent (ret a).
Proof. by intros w. Qed.

Lemma silent_raise {A} e : silent (@raise A e).
Proof. by intros w. Qed.

Lemma silent_get : silent get.
Proof. by intros w. Qed.

Lemma silent_print s : silent (print s).
Proof. by intros w. Qed.

Lemma silent_modify (f : world -> world) :
  (forall w, surroundings (f w) = surroundings w /\ sent (f w) = sent w) ->
  silent (modify f).
Proof. intros Hf w. apply Hf. Qed.

Lemma silent_mkdir_p p : silent (mkdir_p p).
Proof. intros w. unfold mkdir_p. by destruct (mkdir_from _ _ _). Qed.

Lemma silent_dump_json p v : silent (dump_json p v).
Proof.
  intros w. destruct (dump_json_cases p v w) as [-> | [e ->]]; done.
Qed.

Lemma silent_get_chat_input prompt : silent (Odin.get_chat_input prompt).
Proof. intros w. by rewrite get_chat_input_run. Qed.

Lemma silent_stdin_read_strip :
  silent (text <- stdin_read ;; ret (Str.strip text)).
Proof. by intros w. Qed.

Lemma silent_odin_load_api_key : silent Odin.load_api_key.
Proof.
  intros w. destruct (odin_load_api_key_cases w) as (r & o & -> & _). done.
Qed.

Lemma silent_openai_load_api_key : silent OpenAI.load_api_key.
Proof.
  intros w. destruct (openai_load_api_key_cases w) as (r & -> & _). done.
Qed.

Lemma silent_pick_filename fuel slogan filename counter :
  silent (Odin.pick_filename fuel slogan filename counter).
Proof. intros w. by rewrite pick_filename_world. Qed.

Lemma silent_continue_conversation file_path system_message :
  silent (Odin.continue_conversation file_path system_message).
Proof.
  intros w. unfold Odin.continue_conversation, bind, load_json.
  by destruct (node_at (fs w) (resolve (cwd w) file_path)) as [[|[[]|]]|].
Qed.

(** One exchange: the request is sent once, and a refusal is an exception. *)
Lemma fails_fast_odin_send a turns limit temp model_name :
  fails_fast (Odin.send_gpt_request a turns limit temp model_name).
Proof.
  intros w r w' Hrun.
  destruct (odin_send_gpt_request_run a turns limit temp model_name w)
    as (r0 & o & Hsend & Ho & _).
  rewrite Hsend in Hrun. injection Hrun as <- <-.
  split; [reflexivity|]. eexists [_]. split; [reflexivity|].
  intros pre rq post Heq (st & payload & Hs & Hst).
  destruct pre as [|x pre]; [|by destruct pre].
  injection Heq as <- <-. split; [reflexivity|].
  rewrite app_nil_r in Hs. rewrite Hs in Ho.
  eapply reply_outcome_error; [exact Ho|]. by apply is_error_status_true.
Qed.

Lemma fails_fast_openai_send a turns limit temp :
  fails_fast (OpenAI.send_gpt_request a turns limit temp).
Proof. rewrite openai_send_as_odin. apply fails_fast_odin_send. Qed.

Lemma fails_fast_odin_chat_loop fuel :
  forall a turns message filename,
    fails_fast (Odin.chat_loop fuel a turns message filename).
Proof.
  induction fuel as [|fuel IH]; intros a turns message filename.
  { apply fails_fast_silent. by intros w. }
  rewrite odin_chat_loop_unfold.
  apply fails_fast_bind; [apply fails_fast_odin_send|intros response].
  apply fails_fast_bind; [apply fails_fast_silent, silent_print|intros _].
  apply fails_fast_bind; [apply fails_fast_silent, silent_get|intros w0].
  apply fails_fast_bind.
  - destruct (interactive_mode w0); [|apply fails_fast_silent, silent_ret].
    apply fails_fast_bind; [|intros _; apply fails_fast_silent, silent_dump_json].
    apply fails_fast_silent, silent_modify. by intros w.
  - intros _. destruct (negb (interactive_mode w0));
      [apply fails_fast_silent, silent_ret|].
    apply fails_fast_bind; [apply fails_fast_silent, silent_get_chat_input|].
    intros message'. apply IH.
Qed.

Lemma fails_fast_openai_chat_loop fuel :
  forall a turns message filename,
    fails_fast (OpenAI.chat_loop fuel a turns message filename).
Proof.
  induction fuel as [|fuel IH]; intros a turns message filename.
  { apply fails_fast_silent. by intros w. }
  cbn [OpenAI.chat_loop].
  apply fails_fast_bind; [apply fails_fast_openai_send|intros response].
  apply fails_fast_bind; [apply fails_fast_silent, silent_print|intros _].
  apply fails_fast_bind; [apply fails_fast_silent, silent_get|intros w0].
  apply fails_fast_bind; [apply fails_fast_silent, silent_dump_json|intros _].
  destruct (negb (isatty w0)); [apply fails_fast_silent, silent_ret|].
  apply fails_fast_bind; [apply fails_fast_silent, silent_get_chat_input|].
  intros message'. apply IH.
Qed.

Lemma fails_fast_odin_open_conversation fuel a message :
  fails_fast (Odin.open_conversation fuel a message).
Proof.
  unfold Odin.open_conversation. destruct (given (Odin.file a)) as [f|].
  - apply fails_fast_bind; [apply fails_fast_silent, silent_get|intros w0].
    destruct (expanduser w0 (parse_path f)) as [file_path|];
      [|apply fails_fast_silent, silent_raise].
    apply fails_fast_bind;
      [apply fails_fast_silent, silent_continue_conversation|intros c].
    apply fails_fast_silent, silent_ret.
  - apply fails_fast_bind.
    + unfold Odin.generate_slogan.
      apply fails_fast_bind; [apply fails_fast_odin_send|intros response].
      apply fails_fast_silent, silent_ret.
    + intros slogan.
      apply fails_fast_bind; [apply fails_fast_silent, silent_pick_filename|].
      intros filename. apply fails_fast_silent, silent_ret.
Qed.

Lemma fails_fast_openai_open_conversation timestamp a message :
  fails_fast (OpenAI.open_conversation timestamp a message).
Proof.
  unfold OpenAI.open_conversation. destruct (given (OpenAI.file a)) as [f|].
  - apply fails_fast_bind; [apply fails_fast_silent, silent_get|intros w0].
    destruct (expanduser w0 (parse_path f)) as [file_path|];
      [|apply fails_fast_silent, silent_raise].
    apply fails_fast_bind;
      [apply fails_fast_silent, silent_continue_conversation|intros c].
    apply fails_fast_silent, silent_ret.
  - apply fails_fast_bind.
    + unfold OpenAI.generate_slogan.
      apply fails_fast_bind; [apply fails_fast_openai_send|intros response].
      apply fails_fast_silent, silent_ret.
    + intros slogan. apply fails_fast_silent, silent_ret.
Qed.

Lemma fails_fast_odin_main fuel a : fails_fast (Odin.main fuel a).
Proof.
  unfold Odin.main.
  apply fails_fast_bind; [apply fails_fast_silent, silent_odin_load_api_key|].
  intros api_key.
  apply fails_fast_bind;
    [apply fails_fast_silent, silent_modify; by intros w|intros _].
  apply fails_fast_bind; [apply fails_fast_silent, silent_get|intros w0].
  apply fails_fast_bind; [apply fails_fast_silent, silent_mkdir_p|intros _].
  apply fails_fast_bind;
    [apply fails_fast_silent, silent_modify; by intros w|intros _].
  apply fails_fast_bind;
    [apply fails_fast_silent, silent_modify; by intros w|intros _].
  apply fails_fast_bind; [apply fails_fast_silent, silent_get|intros w1].
  apply fails_fast_bind.
  - destruct (interactive_mode w1);
      apply fails_fast_silent;
      [apply silent_get_chat_input|apply silent_stdin_read_strip].
  - intros message.
    apply fails_fast_bind; [apply fails_fast_odin_open_conversation|].
    intros [conversation_history filename]. apply fails_fast_odin_chat_loop.
Qed.

Lemma fails_fast_openai_main fuel a : fails_fast (OpenAI.main fuel a).
Proof.
  unfold OpenAI.main.
  apply fails_fast_bind; [apply fails_fast_silent, silent_openai_load_api_key|].
  intros api_key.
  apply fails_fast_bind;
    [apply fails_fast_silent, silent_modify; by intros w|intros _].
  apply fails_fast_bind; [apply fails_fast_silent, silent_get|intros w0].
  apply fails_fast_bind; [apply fails_fast_silent, silent_mkdir_p|intros _].
  apply fails_fast_bind.
  - destruct (isatty w0);
      apply fails_fast_silent;
      [apply silent_get_chat_input|apply silent_stdin_read_strip].
  - intros message.
    apply fails_fast_bind; [apply fails_fast_openai_open_conversation|].
    intros [conversation_history filename]. apply fails_fast_openai_chat_loop.
Qed.

Lemma fails_fast_odin_script fuel a : fails_fast (Odin.script fuel a).
Proof.
  intros w r w' Hrun. apply (fails_fast_odin_main fuel a (Odin.startup w) r w' Hrun).
Qed.

Lemma fails_fast_openai_script fuel a : fails_fast (OpenAI.script fuel a).
Proof.
  intros w r w' Hrun.
  apply (fails_fast_openai_main fuel a (OpenAI.startup w) r w' Hrun).
Qed.

(** C5, amended.  Every call sends one request whose body holds the full
    turn list, the temperature and the model name, and [max_tokens] exactly
    when a limit is given.  A JSON answer whose status is not from 400 to 599
    gives [choices[0].message.content] trimmed, whether the status is 2xx or
    not; a JSON answer with a status from 400 to 599 makes the call raise
    [HTTPError]; an answer that is no JSON makes it raise [JSONDecodeError].
    Neither script catches the exception or tries again: in a run, a refused
    request is the last one sent and the run ends with an exception. *)
Theorem send_gpt_request_contract :
  (forall a model_name,
     exchange_contract
       (fun turns limit temp => Odin.send_gpt_request a turns limit temp model_name)
       model_name)
  /\ (forall a, exchange_contract (OpenAI.send_gpt_request a) OpenAI.API_MODEL)
  /\ (forall fuel a, fails_fast (Odin.script fuel a))
  /\ (forall fuel a, fails_fast (OpenAI.script fuel a)).
Proof.
  split; [|split; [|split]].
  - intros a model_name. apply exchange_contract_of_run. intros turns limit temp w.
    destruct (odin_send_gpt_request_run a turns limit temp model_name w)
      as (r & o & ? & ? & _). eauto.
  - intros a. apply exchange_contract_of_run. intros turns limit temp w.
    destruct (openai_send_gpt_request_run a turns limit temp w)
      as (r & o & ? & ? & _). eauto.
  - exact fails_fast_odin_script.
  - exact fails_fast_openai_script.
Qed.

Lemma send_gpt_request_witness :
  fst (Odin.send_gpt_request odin_defaults [turn "user" "What is 2+2?"] None 1
         "gpt-3.5-turbo" piped_world) = Ret "4"
  /\ fst (OpenAI.send_gpt_request openai_defaults [turn "user" "hi"] (Some 5) 1
            broken_server_world)
     = Raise HTTPError
  /\ fst (OpenAI.send_gpt_request openai_defaults [turn "user" "hi"] None 1
            (machine false "" (fun _ _ => Reply 200 None)))
     = Raise JSONDecodeError
  /\ (exists e, fst (Odin.script 1 odin_defaults broken_server_world) = Raise e)
  /\ List.length (sent (snd (Odin.script 1 odin_defaults broken_server_world)))
     = 1%nat.
Proof.
  destruct send_gpt_request_contract as (Hodin & Hopenai & Hrun & _).
  split; [|split; [|split; [|split]]].
  - destruct (Hodin odin_defaults "gpt-3.5-turbo" [turn "user" "What is 2+2?"]
                None 1%Q piped_world)
      as (_ & _ & _ & _ & r & w' & Hr & _ & _ & Hok & _).
    rewrite Hr. apply (Hok 200 _ "4" eq_refl); [lia|reflexivity].
  - destruct (Hopenai openai_defaults [turn "user" "hi"] (Some 5) 1%Q
                broken_server_world)
      as (_ & _ & _ & _ & r & w' & Hr & _ & _ & _ & Herr & _).
    rewrite Hr. apply (Herr 500 _ eq_refl). lia.
  - destruct (Hopenai openai_defaults [turn "user" "hi"] None 1%Q
                (machine false "" (fun _ _ => Reply 200 None)))
      as (_ & _ & _ & _ & r & w' & Hr & _ & _ & _ & _ & Hbody).
    rewrite Hr. apply (Hbody 200 eq_refl).
  - destruct (Hrun 1%nat odin_defaults broken_server_world _ _
                (surjective_pairing _)) as (_ & rqs & Hsent & Hlast).
    assert (Hrqs : exists rq, rqs = [] ++ rq :: []).
    { vm_compute in Hsent. rewrite <- Hsent. eexists. reflexivity. }
    destruct Hrqs as [rq Hrqs].
    destruct (Hlast _ _ _ Hrqs) as [_ He]; [|exact He].
    exists 500, (Some (JObj [("error", JStr "overloaded")])). split; [reflexivity|lia].
  - vm_compute. reflexivity.
Defined.

(** Answered [304 Not Modified] with a well-formed body, the call returns
    the content like that of a [200], in either script, and the piped run
    that made the request ends with status 0. *)
Lemma send_gpt_request_counterexample :
  let w := not_modified_world in
  let rq := request_for w (request_body [turn "user" "hi"] None 1 "gpt-3.5-turbo") in
  server w [rq] rq = answer_with 304 "ok"
  /\ ~ (200 <= 304 < 300)
  /\ fst (Odin.send_gpt_request odin_defaults [turn "user" "hi"] None 1
            "gpt-3.5-turbo" (with_sent [rq] w)) = Ret "ok"
  /\ fst (OpenAI.send_gpt_request openai_defaults [turn "user" "hi"] None 1
            (with_sent [rq] w)) = Ret "ok"
  /\ fst (Odin.script 1 odin_defaults w) = Ret tt
  /\ exit_status (fst (Odin.script 1 odin_defaults w)) = Some 0
  /\ stdout (snd (Odin.script 1 odin_defaults w)) = [Printed "ChatGPT: ok"].
Proof.
  split; [reflexivity|]. split; [lia|].
  repeat split; vm_compute; reflexivity.
Qed.
(** ** Piped runs, request by request *)

Lemma odin_load_api_key_ret w key w' :
  Odin.load_api_key w = (Ret key, w') -> w' = w.
Proof.
  unfold Odin.load_api_key, bind, get.
  destruct (given (env_apikey w)) as [k|]; [by intros [= _ <-]|].
  destruct (key_file w) as [kf|]; [|done].
  destruct (negb _); [done|].
  destruct (key_text kf) as [text|]; [|done]. by intros [= _ <-].
Qed.

Lemma reply_outcome_ret rp resp :
  reply_outcome rp (Ret resp) ->
  exists st j c,
    rp = Reply st (Some j) /\ is_error_status st = false
    /\ first_choice_content j = Some (JStr c) /\ resp = Str.strip c.
Proof.
  destruct rp as [|st [j|]]; simpl; try done.
  destruct (is_error_status st) eqn:Hst; [done|].
  destruct (first_choice_content j) as [[]|] eqn:Hc;
    try (by intros [e [=]]).
  intros [= ->]. eauto 10.
Qed.

Lemma request_for_authorized w key data :
  HEADERS w = [("Authorization", "Bearer " +:+ key)] ->
  request_for w data = authorized key data.
Proof. unfold request_for, authorized. by intros ->. Qed.

Lemma surroundings_server w w' :
  surroundings w' = surroundings w -> server w' = server w.
Proof. unfold surroundings. by intros [= _ _ _ _ _ _ ? _]. Qed.

Lemma surroundings_isatty w w' :
  surroundings w' = surroundings w -> isatty w' = isatty w.
Proof. unfold surroundings. by intros [= _ _ _ _ ? _ _ _]. Qed.

(** What is loaded after the conversation directory was made is what was
    there before. *)
Lemma loads_after_mkdir w w1 m f file_path loaded :
  surroundings w1 = surroundings w ->
  mkdir_from [] (resolve (cwd w) (CONVERSATIONS_DIR w)) (fs w) = Some m ->
  fs w1 = m ->
  expanduser w1 (parse_path f) = Some file_path ->
  node_at (fs w1) (resolve (cwd w1) file_path) = Some (File (Some (JArr loaded))) ->
  loads w f loaded.
Proof.
  intros Hsur Hm Hfs He Hn.
  assert (Hcwd : cwd w1 = cwd w /\ home w1 = home w /\ pw_home w1 = pw_home w).
  { unfold surroundings in Hsur. by injection Hsur as _ -> -> -> _ _ _ _. }
  destruct Hcwd as (Hcwd & Hhome & Hpw).
  exists file_path. split.
  - revert He. unfold expanduser. by rewrite Hhome, Hpw.
  - rewrite Hcwd, Hfs in Hn. unfold node_at in Hn.
    destruct (resolve (cwd w) file_path) as [|c q] eqn:E; [done|].
    by apply (mkdir_from_files _ _ _ _ Hm).
Qed.

(** How a piped run of [odin.py] starts: it ends before the conversation,
    or goes on with the trimmed input as message, the key in the headers,
    and nothing printed or sent. *)
Lemma odin_piped_start a w :
  isatty w = false ->
  (exists r w',
     (forall fuel, Odin.script fuel a w = (r, w'))
     /\ (r = Exit 1 \/ exists e, r = Raise e))
  \/ (exists key m w1,
        (forall fuel,
           Odin.script fuel a w
           = (started <- Odin.open_conversation fuel a (Str.strip (stdin w)) ;;
              let '(conversation_history, filename) := started in
              Odin.chat_loop fuel a conversation_history (Str.strip (stdin w))
                filename) w1)
        /\ fst (Odin.load_api_key w) = Ret key
        /\ mkdir_from [] (resolve (cwd w) (CONVERSATIONS_DIR w)) (fs w) = Some m
        /\ fs w1 = m /\ sent w1 = sent w /\ stdout w1 = stdout w
        /\ surroundings w1 = surroundings w
        /\ interactive_mode w1 = false
        /\ HEADERS w1 = [("Authorization", "Bearer " +:+ key)]).
Proof.
  intros Htty.
  destruct (Odin.load_api_key (Odin.startup w)) as [r0 w0] eqn:Hload.
  destruct (odin_load_api_key_cases (Odin.startup w)) as (r0' & o0 & Hload' & Hr0).
  rewrite Hload in Hload'. injection Hload' as <- Hw0.
  destruct Hr0 as [[key ->]|[->|[e ->]]].
  2:{ left. exists (Exit 1), w0. split; [|eauto].
      intros fuel. unfold Odin.script, Odin.main.
      apply (bind_exit_step _ _ _ _ _ Hload). }
  2:{ left. exists (Raise e), w0. split; [|eauto].
      intros fuel. unfold Odin.script, Odin.main.
      apply (bind_raise_step _ _ _ _ _ Hload). }
  pose proof (odin_load_api_key_ret _ _ _ Hload) as ->. clear Hw0.
  assert (Hkey : fst (Odin.load_api_key w) = Ret key)
    by (by rewrite <- odin_load_api_key_startup, Hload).
  destruct (mkdir_from [] (resolve (cwd w) (CONVERSATIONS_DIR w)) (fs w))
    as [m|] eqn:Hm.
  - right. exists key, m. eexists. split.
    + intros fuel. unfold Odin.script, Odin.main.
      rewrite (bind_ret_step _ _ _ _ _ Hload).
      rewrite bind_modify, bind_get.
      erewrite bind_ret_step by (apply mkdir_p_run; exact Hm).
      rewrite !bind_modify, bind_get.
      cbn [interactive_mode isatty with_interactive_mode with_conversation_file
           with_fs with_HEADERS with_stdout Odin.startup].
      rewrite Htty.
      erewrite bind_ret_step by apply stdin_read_strip_run.
      reflexivity.
    + done.
  - left. exists (Raise FileExistsError). eexists. split; [|eauto].
    intros fuel. unfold Odin.script, Odin.main.
    rewrite (bind_ret_step _ _ _ _ _ Hload).
    rewrite bind_modify, bind_get.
    apply bind_raise_step. apply mkdir_p_fail. exact Hm.
Qed.

Lemma openai_piped_start a w :
  isatty w = false ->
  (exists e w',
     (forall fuel, OpenAI.script fuel a w = (Raise e, w')) /\ fs w' = fs w)
  \/ (exists key m w1,
        (forall fuel,
           OpenAI.script fuel a w
           = (started <- OpenAI.open_conversation (clock w) a (Str.strip (stdin w)) ;;
              let '(conversation_history, filename) := started in
              OpenAI.chat_loop fuel a conversation_history (Str.strip (stdin w))
                filename) w1)
        /\ fst (OpenAI.load_api_key w) = Ret key
        /\ mkdir_from [] (resolve (cwd w) (CONVERSATIONS_DIR w)) (fs w) = Some m
        /\ fs w1 = m /\ sent w1 = sent w /\ stdout w1 = stdout w
        /\ surroundings w1 = surroundings w
        /\ HEADERS w1 = [("Authorization", "Bearer " +:+ key)]).
Proof.
  intros Htty.
  destruct (OpenAI.load_api_key (OpenAI.startup w)) as [r0 w0] eqn:Hload.
  destruct (openai_load_api_key_cases (OpenAI.startup w)) as (r0' & Hload' & Hr0).
  rewrite Hload in Hload'. injection Hload' as <- ->.
  destruct Hr0 as [[key ->]|[e ->]].
  2:{ left. exists e, (OpenAI.startup w). split; [|reflexivity].
      intros fuel. unfold OpenAI.script, OpenAI.main.
      apply (bind_raise_step _ _ _ _ _ Hload). }
  assert (Hkey : fst (OpenAI.load_api_key w) = Ret key).
  { revert Hload. unfold OpenAI.load_api_key, bind, get. simpl.
    destruct (key_file w) as [kf|]; [|done].
    destruct (key_text kf); [|done]. by intros [= <-]. }
  destruct (mkdir_from [] (resolve (cwd w) (CONVERSATIONS_DIR w)) (fs w))
    as [m|] eqn:Hm.
  - right. exists key, m. eexists. split.
    + intros fuel. unfold OpenAI.script, OpenAI.main.
      rewrite (bind_ret_step _ _ _ _ _ Hload).
      rewrite bind_modify, bind_get.
      erewrite bind_ret_step by (apply mkdir_p_run; exact Hm).
      cbn [isatty clock with_fs with_HEADERS OpenAI.startup].
      rewrite Htty.
      erewrite bind_ret_step by apply stdin_read_strip_run.
      reflexivity.
    + done.
  - left. exists FileExistsError. eexists. split.
    + intros fuel. unfold OpenAI.script, OpenAI.main.
      rewrite (bind_ret_step _ _ _ _ _ Hload).
      rewrite bind_modify, bind_get.
      apply bind_raise_step. apply mkdir_p_fail. exact Hm.
    + reflexivity.
Qed.

(** A slogan that was returned is the slug of what the server answered. *)
Lemma odin_generate_slogan_ret a prompt w slogan w' :
  Odin.generate_slogan a prompt w = (Ret slogan, w') ->
  let rq := request_for w
              (request_body [turn "system" Odin.slogan_instruction; turn "user" prompt]
                            (Some 10) (7 # 10)%Q Odin.API_DEFAULT_MODEL) in
  exists raw o,
    answers w (sent w) rq raw
    /\ slogan = slug (Str.strip raw)
    /\ w' = logged rq o w.
Proof.
  intros Hgen rq.
  destruct (odin_generate_slogan_run a prompt w) as (r & o & Hr & _ & Ho).
  fold rq in Hr, Ho. rewrite Hr in Hgen. injection Hgen as -> <-.
  destruct (server w (sent w) rq) as [|st [j|]] eqn:Hs;
    try (by destruct Ho as [e [=]]).
  destruct (is_error_status st) eqn:Hst; [done|].
  destruct (first_choice_content j) as [[]|] eqn:Hc;
    try (by case Ho).
  injection Ho as ->. eexists _, o. split; [|done].
  exists st, j. by rewrite Hs.
Qed.

Lemma openai_generate_slogan_ret a prompt w slogan w' :
  OpenAI.generate_slogan a prompt w = (Ret slogan, w') ->
  let rq := request_for w
              (request_body [turn "system" "Summarize text in max three words";
                             turn "user" prompt]
                            (Some 10) (7 # 10)%Q OpenAI.API_MODEL) in
  exists raw o,
    answers w (sent w) rq raw
    /\ slogan = slug (Str.strip raw)
    /\ w' = logged rq o w.
Proof.
  intros Hgen rq.
  destruct (openai_generate_slogan_as_odin a prompt w) as (r & o & Hr & _ & Ho).
  fold rq in Hr, Ho. rewrite Hr in Hgen. injection Hgen as -> <-.
  destruct (server w (sent w) rq) as [|st [j|]] eqn:Hs;
    try (by destruct Ho as [e [=]]).
  destruct (is_error_status st) eqn:Hst; [done|].
  destruct (first_choice_content j) as [[]|] eqn:Hc;
    try (by case Ho).
  injection Ho as ->. eexists _, o. split; [|done].
  exists st, j. by rewrite Hs.
Qed.

(** The one turn of a piped loop of [odin.py] that returns. *)
Lemma odin_chat_loop_piped_ret fuel a turns message filename w w' :
  interactive_mode w = false ->
  Odin.chat_loop fuel a turns message filename w = (Ret tt, w') ->
  let rq := request_for w
              (request_body (turns ++ [turn "user" message])
                 (Odin.token_limit a) (Odin.temperature a) (Odin.model a)) in
  exists c before,
    answers w (sent w) rq c
    /\ w' = logged rq (before ++ [Printed ("ChatGPT: " +:+ Str.strip c)]) w.
Proof.
  intros Hmode Hloop rq. destruct fuel as [|fuel]; [done|].
  destruct (odin_chat_loop_piped fuel a turns message filename w Hmode)
    as (r & o & Hr & Hcases).
  fold rq in Hr, Hcases. rewrite Hr in Hloop. injection Hloop as -> <-.
  destruct Hcases as [[e [=]]|[_ (before & resp & -> & Hout)]].
  apply reply_outcome_ret in Hout as (st & j & c & Hs & Hst & Hc & ->).
  exists c, before. split; [|done]. by exists st, j.
Qed.

(** The one turn of a piped loop of [openai.py] that returns: the file is
    written after the reply is printed. *)
Lemma openai_chat_loop_piped_ret fuel a turns message filename w w' :
  isatty w = false ->
  OpenAI.chat_loop fuel a turns message filename w = (Ret tt, w') ->
  let rq := request_for w
              (request_body (turns ++ [turn "user" message])
                 (OpenAI.token_limit a) (OpenAI.temperature a) OpenAI.API_MODEL) in
  exists c before,
    answers w (sent w) rq c
    /\ w' = with_fs
              (<[target w filename :=
                   File (Some (JArr ((turns ++ [turn "user" message])
                                     ++ [turn "assistant" (Str.strip c)])))]> (fs w))
              (logged rq (before ++ [Printed ("ChatGPT: " +:+ Str.strip c)]) w).
Proof.
  intros Htty Hloop rq. destruct fuel as [|fuel]; [done|].
  revert Hloop. cbn [OpenAI.chat_loop]. unfold bind at 1.
  destruct (openai_send_gpt_request_run a (turns ++ [turn "user" message])
              (OpenAI.token_limit a) (OpenAI.temperature a) w)
    as (r0 & o & Hsend & Ho & _).
  fold rq in Hsend, Ho. rewrite Hsend.
  destruct (reply_outcome_cases _ _ Ho) as [[resp ->]|[e ->]]; [|done].
  apply reply_outcome_ret in Ho as (st & j & c & Hs & Hst & Hc & ->).
  unfold bind at 1, print at 1, modify at 1.
  unfold bind at 1, get at 1.
  unfold bind at 1.
  match goal with |- context [dump_json ?p ?v ?w0] =>
    destruct (dump_json_cases p v w0) as [-> | [e ->]] end; [|done].
  cbn [isatty logged with_sent with_stdout with_fs]. rewrite Htty. cbn [negb].
  intros [= <-]. exists c, o. split; [by exists st, j|].
  unfold target. rewrite <- (app_assoc (stdout w) o). reflexivity.
Qed.

(** A piped run of [odin.py] that ends normally. *)
Lemma odin_piped_exact fuel a w w' :
  isatty w = false ->
  Odin.script fuel a w = (Ret tt, w') ->
  odin_one_shot a w w'.
Proof.
  intros Htty.
  destruct (odin_piped_start a w Htty)
    as [(r & w0 & Hrun & Hr)
       |(key & m & w1 & Hrun & Hkey & Hm & Hfs & Hsent & Hout & Hsur & Hmode & Hh)];
    rewrite (Hrun fuel).
  { intros [= -> _]. by destruct Hr as [|[e ?]]. }
  unfold bind at 1.
  destruct (Odin.open_conversation fuel a (Str.strip (stdin w)) w1)
    as [r0 w2] eqn:Hopen.
  destruct r0 as [[conversation filename]| | |]; try done.
  intros Hloop. unfold odin_one_shot.
  destruct (given (Odin.file a)) as [f|] eqn:Hf.
  - apply (odin_open_resume fuel a f Hf) in Hopen
      as (-> & -> & file_path & loaded & He & Hn & ->).
    apply odin_chat_loop_piped_ret in Hloop as (c & before & Hans & ->);
      [|exact Hmode].
    exists key, (Str.strip c). split; [exact Hkey|]. cbv zeta.
    exists loaded. split; [by eapply loads_after_mkdir|].
    rewrite (request_for_authorized _ key) in Hans |- * by exact Hh.
    rewrite <- app_assoc in Hans |- *. cbn [app] in Hans |- *.
    split; [|split].
    + cbn [sent logged with_sent with_stdout]. by rewrite Hsent.
    + exists c. split; [|done]. rewrite app_nil_r.
      destruct Hans as (st & j & Hs & Hrest). exists st, j.
      by rewrite <- Hsent, <- (surroundings_server _ _ Hsur).
    + exists (stdout w1 ++ before). cbn [stdout logged with_sent with_stdout].
      by rewrite <- app_assoc.
  - revert Hopen. unfold Odin.open_conversation. rewrite Hf. unfold bind at 1.
    destruct (Odin.generate_slogan a (Str.strip (stdin w)) w1)
      as [[slogan| | |] w3] eqn:Hgen; try done.
    apply odin_generate_slogan_ret in Hgen as (raw & o & Hraw & -> & ->).
    unfold bind at 1.
    match goal with |- context [Odin.pick_filename fuel ?s ?n ?c ?x] =>
      pose proof (pick_filename_world s x fuel n c) as Hw;
      destruct (Odin.pick_filename fuel s n c x) as [[name| | |] w4]
    end; try done. simpl in Hw. subst w4. intros [= <- <- <-].
    apply odin_chat_loop_piped_ret in Hloop as (c & before & Hans & ->);
      [|exact Hmode].
    exists key, (Str.strip c). split; [exact Hkey|]. cbv zeta.
    assert (Hh2 : HEADERS
                    (logged
                       (request_for w1
                          (request_body
                             [turn "system" Odin.slogan_instruction;
                              turn "user" (Str.strip (stdin w))]
                             (Some 10) (7 # 10)%Q Odin.API_DEFAULT_MODEL)) o w1)
                  = [("Authorization", "Bearer " +:+ key)]) by exact Hh.
    rewrite (request_for_authorized _ key _ Hh2) in Hans |- *.
    rewrite (request_for_authorized _ key _ Hh) in Hraw, Hans |- *.
    cbn [app] in Hans |- *.
    split; [|split; [|split]].
    + exists raw. destruct Hraw as (st & j & Hs & Hrest). exists st, j.
      by rewrite <- Hsent, <- (surroundings_server _ _ Hsur).
    + cbn [sent logged with_sent with_stdout]. by rewrite Hsent, <- app_assoc.
    + exists c. split; [|done].
      destruct Hans as (st & j & Hs & Hrest). exists st, j.
      revert Hs. cbn [sent server logged with_sent with_stdout].
      by rewrite Hsent, (surroundings_server _ _ Hsur).
    + eexists (stdout w1 ++ o ++ before).
      cbn [stdout logged with_sent with_stdout]. by rewrite <- !app_assoc.
Qed.

Lemma only_writes_insert w m t v :
  same_files (fs w) m -> only_writes t (fs w) (<[t := v]> m).
Proof.
  intros Hm q d Hq. rewrite lookup_insert_ne by done. apply Hm.
Qed.

(** A piped run of [openai.py] that ends normally. *)
Lemma openai_piped_exact fuel a w w' :
  isatty w = false ->
  OpenAI.script fuel a w = (Ret tt, w') ->
  openai_one_shot a w w'.
Proof.
  intros Htty.
  destruct (openai_piped_start a w Htty)
    as [(e & w0 & Hrun & _)
       |(key & m & w1 & Hrun & Hkey & Hm & Hfs & Hsent & Hout & Hsur & Hh)];
    rewrite (Hrun fuel); [done|].
  unfold bind at 1.
  destruct (OpenAI.open_conversation (clock w) a (Str.strip (stdin w)) w1)
    as [r0 w2] eqn:Hopen.
  destruct r0 as [[conversation filename]| | |]; try done.
  intros Hloop. unfold openai_one_shot.
  assert (Htty1 : isatty w1 = false)
    by (by rewrite (surroundings_isatty _ _ Hsur)).
  pose proof (mkdir_from_files _ _ _ _ Hm) as Hfiles.
  destruct (given (OpenAI.file a)) as [f|] eqn:Hf.
  - apply (openai_open_resume (clock w) a f Hf) in Hopen
      as (-> & -> & file_path & loaded & He & Hn & ->).
    apply openai_chat_loop_piped_ret in Hloop as (c & before & Hans & ->);
      [|exact Htty1].
    exists key, (Str.strip c). split; [exact Hkey|]. cbv zeta.
    exists loaded. split; [by eapply loads_after_mkdir|].
    rewrite (request_for_authorized _ key) in Hans |- * by exact Hh.
    rewrite (target_surroundings _ _ _ Hsur).
    rewrite <- (app_assoc loaded) in Hans |- *. cbn [app] in Hans |- *.
    split; [split; [|split]|split].
    + cbn [sent logged with_sent with_stdout with_fs]. by rewrite Hsent.
    + exists c. split; [|done]. rewrite app_nil_r.
      destruct Hans as (st & j & Hs & Hrest). exists st, j.
      by rewrite <- Hsent, <- (surroundings_server _ _ Hsur).
    + exists (stdout w1 ++ before).
      cbn [stdout logged with_sent with_stdout with_fs]. by rewrite <- app_assoc.
    + cbn [fs with_fs]. rewrite Hfs. by apply only_writes_insert.
    + cbn [fs with_fs]. apply lookup_insert_eq.
  - revert Hopen. unfold OpenAI.open_conversation. rewrite Hf. unfold bind at 1.
    destruct (OpenAI.generate_slogan a (Str.strip (stdin w)) w1)
      as [[slogan| | |] w3] eqn:Hgen; try done.
    apply openai_generate_slogan_ret in Hgen as (raw & o & Hraw & -> & ->).
    unfold ret. intros [= <- <- <-].
    assert (Htty2 : forall rq, isatty (logged rq o w1) = false)
      by (intros rq; exact Htty1).
    apply openai_chat_loop_piped_ret in Hloop as (c & before & Hans & ->);
      [|apply Htty2].
    exists key, (Str.strip c). split; [exact Hkey|]. cbv zeta.
    exists raw.
    assert (Hh2 : HEADERS
                    (logged
                       (request_for w1
                          (request_body
                             [turn "system" "Summarize text in max three words";
                              turn "user" (Str.strip (stdin w))]
                             (Some 10) (7 # 10)%Q OpenAI.API_MODEL)) o w1)
                  = [("Authorization", "Bearer " +:+ key)]) by exact Hh.
    rewrite (request_for_authorized _ key _ Hh2) in Hans |- *.
    rewrite (request_for_authorized _ key _ Hh) in Hraw, Hans |- *.
    assert (Ht : forall rq name, target (logged rq o w1) name = target w name)
      by (intros rq name; apply target_surroundings; exact Hsur).
    rewrite Ht. cbn [app] in Hans |- *.
    split; [|split; [split; [|split]|split]].
    + destruct Hraw as (st & j & Hs & Hrest). exists st, j.
      by rewrite <- Hsent, <- (surroundings_server _ _ Hsur).
    + cbn [sent logged with_sent with_stdout with_fs].
      by rewrite Hsent, <- app_assoc.
    + exists c. split; [|done].
      destruct Hans as (st & j & Hs & Hrest). exists st, j.
      revert Hs. cbn [sent server logged with_sent with_stdout].
      by rewrite Hsent, (surroundings_server _ _ Hsur).
    + eexists (stdout w1 ++ o ++ before).
      cbn [stdout logged with_sent with_stdout with_fs]. by rewrite <- !app_assoc.
    + cbn [fs logged with_sent with_stdout with_fs]. rewrite Hfs.
      by apply only_writes_insert.
    + cbn [fs with_fs]. apply lookup_insert_eq.
Qed.

(** A piped run of [openai.py] that does not end normally has written no
    file. *)
Lemma openai_piped_failure_keeps_files fuel a w r w' :
  isatty w = false ->
  OpenAI.script fuel a w = (r, w') ->
  r <> Ret tt -> same_files (fs w) (fs w').
Proof.
  intros Htty.
  destruct (openai_script_start a w)
    as [(r1 & w1 & Hrun & Hr1 & Hfs & _)
       |(m & message & w1 & Hrun & Hm & Hfs & _ & Hsur & _)];
    rewrite (Hrun fuel).
  { intros [= <- <-] _. rewrite Hfs. apply same_files_refl. }
  apply mkdir_from_files in Hm. unfold bind at 1.
  destruct (OpenAI.open_conversation (clock w) a message w1) as [r0 w2] eqn:Hopen.
  apply openai_open_conversation_advances in Hopen as [Hopen _].
  destruct (advanced_facts _ _ _ Hopen) as (Hfs2 & Hsur2 & _ & _).
  assert (Htty2 : isatty w2 = false).
  { rewrite (surroundings_isatty _ _ Hsur2), (surroundings_isatty _ _ Hsur).
    exact Htty. }
  destruct r0 as [[conversation filename]| | |];
    try (intros [= <- <-] _; by rewrite Hfs2, Hfs).
  destruct fuel as [|fuel]; [intros [= <- <-] _; by rewrite Hfs2, Hfs|].
  destruct (openai_chat_loop_piped fuel a conversation message filename w2 Htty2)
    as (r3 & w3 & -> & _ & [(e & -> & Hfs3)|[-> _]]).
  - intros [= <- <-] _. by rewrite Hfs3, Hfs2, Hfs.
  - by intros [= <- <-] [].
Qed.

(** C2, amended.  In piped mode both scripts run their loop once and end:
    with enough fuel a run never runs out.  A run that ends normally has
    sent one request in resume mode, the chat request with the loaded turns,
    the system turn and the trimmed input, and two in a new conversation,
    the slogan request first; the last thing it printed is the server's reply
    to the chat request, trimmed, behind [ChatGPT: ].  [odin.py] leaves every
    regular file as it was.  [openai.py] writes one file when it ends
    normally, at the conversation directory joined with the file name, which
    is the raw [--file] argument or the time and the slug; it writes none
    when it ends otherwise. *)
Theorem piped_one_shot :
  (forall fuel a w r w',
     isatty w = false ->
     Odin.script fuel a w = (r, w') ->
     same_files (fs w) (fs w')
     /\ (List.length (sent w')
         <= List.length (sent w) + requests_planned (Odin.file a))%nat
     /\ (r = Ret tt -> odin_one_shot a w w'))
  /\ (forall a w,
        isatty w = false ->
        exists n, forall fuel,
          (n <= fuel)%nat -> fst (Odin.script fuel a w) <> OutOfFuel)
  /\ (forall fuel a w r w',
        isatty w = false ->
        OpenAI.script fuel a w = (r, w') ->
        (List.length (sent w')
         <= List.length (sent w) + requests_planned (OpenAI.file a))%nat
        /\ (r = Ret tt -> openai_one_shot a w w')
        /\ (r <> Ret tt -> same_files (fs w) (fs w')))
  /\ (forall a w fuel,
        isatty w = false -> (1 <= fuel)%nat ->
        fst (OpenAI.script fuel a w) <> OutOfFuel).
Proof.
  split; [|split; [exact odin_piped_terminates|split;
                   [|exact openai_piped_terminates]]].
  - intros fuel a w r w' Htty Hrun.
    destruct (odin_piped_run fuel a w r w' Htty Hrun) as (Hfiles & Hbound & _).
    split; [exact Hfiles|]. split; [exact Hbound|].
    intros ->. by apply (odin_piped_exact fuel).
  - intros fuel a w r w' Htty Hrun.
    destruct (openai_piped_run fuel a w r w' Htty Hrun) as (Hbound & _).
    split; [exact Hbound|]. split.
    + intros ->. by apply (openai_piped_exact fuel).
    + by apply (openai_piped_failure_keeps_files fuel a).
Qed.

Lemma piped_one_shot_witness :
  (same_files (fs piped_world) (fs (snd (Odin.script 1 odin_defaults piped_world)))
   /\ List.length (sent (snd (Odin.script 1 odin_defaults piped_world))) = 2%nat
   /\ prints_reply_last (snd (Odin.script 1 odin_defaults piped_world)) "4")
  /\ (exists n, forall fuel,
        (n <= fuel)%nat -> fst (Odin.script fuel odin_defaults piped_world) <> OutOfFuel)
  /\ (List.length
        (sent (snd (OpenAI.script 1 (openai_resume "/tmp/x.json") absolute_world)))
      = 1%nat
      /\ fs (snd (OpenAI.script 1 (openai_resume "/tmp/x.json") absolute_world))
           !! ["tmp"; "x.json"]
         = Some (File (Some (JArr (saved_turns
                                   ++ [turn "system" "You are a helpful assistant";
                                       turn "user" "more";
                                       turn "assistant" "Sure."])))))
  /\ fst (OpenAI.script 1 openai_defaults private_key_world) <> OutOfFuel.
Proof.
  destruct piped_one_shot as (Hodin & Hodin_ends & Hopenai & Hopenai_ends).
  split.
  { destruct (Hodin 1%nat odin_defaults piped_world _ _ eq_refl
                (surjective_pairing _)) as (Hfiles & _ & Hret).
    split; [exact Hfiles|].
    destruct Hret as (key & resp & _ & _ & Hsent & Hreply & Hprint);
      [vm_compute; reflexivity|].
    split; [by rewrite Hsent|].
    destruct Hreply as (c & (st & j & Hs & _ & Hc) & ->).
    injection Hs as <- <-. vm_compute in Hc. injection Hc as <-.
    exact Hprint. }
  split; [exact (Hodin_ends odin_defaults piped_world eq_refl)|].
  split.
  { destruct (Hopenai 1%nat (openai_resume "/tmp/x.json") absolute_world _ _
                eq_refl (surjective_pairing _)) as (_ & Hret & _).
    destruct Hret as (key & resp & _ & loaded & Hloads & Hshot & _ & Hfile);
      [vm_compute; reflexivity|].
    destruct Hshot as (Hsent & Hreply & _).
    split; [by rewrite Hsent|].
    destruct Hloads as (file_path & He & Hl). injection He as <-.
    vm_compute in Hl. injection Hl as <-.
    destruct Hreply as (c & (st & j & Hs & _ & Hc) & ->).
    injection Hs as <- <-. vm_compute in Hc. injection Hc as <-.
    exact Hfile. }
  apply (Hopenai_ends openai_defaults private_key_world 1%nat eq_refl). lia.
Defined.

(** Piped into [openai.py], [What is 2+2?] leaves a new file in the
    conversation directory; piped into [odin.py], it costs two requests, the
    first one for a slogan nobody uses. *)
Lemma piped_one_shot_counterexample :
  isatty private_key_world = false
  /\ fst (OpenAI.script 1 openai_defaults private_key_world) = Ret tt
  /\ fs private_key_world !! stamped "" = None
  /\ fs (snd (OpenAI.script 1 openai_defaults private_key_world)) !! stamped ""
     = Some (File (Some (JArr [turn "system" "You are a helpful assistant";
                               turn "user" "What is 2+2?";
                               turn "assistant" "4"])))
  /\ isatty piped_world = false
  /\ fst (Odin.script 1 odin_defaults piped_world) = Ret tt
  /\ List.length (sent (snd (Odin.script 1 odin_defaults piped_world))) = 2%nat.
Proof. repeat split; vm_compute; reflexivity. Qed.
(** ** Resume mode: what is on disk after a turn *)








(** ** Leaving [main] through [sys.exit] *)



(** ** What a new conversation of [openai.py] is saved as *)

(** A new conversation piped into [openai.py] that ends normally is saved
    in the conversation directory under the time and the slug of what the
    server answered to the slogan request, whatever is there already, as
    three turns: the system message, the trimmed input, and what the server
    answered to the chat request, trimmed. *)
Theorem openai_new_conversation_saved fuel a w w' :
  given (OpenAI.file a) = None ->
  no_slash (clock w) = true ->
  isatty w = false ->
  OpenAI.script fuel a w = (Ret tt, w') ->
  exists key raw c,
    fst (OpenAI.load_api_key w) = Ret key
    /\ let message := Str.strip (stdin w) in
       let slogan :=
         authorized key
           (request_body [turn "system" "Summarize text in max three words";
                          turn "user" message]
              (Some 10) (7 # 10)%Q OpenAI.API_MODEL) in
       let chat :=
         authorized key
           (request_body [turn "system" (OpenAI.system a); turn "user" message]
              (OpenAI.token_limit a) (OpenAI.temperature a) OpenAI.API_MODEL) in
       answers w (sent w) slogan raw
       /\ answers w (sent w ++ [slogan]) chat c
       /\ fs w' !! (resolve (cwd w) (CONVERSATIONS_DIR w)
                    ++ [clock w +:+ "_" +:+ slug (Str.strip raw) +:+ ".json"])
          = Some (File (Some (JArr [turn "system" (OpenAI.system a);
                                    turn "user" message;
                                    turn "assistant" (Str.strip c)]))).
Proof.
  intros Hf Hclock Htty Hrun.
  destruct (openai_piped_exact fuel a w w' Htty Hrun) as (key & resp & Hkey & Hshot).
  rewrite Hf in Hshot. cbv zeta in Hshot.
  destruct Hshot as (raw & Hraw & (_ & (c & Hc & ->) & _) & _ & Hfile).
  exists key, raw, c. split; [exact Hkey|]. cbv zeta.
  split; [exact Hraw|]. split; [exact Hc|].
  set (name := clock w +:+ "_" +:+ slug (Str.strip raw) +:+ ".json") in *.
  assert (Hname : no_slash name = true).
  { unfold name, no_slash in *. rewrite !forallb_append, Hclock. simpl.
    fold (no_slash (slug (Str.strip raw))). by rewrite slug_no_slash. }
  assert (Hlen : (2 < String.length name)%nat).
  { unfold name. rewrite !length_append. simpl. lia. }
  assert (Ht : target w name = resolve (cwd w) (CONVERSATIONS_DIR w) ++ [name]).
  { unfold target. rewrite resolve_join_plain; rewrite (parse_single _ Hname Hlen);
      simpl; [reflexivity..|].
    constructor; [|constructor]. intros Heq. rewrite Heq in Hlen. simpl in Hlen. lia. }
  rewrite <- Ht. exact Hfile.
Qed.

Lemma openai_new_conversation_saved_witness :
  fs (snd (OpenAI.script 1 openai_defaults private_key_world))
    !! (conversations ++ ["2024-05-01T10:00:00_.json"])
  = Some (File (Some (JArr [turn "system" "You are a helpful assistant";
                            turn "user" "What is 2+2?";
                            turn "assistant" "4"]))).
Proof.
  destruct (openai_new_conversation_saved 1 openai_defaults private_key_world
              (snd (OpenAI.script 1 openai_defaults private_key_world))
              eq_refl eq_refl eq_refl)
    as (key & raw & c & _ & Hraw & Hc & Hfile); [vm_compute; reflexivity|].
  destruct Hraw as (st1 & j1 & Hs1 & _ & Hc1).
  destruct Hc as (st2 & j2 & Hs2 & _ & Hc2).
  injection Hs1 as <- <-. injection Hs2 as <- <-.
  vm_compute in Hc1. injection Hc1 as <-.
  vm_compute in Hc2. injection Hc2 as <-.
  exact Hfile.
Defined.

(** ** One line of input *)

Lemma readline_line s :
  (exists body,
     fst (Str.readline s) = body +:+ newline /\ no_newline body = true)
  \/ (no_newline s = true /\ fst (Str.readline s) = s /\ snd (Str.readline s) = "").
Proof.
  induction s as [|c s IH]; simpl; [by right|].
  destruct (Ascii.eqb c "010"%char) eqn:Hc.
  - left. exists "". apply Ascii.eqb_eq in Hc as ->. by split.
  - destruct (Str.readline s) as [l r]. simpl in *.
    unfold no_newline in *. simpl. rewrite Hc. simpl.
    destruct IH as [(body & -> & Hbody)|(Hs & -> & ->)].
    + left. exists (String c body). split; [reflexivity|]. simpl. by rewrite Hc.
    + by right.
Qed.

(** The first line of a text is determined by the text. *)
Lemma first_line_unique body body' rest rest' :
  no_newline body = true -> no_newline body' = true ->
  (body +:+ newline) +:+ rest = (body' +:+ newline) +:+ rest' ->
  body = body' /\ rest = rest'.
Proof.
  revert body'. induction body as [|c body IH]; intros [|c' body'];
    unfold no_newline; simpl; intros Hb Hb' Heq.
  - by injection Heq.
  - injection Heq as <- _. discriminate Hb'.
  - injection Heq as -> _. discriminate Hb.
  - injection Heq as <- Heq.
    apply andb_true_iff in Hb as [_ Hb]. apply andb_true_iff in Hb' as [_ Hb'].
    destruct (IH body' Hb Hb' Heq) as [-> ->]. done.
Qed.

(** [get_chat_input], the same in both scripts, writes the prompt and
    takes one line off the input: what it reads ends with the first newline
    of the input and holds no other, or is all of an input that holds no
    newline; what it reads and what it leaves make up the input as it was;
    the message is what it read, trimmed.  At the end of the input the
    message is empty and the input stays at its end. *)
Theorem get_chat_input_takes_one_line prompt w :
  exists line w',
    Odin.get_chat_input prompt w = (Ret (Str.strip line), w')
    /\ OpenAI.get_chat_input prompt w = (Ret (Str.strip line), w')
    /\ stdout w' = stdout w ++ [Wrote prompt]
    /\ line +:+ stdin w' = stdin w
    /\ ((exists body, line = body +:+ newline /\ no_newline body = true)
        \/ (no_newline (stdin w) = true /\ line = stdin w /\ stdin w' = ""))
    /\ (stdin w = "" -> line = "" /\ stdin w' = "")
    /\ fs w' = fs w /\ sent w' = sent w.
Proof.
  exists (fst (Str.readline (stdin w))). eexists.
  split; [apply get_chat_input_run|]. split; [apply openai_get_chat_input_run|].
  split; [reflexivity|]. split; [apply readline_splits|].
  split; [apply readline_line|].
  split; [|done]. simpl. by intros ->.
Qed.

Lemma get_chat_input_takes_one_line_witness :
  exists w',
    Odin.get_chat_input "You: " typed_ahead_world = (Ret "hello", w')
    /\ stdin w' = "world".
Proof.
  destruct (get_chat_input_takes_one_line "You: " typed_ahead_world)
    as (line & w' & Hodin & _ & _ & Hsplit & Hline & _).
  destruct Hline as [(body & -> & Hbody)|(Hno & _)]; [|discriminate Hno].
  destruct (first_line_unique body " hello " (stdin w') "world" Hbody eq_refl Hsplit)
    as [-> Hrest].
  exists w'. split; [exact Hodin|exact Hrest].
Defined.
